(** * nekro-agent: the aipyapp executor service

    A shallow embedding of

    - [nekro_agent/services/aipyapp_executor/bridge.py]
    - [nekro_agent/services/aipyapp_executor/task_manager.py]
    - [nekro_agent/services/aipyapp_executor/sandbox_executor.py]
    - [plugins/builtin/aipyapp_orchestrator.py] (the workflow tool)

    Conventions of the embedding.

    - A Python [dict] is insertion ordered; it is an association list
      with unique keys ([Py.Dict]).  Assigning to a present key keeps
      its position, assigning to a fresh key appends.
    - [time.time()] returns a float.  Timestamps and durations are
      exact rationals ([Q]); rounding of float subtraction is not
      modelled.  Every clock reading is an argument of the operation
      that makes it.
    - What the opaque aipyapp library and the operating system do during
      a call (directory creation, [Task.run], the deadline of
      [asyncio.wait_for]) is an argument of the operation, too.
    - Exceptions are instances of [Exception]; [KeyboardInterrupt] and
      other bare [BaseException]s are outside the model.  An operation
      that can raise returns a [Py.Result].
    - Whether [json.dumps] accepts what a tool hands it is an argument
      of the tool as well: the variables of a result are filtered by
      their top-level class only, so a list that holds a set passes the
      filter and makes [json.dumps] raise. *)

From Stdlib Require Import String Ascii ZArith QArith List Bool Lia Lqa.
From Stdlib Require Import DecimalString.
Import ListNotations.

Close Scope Q_scope.
Open Scope string_scope.
Open Scope list_scope.

Infix "+:+" := String.append (at level 60, right associativity) : string_scope.

(** ** Python data *)

Module Py.

(** [str(n)] for an [int]. *)
Definition str_of_int (z : Z) : string :=
  NilZero.string_of_int (Z.to_int z).

(** [a < b] on floats. *)
Definition Qltb (a b : Q) : bool := negb (Qle_bool b a).

(** The classes the sources test values against.  [TClass] stands for
    any class that derives from none of the others. *)
Inductive Ty : Type :=
| TNoneType
| TBool
| TInt
| TFloat
| TStr
| TList
| TDict
| TClass (name : string).

Definition Ty_eqb (a b : Ty) : bool :=
  match a, b with
  | TNoneType, TNoneType => true
  | TBool, TBool => true
  | TInt, TInt => true
  | TFloat, TFloat => true
  | TStr, TStr => true
  | TList, TList => true
  | TDict, TDict => true
  | TClass n, TClass m => String.eqb n m
  | _, _ => false
  end.

(** [issubclass(a, b)]: [bool] derives from [int]. *)
Definition issubclass (a b : Ty) : bool :=
  match a, b with
  | TBool, TInt => true
  | _, _ => Ty_eqb a b
  end.

#[warnings="-register-all"]
Inductive Value : Type :=
| VNone
| VBool (b : bool)
| VInt (z : Z)
| VFloat (q : Q)
| VStr (s : string)
| VList (items : list Value)
| VDict (items : list (Value * Value))
| VObject (class_name : string).

(** [type(v)], up to subclassing of the built-in classes. *)
Definition type (v : Value) : Ty :=
  match v with
  | VNone => TNoneType
  | VBool _ => TBool
  | VInt _ => TInt
  | VFloat _ => TFloat
  | VStr _ => TStr
  | VList _ => TList
  | VDict _ => TDict
  | VObject n => TClass n
  end.

(** [isinstance(v, (c1, ..., cn))]. *)
Definition isinstance (v : Value) (classes : list Ty) : bool :=
  existsb (issubclass (type v)) classes.

(** A [dict] keyed by strings, in insertion order. *)
Definition Dict (V : Type) : Type := list (string * V).

Definition keys {V : Type} (d : Dict V) : list string := map fst d.

Definition values {V : Type} (d : Dict V) : list V := map snd d.

(** [d.get(k)]. *)
Fixpoint get {V : Type} (d : Dict V) (k : string) : option V :=
  match d with
  | [] => None
  | (k', v) :: d' => if String.eqb k k' then Some v else get d' k
  end.

(** [k in d]. *)
Definition contains {V : Type} (d : Dict V) (k : string) : bool :=
  match get d k with
  | Some _ => true
  | None => false
  end.

(** [d[k] = v]. *)
Fixpoint set {V : Type} (d : Dict V) (k : string) (v : V) : Dict V :=
  match d with
  | [] => [(k, v)]
  | (k', v') :: d' =>
      if String.eqb k k' then (k', v) :: d' else (k', v') :: set d' k v
  end.

(** [del d[k]] where [k] is present; nothing otherwise. *)
Fixpoint remove {V : Type} (d : Dict V) (k : string) : Dict V :=
  match d with
  | [] => []
  | (k', v') :: d' =>
      if String.eqb k k' then d' else (k', v') :: remove d' k
  end.

(** [d.update(other)]. *)
Definition update {V : Type} (d other : Dict V) : Dict V :=
  fold_left (fun acc kv => set acc (fst kv) (snd kv)) other d.

(** A dict of string keys as a value. *)
Definition dict_value (d : Dict Value) : Value :=
  VDict (map (fun kv => (VStr (fst kv), snd kv)) d).

(** The well-formedness of a dict: no key twice. *)
Definition wf {V : Type} (d : Dict V) : Prop := NoDup (keys d).

(** [min(xs, key=f)] on a non-empty sequence [best :: rest]: the first
    element no later element is strictly below. *)
Fixpoint min_by {A : Type} (f : A -> Q) (best : A) (rest : list A) : A :=
  match rest with
  | [] => best
  | x :: xs => if Qltb (f x) (f best) then min_by f x xs else min_by f best xs
  end.

(** ["\n".join(lines)]. *)
Fixpoint join (sep : string) (lines : list string) : string :=
  match lines with
  | [] => ""
  | [l] => l
  | l :: ls => l +:+ sep +:+ join sep ls
  end.

(** An exception instance: [type(e).__name__], [str(e)], and whether
    [isinstance(e, asyncio.TimeoutError)]. *)
Record Exception : Type := {
  exc_type_name : string;
  exc_str : string;
  exc_is_asyncio_timeout : bool
}.

Inductive Result (A : Type) : Type :=
| Return (a : A)
| Raise (e : Exception).

Arguments Return {A} a.
Arguments Raise {A} e.

(** [base / segment] of pathlib on POSIX: an absolute segment replaces
    the base.  Normalisation of the joined path is not modelled. *)
Definition path_join (base segment : string) : string :=
  if String.prefix "/" segment then segment else base +:+ "/" +:+ segment.

End Py.

(** ** What the embedding sees of the aipyapp library *)

Module Aipy.

(** [TaskManager(cwd=..., settings=...)]. *)
Record TaskManager : Type := {
  cwd : string;
  settings : Py.Dict Py.Value
}.

Record Message : Type := { content : string }.

Record LLMResponse : Type := { message : option Message }.

Record Round : Type := { llm_response : option LLMResponse }.

(** One entry of [task.cwd.rglob("*")]: its path relative to
    [task.cwd], [is_file()] and [suffix]. *)
Record DirEntry : Type := {
  relative_path : string;
  is_file : bool;
  suffix : string
}.

(** A [Task] after [task.run(instruction)] returned: the rounds of each
    step, the directory listing of [task.cwd] ([None] when it does not
    exist), and [task.runtime.globals] ([None] when [task] has no
    [runtime] or the runtime no [globals]). *)
Record Task : Type := {
  steps : list (list Round);
  cwd_listing : option (list DirEntry);
  runtime_globals : option (Py.Dict Py.Value)
}.

End Aipy.

(** ** bridge.py *)

Module Bridge.

Record AgentCtx : Type := {
  chat_key : string;
  user_id : string;
  platform_type : string;
  bot_id : string
}.

Definition create_aipyapp_context (ctx : AgentCtx) : Py.Dict Py.Value :=
  [ ("chat_key", Py.VStr (chat_key ctx));
    ("user_id", Py.VStr (user_id ctx));
    ("platform_type", Py.VStr (platform_type ctx));
    ("bot_id", Py.VStr (bot_id ctx));
    ("workdir", Py.VStr ("/tmp/aipyapp_" +:+ chat_key ctx));
    ("session_id", Py.VStr ("nekro_" +:+ chat_key ctx +:+ "_" +:+ user_id ctx));
    ("created_by", Py.VStr "nekro-agent");
    ("orchestrator", Py.VStr "nekro-agent") ].

(** The raw result dict of an execution; [None] is an absent key. *)
Record RawResult : Type := {
  raw_success : option bool;
  raw_output : option string;
  raw_error : option string;
  raw_artifacts : option (list string);
  raw_execution_time : option Q;
  raw_variables : option (Py.Dict Py.Value)
}.

Record TaskResult : Type := {
  success : bool;
  output : string;
  error : option string;
  artifacts : list string;
  execution_time : Q;
  variables : Py.Dict Py.Value
}.

Definition get_or {A : Type} (field : option A) (default : A) : A :=
  match field with
  | Some a => a
  | None => default
  end.

Definition format_result_for_nekro (result : RawResult) : TaskResult :=
  {| success := get_or (raw_success result) false;
     output := get_or (raw_output result) "";
     error := raw_error result;
     artifacts := get_or (raw_artifacts result) [];
     execution_time := get_or (raw_execution_time result) 0%Q;
     variables := get_or (raw_variables result) [] |}.

Record ErrorInfo : Type := {
  error_type : string;
  error_message : string;
  recovery_suggestion : string
}.

Definition suggestions : Py.Dict string :=
  [ ("SyntaxError", "Check Python syntax in the generated code");
    ("TimeoutError",
     "Task exceeded time limit, consider breaking into smaller tasks");
    ("MemoryError", "Task used too much memory, optimize data processing");
    ("ModuleNotFoundError", "Required Python module not available in sandbox");
    ("ValueError", "Invalid input data, check task parameters") ].

Definition _get_recovery_suggestion (error_type : string) : string :=
  get_or (Py.get suggestions error_type)
         "Review task requirements and try again".

Definition map_error (aipyapp_error : Py.Exception) : ErrorInfo :=
  let error_type := Py.exc_type_name aipyapp_error in
  let error_message := Py.exc_str aipyapp_error in
  {| error_type := error_type;
     error_message := error_message;
     recovery_suggestion := _get_recovery_suggestion error_type |}.

End Bridge.

(** ** task_manager.py *)

Module TaskManager.

(** The metadata dict of one session. *)
Record Session : Type := {
  workdir : string;
  config : Py.Dict Py.Value;
  task_manager : option Aipy.TaskManager;
  created_at : Q;
  last_accessed : Q;
  task_count : Z
}.

Record AipyappTaskManager : Type := {
  self_workdir : string;
  max_sessions : Z;
  session_timeout : Z;
  _sessions : Py.Dict Session
}.

Definition with_sessions (self : AipyappTaskManager)
  (sessions : Py.Dict Session) : AipyappTaskManager :=
  {| self_workdir := self_workdir self;
     max_sessions := max_sessions self;
     session_timeout := session_timeout self;
     _sessions := sessions |}.

(** [AipyappTaskManager(workdir, max_sessions, session_timeout)], after
    the base directory was created. *)
Definition init (workdir : string) (max_sessions session_timeout : Z)
  : AipyappTaskManager :=
  {| self_workdir := workdir;
     max_sessions := max_sessions;
     session_timeout := session_timeout;
     _sessions := [] |}.

(** [session["last_accessed"] = now]. *)
Definition touch (session : Session) (now : Q) : Session :=
  {| workdir := workdir session;
     config := config session;
     task_manager := task_manager session;
     created_at := created_at session;
     last_accessed := now;
     task_count := task_count session |}.

(** [self._sessions.pop(session_id, None)]; a session dict is never
    empty, so [not session] holds for [None] only. *)
Definition cleanup_session (self : AipyappTaskManager) (session_id : string)
  : bool * AipyappTaskManager :=
  match Py.get (_sessions self) session_id with
  | None => (false, self)
  | Some _ =>
      (true, with_sessions self (Py.remove (_sessions self) session_id))
  end.

(** [min(self._sessions.keys(), key=lambda sid:
    self._sessions[sid]["last_accessed"])], read off the items: the key
    function of a key is the field of the record the key is bound to. *)
Definition oldest_id (sessions : Py.Dict Session) : option string :=
  match sessions with
  | [] => None
  | first :: rest =>
      Some (fst (Py.min_by (fun kv => last_accessed (snd kv)) first rest))
  end.

Definition _cleanup_oldest_session (self : AipyappTaskManager)
  : AipyappTaskManager :=
  match oldest_id (_sessions self) with
  | None => self
  | Some sid => snd (cleanup_session self sid)
  end.

(** What one call of [create_session] meets outside the pool: whether
    [session_workdir.mkdir] raises, and the two clock readings. *)
Record CreateEnv : Type := {
  mkdir_raises : option Py.Exception;
  clock_created_at : Q;
  clock_last_accessed : Q
}.

Definition create_session (self : AipyappTaskManager) (session_id : string)
  (config : option (Py.Dict Py.Value)) (env : CreateEnv)
  : Py.Result unit * AipyappTaskManager :=
  if Py.contains (_sessions self) session_id then (Py.Return tt, self)
  else
    let self1 :=
      if (max_sessions self <=? Z.of_nat (length (_sessions self)))%Z
      then _cleanup_oldest_session self
      else self in
    let session_workdir := Py.path_join (self_workdir self) session_id in
    match mkdir_raises env with
    | Some e => (Py.Raise e, self1)
    | None =>
        (Py.Return tt,
         with_sessions self1
           (Py.set (_sessions self1) session_id
              {| workdir := session_workdir;
                 config := Bridge.get_or config [];
                 task_manager := None;
                 created_at := clock_created_at env;
                 last_accessed := clock_last_accessed env;
                 task_count := 0%Z |}))
    end.

Definition get_session (self : AipyappTaskManager) (session_id : string)
  (now : Q) : option Session * AipyappTaskManager :=
  match Py.get (_sessions self) session_id with
  | Some session =>
      let session := touch session now in
      (Some session,
       with_sessions self (Py.set (_sessions self) session_id session))
  | None => (None, self)
  end.

Definition is_idle (self : AipyappTaskManager) (current_time : Q)
  (session : Session) : bool :=
  Py.Qltb (inject_Z (session_timeout self))
          (current_time - last_accessed session)%Q.

Definition idle_sessions (self : AipyappTaskManager) (current_time : Q)
  : list string :=
  map fst (filter (fun kv => is_idle self current_time (snd kv))
                  (_sessions self)).

Definition cleanup_idle_sessions (self : AipyappTaskManager)
  (current_time : Q) : nat * AipyappTaskManager :=
  let ids := idle_sessions self current_time in
  (length ids,
   fold_left (fun m session_id => snd (cleanup_session m session_id)) ids self).

Record Stats : Type := {
  active_sessions : nat;
  stats_max_sessions : Z;
  total_tasks : Z
}.

Definition get_stats (self : AipyappTaskManager) : Stats :=
  {| active_sessions := length (_sessions self);
     stats_max_sessions := max_sessions self;
     total_tasks :=
       fold_left Z.add (map task_count (Py.values (_sessions self))) 0%Z |}.

(** A sequence of [create_session] calls on one pool. *)
Record CreateCall : Type := {
  call_session_id : string;
  call_config : option (Py.Dict Py.Value);
  call_env : CreateEnv
}.

(** [create_session(sid)] with no config at clock reading [t], the
    directory being created without error. *)
Definition create_at (sid : string) (t : Q) : CreateCall :=
  {| call_session_id := sid; call_config := None;
     call_env := {| mkdir_raises := None; clock_created_at := t;
                    clock_last_accessed := t |} |}.

Definition create_sessions (self : AipyappTaskManager)
  (calls : list CreateCall) : AipyappTaskManager :=
  fold_left
    (fun m c =>
       snd (create_session m (call_session_id c) (call_config c) (call_env c)))
    calls self.

(** The metadata dict [create_session] stores for a new session. *)
Definition new_session (self : AipyappTaskManager) (session_id : string)
  (config : option (Py.Dict Py.Value)) (env : CreateEnv) : Session :=
  {| workdir := Py.path_join (self_workdir self) session_id;
     config := Bridge.get_or config [];
     task_manager := None;
     created_at := clock_created_at env;
     last_accessed := clock_last_accessed env;
     task_count := 0%Z |}.

(** One call on the pool, with what it meets outside, and the pool after
    a sequence of calls. *)
Inductive Op : Type :=
| OpCreate (call : CreateCall)
| OpGet (session_id : string) (now : Q)
| OpCleanup (session_id : string)
| OpCleanupIdle (now : Q).

Definition apply_op (self : AipyappTaskManager) (op : Op)
  : AipyappTaskManager :=
  match op with
  | OpCreate c =>
      snd (create_session self (call_session_id c) (call_config c)
             (call_env c))
  | OpGet session_id now => snd (get_session self session_id now)
  | OpCleanup session_id => snd (cleanup_session self session_id)
  | OpCleanupIdle now => snd (cleanup_idle_sessions self now)
  end.

Definition apply_ops (self : AipyappTaskManager) (ops : list Op)
  : AipyappTaskManager :=
  fold_left apply_op ops self.

End TaskManager.

(** ** sandbox_executor.py *)

Module SandboxExecutor.

Import Bridge.

Record AipyappSandboxExecutor : Type := {
  workdir : string;
  timeout : Z;
  max_memory_mb : Z;
  _task_managers : Py.Dict Aipy.TaskManager
}.

Definition with_task_managers (self : AipyappSandboxExecutor)
  (tms : Py.Dict Aipy.TaskManager) : AipyappSandboxExecutor :=
  {| workdir := workdir self;
     timeout := timeout self;
     max_memory_mb := max_memory_mb self;
     _task_managers := tms |}.

(** [raise AipyappExecutionError(message) from cause]. *)
Record AipyappExecutionError : Type := {
  err_message : string;
  err_cause : option Py.Exception
}.

Inductive Outcome : Type :=
| Returned (result : TaskResult)
| Raised (err : AipyappExecutionError).

(** How the awaited [_execute_in_aipyapp] ends:
    - [RunReturns task]: [Task(...)], [task.run] and the collection of
      the results raise nothing;
    - [RunRaises e]: an [Exception] is raised inside its [try] block;
    - [DeadlineElapsed]: the timeout of [asyncio.wait_for] fires first. *)
Inductive RunOutcome : Type :=
| RunReturns (task : Aipy.Task)
| RunRaises (e : Py.Exception)
| DeadlineElapsed.

(** What one call of [execute_task] meets outside the executor:
    whether building the session's [TaskManager] raises (the directory,
    [ConfigManager] or [TaskManager] itself), the configuration
    [ConfigManager.get_config()] returns, how the run ends, and the
    clock readings before and after it. *)
Record World : Type := {
  construct_raises : option Py.Exception;
  config : Py.Dict Py.Value;
  run : RunOutcome;
  start_time : Q;
  end_time : Q
}.

(** [f"{ctx.chat_key}_{ctx.user_id}"], the key of [_task_managers]. *)
Definition session_id (ctx : AgentCtx) : string :=
  chat_key ctx +:+ "_" +:+ user_id ctx.

Definition _get_task_manager (self : AipyappSandboxExecutor) (ctx : AgentCtx)
  (w : World) : Py.Result Aipy.TaskManager * AipyappSandboxExecutor :=
  match Py.get (_task_managers self) (session_id ctx) with
  | Some tm => (Py.Return tm, self)
  | None =>
      match construct_raises w with
      | Some e => (Py.Raise e, self)
      | None =>
          let session_workdir := Py.path_join (workdir self) (session_id ctx) in
          let tm := {| Aipy.cwd := session_workdir;
                       Aipy.settings := config w |} in
          (Py.Return tm,
           with_task_managers self
             (Py.set (_task_managers self) (session_id ctx) tm))
      end
  end.

Definition newline : string := String (ascii_of_nat 10) "".

Definition round_output (round_data : Aipy.Round) : list string :=
  match Aipy.llm_response round_data with
  | Some response =>
      match Aipy.message response with
      | Some m => [Aipy.content m]
      | None => []
      end
  | None => []
  end.

Definition output_lines (task : Aipy.Task) : list string :=
  flat_map (fun rounds => flat_map round_output rounds) (Aipy.steps task).

Definition artifact_suffixes : list string :=
  [".png"; ".jpg"; ".csv"; ".json"; ".txt"].

Definition is_artifact (entry : Aipy.DirEntry) : bool :=
  Aipy.is_file entry
  && existsb (String.eqb (Aipy.suffix entry)) artifact_suffixes.

Definition collect_artifacts (task : Aipy.Task) : list string :=
  match Aipy.cwd_listing task with
  | Some entries => map Aipy.relative_path (filter is_artifact entries)
  | None => []
  end.

Definition serializable_classes : list Py.Ty :=
  [Py.TInt; Py.TFloat; Py.TStr; Py.TBool; Py.TList; Py.TDict].

(** [not key.startswith('_') and isinstance(value, (int, float, str,
    bool, list, dict))]. *)
Definition keeps (key : string) (value : Py.Value) : bool :=
  negb (String.prefix "_" key) && Py.isinstance value serializable_classes.

(** The body of the loop over [task.runtime.globals.items()]. *)
Definition keep_step (variables : Py.Dict Py.Value) (kv : string * Py.Value)
  : Py.Dict Py.Value :=
  if keeps (fst kv) (snd kv)
  then Py.set variables (fst kv) (snd kv)
  else variables.

Definition collect_variables (task : Aipy.Task) : Py.Dict Py.Value :=
  match Aipy.runtime_globals task with
  | Some globals => fold_left keep_step globals []
  | None => []
  end.

(** The coroutine under [asyncio.wait_for]: [None] when the deadline
    cancels it.  Neither [task_manager] beyond [Task(task_manager)] nor
    [context] is read by the source. *)
Definition _execute_in_aipyapp (task_manager : Aipy.TaskManager)
  (instruction : string) (context : Py.Dict Py.Value) (w : World)
  : option RawResult :=
  match run w with
  | DeadlineElapsed => None
  | RunReturns task =>
      let lines := output_lines task in
      Some {| raw_success := Some true;
              raw_output :=
                Some (match lines with
                      | [] => "Task completed successfully"
                      | _ => Py.join newline lines
                      end);
              raw_error := None;
              raw_artifacts := Some (collect_artifacts task);
              raw_execution_time := Some (end_time w - start_time w)%Q;
              raw_variables := Some (collect_variables task) |}
  | RunRaises e =>
      Some {| raw_success := Some false;
              raw_output := Some "";
              raw_error := Some (Py.exc_str e);
              raw_artifacts := Some [];
              raw_execution_time := Some (end_time w - start_time w)%Q;
              raw_variables := Some [] |}
  end.

Definition timeout_message (self : AipyappSandboxExecutor) : string :=
  "Task execution exceeded " +:+ Py.str_of_int (timeout self) +:+ "s timeout".

(** The two [except] clauses of [execute_task], in their order. *)
Definition on_exception (self : AipyappSandboxExecutor) (e : Py.Exception)
  : AipyappExecutionError :=
  if Py.exc_is_asyncio_timeout e
  then {| err_message := timeout_message self; err_cause := None |}
  else {| err_message := error_message (map_error e); err_cause := Some e |}.

Definition execute_task (self : AipyappSandboxExecutor) (ctx : AgentCtx)
  (instruction : string) (context : option (Py.Dict Py.Value)) (w : World)
  : Outcome * AipyappSandboxExecutor :=
  match _get_task_manager self ctx w with
  | (Py.Raise e, self1) => (Raised (on_exception self e), self1)
  | (Py.Return task_manager, self1) =>
      let aipyapp_ctx := create_aipyapp_context ctx in
      let aipyapp_ctx :=
        match context with
        | Some (kv :: more) => Py.update aipyapp_ctx (kv :: more)
        | _ => aipyapp_ctx
        end in
      match _execute_in_aipyapp task_manager instruction aipyapp_ctx w with
      | None =>
          (Raised {| err_message := timeout_message self; err_cause := None |},
           self1)
      | Some result => (Returned (format_result_for_nekro result), self1)
      end
  end.

Definition cleanup_session (self : AipyappSandboxExecutor) (ctx : AgentCtx)
  : AipyappSandboxExecutor :=
  if Py.contains (_task_managers self) (session_id ctx)
  then with_task_managers self (Py.remove (_task_managers self) (session_id ctx))
  else self.

(** [execute_task] with a truthy [context] that [aipyapp_ctx.update]
    rejects with [e] (a decoded JSON number, string, or list that is no
    list of pairs): the update raises once the TaskManager is resolved. *)
Definition execute_task_unmergeable (self : AipyappSandboxExecutor)
  (ctx : AgentCtx) (e : Py.Exception) (w : World)
  : Outcome * AipyappSandboxExecutor :=
  match _get_task_manager self ctx w with
  | (Py.Raise e', self1) => (Raised (on_exception self e'), self1)
  | (Py.Return _, self1) => (Raised (on_exception self e), self1)
  end.

End SandboxExecutor.

(** ** aipyapp_orchestrator.py: the workflow tool *)

Module Orchestrator.

Import Bridge.

(** The plugin after [init]: [executor] is set exactly when
    [_initialized] is. *)
Record AipyappOrchestratorPlugin : Type := {
  executor : option SandboxExecutor.AipyappSandboxExecutor
}.

Definition _initialized (self : AipyappOrchestratorPlugin) : bool :=
  match executor self with
  | Some _ => true
  | None => false
  end.

(** [{"step": i + 1, "instruction": instruction, **step_result}]. *)
Record StepRecord : Type := {
  step : nat;
  instruction : string;
  result : TaskResult
}.

(** The dict the tool serialises; [None] is an absent key. *)
Record WorkflowResult : Type := {
  wf_success : bool;
  wf_steps : list StepRecord;
  wf_error : option string;
  wf_final_output : option string;
  wf_artifacts : option (list string);
  wf_total_time : option Q
}.

(** [json.loads(instructions)] as the tool tells its outcomes apart. *)
Inductive Instructions : Type :=
| Malformed (decode_error : string)
| NotAnArray
| Array (instruction_list : list string).

(** One call [self.executor.execute_task(ctx=_ctx, instruction=...,
    context=context_dict)], as the loop makes it. *)
Record Call : Type := {
  call_ctx : AgentCtx;
  call_instruction : string;
  call_context : Py.Dict Py.Value
}.

(** How a call of the tool ends: with the dict it serialises and
    returns, or with the exception that escapes it. *)
Inductive ToolOutcome : Type :=
| ToolReturns (reply : WorkflowResult)
| ToolRaises (e : Py.Exception).

(** A run of the tool: how it ends, the executor afterwards, the calls
    of [execute_task] it made, in order, and [steps_results] as the run
    leaves it. *)
Record Run : Type := {
  response : ToolOutcome;
  executor_after : option SandboxExecutor.AipyappSandboxExecutor;
  calls : list Call;
  recorded : list StepRecord
}.

(** [str(x)] inside an f-string, for an optional string. *)
Definition str_of_optional (x : option string) : string :=
  match x with
  | Some s => s
  | None => "None"
  end.

Definition failure (error : string) (steps : list StepRecord)
  : WorkflowResult :=
  {| wf_success := false;
     wf_steps := steps;
     wf_error := Some error;
     wf_final_output := None;
     wf_artifacts := None;
     wf_total_time := None |}.

(** The dict of the [return] inside the loop, at a step whose result is
    not a success. *)
Definition step_failed (i : nat) (step_result : TaskResult)
  (steps : list StepRecord) (total_time : Q) : WorkflowResult :=
  {| wf_success := false;
     wf_steps := steps;
     wf_error :=
       Some ("Step " +:+ Py.str_of_int (Z.of_nat (i + 1)) +:+ " failed: "
             +:+ str_of_optional (error step_result));
     wf_final_output := None;
     wf_artifacts := None;
     wf_total_time := Some total_time |}.

Definition all_artifacts (steps : list StepRecord) : list string :=
  flat_map (fun s => artifacts (result s)) steps.

(** [json.dumps(reply)].  Everything in a reply but the variables of its
    step records is a string, a number, a boolean, [None] or a list of
    strings, so a reply without steps always serialises;
    [dumps_raises steps] is the exception [json.dumps] raises on a dict
    that holds the step records [steps], if it raises. *)
Definition json_dumps (dumps_raises : list StepRecord -> option Py.Exception)
  (reply : WorkflowResult) : Py.Result WorkflowResult :=
  match wf_steps reply with
  | [] => Py.Return reply
  | _ :: _ =>
      match dumps_raises (wf_steps reply) with
      | Some e => Py.Raise e
      | None => Py.Return reply
      end
  end.

(** [return json.dumps(reply)] where no handler is around or the
    handler is the one running: an exception escapes the tool. *)
Definition dumps_or_raise
  (dumps_raises : list StepRecord -> option Py.Exception)
  (reply : WorkflowResult) : ToolOutcome :=
  match json_dumps dumps_raises reply with
  | Py.Return reply => ToolReturns reply
  | Py.Raise e => ToolRaises e
  end.

(** The handler [except Exception as e] around the body of the tool:
    [return json.dumps({"success": False, "error": str(e), "steps":
    steps_results})]. *)
Definition outer_handler
  (dumps_raises : list StepRecord -> option Py.Exception)
  (error : string) (steps_results : list StepRecord) : ToolOutcome :=
  dumps_or_raise dumps_raises (failure error steps_results).

(** [return json.dumps(reply)] inside the [try], [steps_results] being
    the steps of [reply]: an exception of [json.dumps] goes to the
    handler. *)
Definition return_dumps
  (dumps_raises : list StepRecord -> option Py.Exception)
  (reply : WorkflowResult) : ToolOutcome :=
  match json_dumps dumps_raises reply with
  | Py.Return reply => ToolReturns reply
  | Py.Raise e => outer_handler dumps_raises (Py.exc_str e) (wf_steps reply)
  end.

(** What follows the loop; [steps_results[-1]] raises [IndexError] on an
    empty list, which goes to the handler. *)
Definition completed (dumps_raises : list StepRecord -> option Py.Exception)
  (steps : list StepRecord) (total_time : Q) : ToolOutcome :=
  match rev steps with
  | [] => outer_handler dumps_raises "list index out of range" steps
  | last_step :: _ =>
      return_dumps dumps_raises
        {| wf_success := true;
           wf_steps := steps;
           wf_error := None;
           wf_final_output := Some (output (result last_step));
           wf_artifacts := Some (all_artifacts steps);
           wf_total_time := Some total_time |}
  end.

(** The loop over [enumerate(instruction_list)], from index [i] on.
    [worlds i] is what the [i]-th call of [execute_task] meets. *)
Fixpoint run_steps (dumps_raises : list StepRecord -> option Py.Exception)
  (executor : SandboxExecutor.AipyappSandboxExecutor)
  (ctx : AgentCtx) (worlds : nat -> SandboxExecutor.World) (i : nat)
  (instruction_list : list string) (steps_results : list StepRecord)
  (context_dict : Py.Dict Py.Value) (total_time : Q) (calls : list Call)
  : Run :=
  match instruction_list with
  | [] =>
      {| response := completed dumps_raises steps_results total_time;
         executor_after := Some executor;
         calls := calls;
         recorded := steps_results |}
  | instruction :: rest =>
      let calls :=
        calls ++ [{| call_ctx := ctx;
                     call_instruction := instruction;
                     call_context := context_dict |}] in
      match SandboxExecutor.execute_task executor ctx instruction
              (Some context_dict) (worlds i) with
      | (SandboxExecutor.Raised e, executor) =>
          {| response :=
               outer_handler dumps_raises (SandboxExecutor.err_message e)
                 steps_results;
             executor_after := Some executor;
             calls := calls;
             recorded := steps_results |}
      | (SandboxExecutor.Returned step_result, executor) =>
          let steps_results :=
            steps_results ++ [{| step := i + 1;
                                 instruction := instruction;
                                 result := step_result |}] in
          if negb (success step_result)
          then {| response :=
                    return_dumps dumps_raises
                      (step_failed i step_result steps_results total_time);
                  executor_after := Some executor;
                  calls := calls;
                  recorded := steps_results |}
          else
            run_steps dumps_raises executor ctx worlds (S i) rest
              steps_results
              (Py.set context_dict "variables"
                 (Py.dict_value (variables step_result)))
              (total_time + execution_time step_result)%Q calls
      end
  end.

Definition execute_python_workflow
  (dumps_raises : list StepRecord -> option Py.Exception)
  (self : AipyappOrchestratorPlugin)
  (ctx : AgentCtx) (instructions : Instructions)
  (worlds : nat -> SandboxExecutor.World) : Run :=
  match executor self with
  | None =>
      {| response :=
           dumps_or_raise dumps_raises
             (failure "aipyapp executor not initialized" []);
         executor_after := None;
         calls := [];
         recorded := [] |}
  | Some executor =>
      match instructions with
      | Malformed decode_error =>
          {| response :=
               return_dumps dumps_raises
                 (failure ("Invalid instructions format: " +:+ decode_error)
                    []);
             executor_after := Some executor;
             calls := [];
             recorded := [] |}
      | NotAnArray =>
          {| response :=
               return_dumps dumps_raises
                 (failure ("Invalid instructions format: "
                           +:+ "Instructions must be a JSON array") []);
             executor_after := Some executor;
             calls := [];
             recorded := [] |}
      | Array instruction_list =>
          run_steps dumps_raises executor ctx worlds 0 instruction_list
            [] [] 0%Q []
      end
  end.

(** *** The single task tool *)

(** What the tool and [execute_task] make of the [context] argument:
    - [NoContext]: [None] or the empty string, nothing is decoded;
    - [MalformedContext]: [json.loads] raises [JSONDecodeError];
    - [Decoded d]: it decodes to a value [dict.update] accepts, with the
      entries [d] (none for a falsy value, which is not merged at all);
    - [Unmergeable e]: it decodes to a truthy value [dict.update]
      rejects with [e]. *)
Inductive ContextArg : Type :=
| NoContext
| MalformedContext
| Decoded (d : Py.Dict Py.Value)
| Unmergeable (e : Py.Exception).

(** The dict the task tool serialises: the result of [execute_task], or
    [{"success": False, "error": error, "output": ""}]. *)
Inductive ToolReply : Type :=
| ReplyResult (r : TaskResult)
| ReplyFailure (error : string).

Definition reply_success (reply : ToolReply) : bool :=
  match reply with
  | ReplyResult r => success r
  | ReplyFailure _ => false
  end.

Definition reply_error (reply : ToolReply) : option string :=
  match reply with
  | ReplyResult r => error r
  | ReplyFailure e => Some e
  end.

(** [dumps_raises] is the exception [json.dumps(result)] raises on the
    result of [execute_task], if it does. *)
Definition execute_python_task (self : AipyappOrchestratorPlugin)
  (ctx : AgentCtx) (instruction : string) (context : ContextArg)
  (w : SandboxExecutor.World) (dumps_raises : option Py.Exception)
  : ToolReply * option SandboxExecutor.AipyappSandboxExecutor :=
  match executor self with
  | None => (ReplyFailure "aipyapp executor not initialized", None)
  | Some executor =>
      match context with
      | MalformedContext =>
          (ReplyFailure "Invalid context JSON format", Some executor)
      | _ =>
          let call :=
            match context with
            | Decoded d =>
                SandboxExecutor.execute_task executor ctx instruction
                  (Some d) w
            | Unmergeable e =>
                SandboxExecutor.execute_task_unmergeable executor ctx e w
            | _ =>
                SandboxExecutor.execute_task executor ctx instruction None w
            end in
          match fst call with
          | SandboxExecutor.Raised e =>
              (ReplyFailure (SandboxExecutor.err_message e), Some (snd call))
          | SandboxExecutor.Returned result =>
              match dumps_raises with
              | Some e => (ReplyFailure (Py.exc_str e), Some (snd call))
              | None => (ReplyResult result, Some (snd call))
              end
          end
      end
  end.

End Orchestrator.

(** * Facts about dictionaries *)

Section DictFacts.

Context {V : Type}.

Implicit Types (d : Py.Dict V) (k : string) (v : V).

Lemma get_In d k v : Py.get d k = Some v -> In (k, v) d.
Proof.
  induction d as [|[k' v'] d IH]; simpl; [discriminate|].
  destruct (String.eqb_spec k k') as [->|Hne]; intros H.
  - injection H as ->. now left.
  - right. auto.
Qed.

Lemma get_None_iff d k : Py.get d k = None <-> ~ In k (Py.keys d).
Proof.
  induction d as [|[k' v'] d IH]; simpl.
  - tauto.
  - destruct (String.eqb_spec k k') as [->|Hne].
    + split; [discriminate|]. intros H. exfalso. apply H. now left.
    + rewrite IH. split.
      * intros H [E|I]; [congruence | tauto].
      * tauto.
Qed.

Lemma contains_true_iff d k : Py.contains d k = true <-> In k (Py.keys d).
Proof.
  unfold Py.contains. destruct (Py.get d k) eqn:E.
  - split; [intros _ | reflexivity].
    apply get_In in E. change k with (fst (k, v)). now apply in_map.
  - apply get_None_iff in E. split; [discriminate | tauto].
Qed.

Lemma contains_false_iff d k : Py.contains d k = false <-> ~ In k (Py.keys d).
Proof.
  rewrite <- contains_true_iff. destruct (Py.contains d k); split; auto;
    try discriminate. intros H. exfalso. now apply H.
Qed.

Lemma In_get d k v : Py.wf d -> In (k, v) d -> Py.get d k = Some v.
Proof.
  unfold Py.wf. induction d as [|[k' v'] d IH]; simpl; [tauto|].
  intros Hnd [E|I].
  - injection E as -> ->. now rewrite String.eqb_refl.
  - inversion Hnd as [|? ? Hnotin Hnd']; subst.
    destruct (String.eqb_spec k k') as [->|Hne]; [|auto].
    exfalso. apply Hnotin. change k' with (fst (k', v)). now apply in_map.
Qed.

(** Assigning to a fresh key appends. *)
Lemma set_fresh d k v : Py.get d k = None -> Py.set d k v = d ++ [(k, v)].
Proof.
  induction d as [|[k' v'] d IH]; simpl; [reflexivity|].
  destruct (String.eqb k k'); [discriminate|]. intros H. now rewrite IH.
Qed.

(** Assigning to any key keeps the other bindings. *)
Lemma get_set_other d k k' v : k' <> k -> Py.get (Py.set d k v) k' = Py.get d k'.
Proof.
  intros Hne. induction d as [|[k0 v0] d IH]; simpl.
  - destruct (String.eqb_spec k' k); congruence.
  - destruct (String.eqb_spec k k0) as [->|Hk]; simpl.
    + destruct (String.eqb_spec k' k0); congruence.
    + now rewrite IH.
Qed.

Lemma get_set_same d k v : Py.get (Py.set d k v) k = Some v.
Proof.
  induction d as [|[k0 v0] d IH]; simpl.
  - now rewrite String.eqb_refl.
  - destruct (String.eqb_spec k k0) as [->|Hk]; simpl.
    + now rewrite String.eqb_refl.
    + destruct (String.eqb_spec k k0); congruence.
Qed.

(** Assigning to a present key keeps the keys and their order. *)
Lemma keys_set_present d k v :
  Py.get d k <> None -> Py.keys (Py.set d k v) = Py.keys d.
Proof.
  induction d as [|[k0 v0] d IH]; simpl; [congruence|].
  destruct (String.eqb_spec k k0) as [->|Hk]; simpl; [reflexivity|].
  intros H. now rewrite IH.
Qed.

Lemma length_set_fresh d k v :
  Py.get d k = None -> length (Py.set d k v) = S (length d).
Proof.
  intros H. rewrite set_fresh by assumption. rewrite length_app. simpl. lia.
Qed.

Lemma length_remove_present d k :
  Py.get d k <> None -> S (length (Py.remove d k)) = length d.
Proof.
  induction d as [|[k0 v0] d IH]; simpl; [congruence|].
  destruct (String.eqb_spec k k0) as [->|Hk]; simpl; [reflexivity|].
  intros H. now rewrite IH.
Qed.

(** On a well-formed dict, deleting a key is filtering it out. *)
Lemma remove_filter d k :
  Py.wf d ->
  Py.remove d k = filter (fun kv => negb (String.eqb k (fst kv))) d.
Proof.
  unfold Py.wf. induction d as [|[k0 v0] d IH]; simpl; [reflexivity|].
  intros Hnd. inversion Hnd as [|? ? Hnotin Hnd']; subst.
  destruct (String.eqb_spec k k0) as [->|Hk]; simpl.
  - symmetry. apply forallb_filter_id. apply forallb_forall.
    intros [k1 v1] Hin. simpl.
    destruct (String.eqb_spec k0 k1) as [->|]; [|reflexivity].
    exfalso. apply Hnotin. change k1 with (fst (k1, v1)). now apply in_map.
  - now rewrite IH.
Qed.

Lemma remove_absent d k : Py.get d k = None -> Py.remove d k = d.
Proof.
  induction d as [|[k0 v0] d IH]; simpl; [reflexivity|].
  destruct (String.eqb k k0); [discriminate|]. intros H. now rewrite IH.
Qed.

Lemma In_remove d k k' v :
  Py.wf d -> In (k', v) (Py.remove d k) <-> In (k', v) d /\ k' <> k.
Proof.
  intros Hwf. rewrite remove_filter by assumption. rewrite filter_In. simpl.
  destruct (String.eqb_spec k k') as [->|Hne]; simpl; intuition congruence.
Qed.

Lemma wf_filter d (p : string * V -> bool) : Py.wf d -> Py.wf (filter p d).
Proof.
  unfold Py.wf, Py.keys. induction d as [|[k0 v0] d IH]; simpl; [auto|].
  intros Hnd. inversion Hnd as [|? ? Hnotin Hnd']; subst.
  destruct (p (k0, v0)); simpl; [|auto].
  constructor; [|auto]. intros Hin. apply Hnotin.
  apply in_map_iff in Hin as [x [Hx Hin]]. apply filter_In in Hin as [Hin _].
  rewrite <- Hx. now apply in_map.
Qed.

Lemma wf_remove d k : Py.wf d -> Py.wf (Py.remove d k).
Proof.
  intros H. rewrite remove_filter by assumption. now apply wf_filter.
Qed.

Lemma wf_set d k v : Py.wf d -> Py.wf (Py.set d k v).
Proof.
  intros Hwf. destruct (Py.get d k) eqn:E.
  - unfold Py.wf. rewrite keys_set_present by congruence. exact Hwf.
  - rewrite set_fresh by assumption. unfold Py.wf, Py.keys in *.
    rewrite map_app. simpl. apply NoDup_app; auto.
    + constructor; [simpl; tauto | constructor].
    + intros x Hin [<-|[]]. apply get_None_iff in E. contradiction.
Qed.

End DictFacts.

(** * The context bridge *)

Import Bridge.

(** C6 as the spec words it: the fallback suggestion would be
    ["review task requirements and retry"].  The source returns another
    sentence, here for a [RuntimeError]. *)
Lemma map_error_fallback_wording :
  recovery_suggestion
    (map_error {| Py.exc_type_name := "RuntimeError";
                  Py.exc_str := "Unknown error occurred";
                  Py.exc_is_asyncio_timeout := false |})
  <> "review task requirements and retry".
Proof. vm_compute. discriminate. Qed.

(** C6, amended: [map_error] is total; the [ErrorInfo] it returns has
    the exception's type name and message; each of the five recognised
    type names has its own fixed suggestion, and every other type name
    gets ["Review task requirements and try again"]. *)
Theorem map_error_classifies :
  forall e : Py.Exception,
    error_type (map_error e) = Py.exc_type_name e
    /\ error_message (map_error e) = Py.exc_str e
    /\ (Py.exc_type_name e = "SyntaxError" ->
        recovery_suggestion (map_error e)
        = "Check Python syntax in the generated code")
    /\ (Py.exc_type_name e = "TimeoutError" ->
        recovery_suggestion (map_error e)
        = "Task exceeded time limit, consider breaking into smaller tasks")
    /\ (Py.exc_type_name e = "MemoryError" ->
        recovery_suggestion (map_error e)
        = "Task used too much memory, optimize data processing")
    /\ (Py.exc_type_name e = "ModuleNotFoundError" ->
        recovery_suggestion (map_error e)
        = "Required Python module not available in sandbox")
    /\ (Py.exc_type_name e = "ValueError" ->
        recovery_suggestion (map_error e)
        = "Invalid input data, check task parameters")
    /\ (~ In (Py.exc_type_name e)
             ["SyntaxError"; "TimeoutError"; "MemoryError";
              "ModuleNotFoundError"; "ValueError"] ->
        recovery_suggestion (map_error e)
        = "Review task requirements and try again").
Proof.
  intros e. unfold map_error, _get_recovery_suggestion.
  cbn [error_type error_message recovery_suggestion].
  repeat split; try (intros ->; reflexivity).
  intros Hnot.
  assert (Py.get suggestions (Py.exc_type_name e) = None) as ->;
    [|reflexivity].
  apply get_None_iff. exact Hnot.
Qed.

Lemma map_error_classifies_witness :
  recovery_suggestion
    (map_error {| Py.exc_type_name := "SyntaxError";
                  Py.exc_str := "invalid syntax on line 5";
                  Py.exc_is_asyncio_timeout := false |})
  = "Check Python syntax in the generated code"
  /\ recovery_suggestion
       (map_error {| Py.exc_type_name := "KeyError";
                     Py.exc_str := "x";
                     Py.exc_is_asyncio_timeout := false |})
     = "Review task requirements and try again".
Proof.
  split.
  - apply (map_error_classifies
             {| Py.exc_type_name := "SyntaxError";
                Py.exc_str := "invalid syntax on line 5";
                Py.exc_is_asyncio_timeout := false |}).
    reflexivity.
  - apply (map_error_classifies
             {| Py.exc_type_name := "KeyError";
                Py.exc_str := "x";
                Py.exc_is_asyncio_timeout := false |}).
    simpl. intros H.
    repeat (destruct H as [H|H]; [discriminate H|]). exact H.
Defined.

Import SandboxExecutor.

(** C3 as stated: the key under which [execute_task] files a session's
    [TaskManager] would be the bridge's [session_id].  For the context
    of the bridge's own test the two differ, and the executor registers
    nothing under the bridge's key. *)
Lemma pool_key_is_not_bridge_session_id :
  let ctx := {| chat_key := "my_chat"; user_id := "user_1";
                platform_type := "discord"; bot_id := "bot_1" |} in
  let self := {| workdir := "/data"; timeout := 300%Z;
                 max_memory_mb := 512%Z; _task_managers := [] |} in
  let w := {| construct_raises := None; config := [];
              run := RunReturns {| Aipy.steps := [];
                                   Aipy.cwd_listing := None;
                                   Aipy.runtime_globals := None |};
              start_time := 0%Q; end_time := 1%Q |} in
  Py.get (create_aipyapp_context ctx) "session_id"
  = Some (Py.VStr "nekro_my_chat_user_1")
  /\ Py.keys (_task_managers (snd (execute_task self ctx "print(1)" None w)))
     = ["my_chat_user_1"]
  /\ Py.get (_task_managers (snd (execute_task self ctx "print(1)" None w)))
            "nekro_my_chat_user_1"
     = None.
Proof. vm_compute. repeat split. Qed.

(** C3, amended: for every context the bridge yields [session_id =
    "nekro_" + chat_key + "_" + user_id] and [workdir = "/tmp/aipyapp_"
    + chat_key]; [execute_task] does not take its key from the bridge:
    it looks the session's [TaskManager] up, and registers a new one,
    under [chat_key + "_" + user_id], so the bridge's [session_id] is
    ["nekro_"] followed by the executor's key. *)
Theorem bridge_context_and_pool_key :
  forall ctx : AgentCtx,
    Py.get (create_aipyapp_context ctx) "session_id"
    = Some (Py.VStr ("nekro_" +:+ chat_key ctx +:+ "_" +:+ user_id ctx))
    /\ Py.get (create_aipyapp_context ctx) "workdir"
       = Some (Py.VStr ("/tmp/aipyapp_" +:+ chat_key ctx))
    /\ Py.get (create_aipyapp_context ctx) "session_id"
       = Some (Py.VStr ("nekro_" +:+ session_id ctx))
    /\ forall self instruction context w,
         let key := chat_key ctx +:+ "_" +:+ user_id ctx in
         let self' := snd (execute_task self ctx instruction context w) in
         match Py.get (_task_managers self) key, construct_raises w with
         | None, None =>
             _task_managers self'
             = _task_managers self
               ++ [(key, {| Aipy.cwd := Py.path_join (workdir self) key;
                            Aipy.settings := config w |})]
         | _, _ => self' = self
         end.
Proof.
  intros ctx. repeat split.
  intros self instruction context w. cbv zeta.
  unfold execute_task, _get_task_manager, session_id.
  destruct (Py.get (_task_managers self) _) as [tm|] eqn:Hget.
  - destruct (_execute_in_aipyapp _ _ _ _); destruct (construct_raises w);
      reflexivity.
  - destruct (construct_raises w) as [e|]; [reflexivity|].
    destruct (_execute_in_aipyapp _ _ _ _); simpl;
      now rewrite set_fresh by assumption.
Qed.

(** * The session pool *)

Section SessionPool.

Import TaskManager.

Lemma with_sessions_same (self : AipyappTaskManager) :
  with_sessions self (_sessions self) = self.
Proof. now destruct self. Qed.

Lemma Qltb_lt (a b : Q) : Py.Qltb a b = true <-> (a < b)%Q.
Proof.
  unfold Py.Qltb. rewrite negb_true_iff. split.
  - intros H. apply Qnot_le_lt. intros Hle.
    apply Qle_bool_iff in Hle. congruence.
  - intros H. destruct (Qle_bool b a) eqn:E; [|reflexivity].
    apply Qle_bool_iff in E. now apply Qlt_not_le in H.
Qed.

Lemma Qltb_ge (a b : Q) : Py.Qltb a b = false <-> (b <= a)%Q.
Proof.
  unfold Py.Qltb. rewrite negb_false_iff. apply Qle_bool_iff.
Qed.

(** C10: [create_session] with a key the pool already holds changes
    nothing: the pool, and with it the record's config, timestamps and
    task count, is the one before; the config passed is dropped and
    nothing is evicted, whatever the capacity. *)
Theorem create_session_present_is_noop :
  forall (self : AipyappTaskManager) (session_id : string)
         (config : option (Py.Dict Py.Value)) (env : CreateEnv),
    In session_id (Py.keys (_sessions self)) ->
    create_session self session_id config env = (Py.Return tt, self).
Proof.
  intros self session_id config env Hin. unfold create_session.
  apply contains_true_iff in Hin. now rewrite Hin.
Qed.

Lemma create_session_present_is_noop_witness :
  let session :=
    {| workdir := "/pool/s0"; config := []; task_manager := None;
       created_at := 1%Q; last_accessed := 2%Q; task_count := 7%Z |} in
  let self :=
    {| self_workdir := "/pool"; max_sessions := 1%Z;
       session_timeout := 3600%Z; _sessions := [("s0", session)] |} in
  create_session self "s0" (Some [("timeout", Py.VInt 600)])
    {| mkdir_raises := None; clock_created_at := 9%Q;
       clock_last_accessed := 9%Q |}
  = (Py.Return tt, self).
Proof.
  cbv zeta. apply create_session_present_is_noop. simpl. now left.
Defined.

(** C8 as stated: an access would update [task_count].  [get_session]
    leaves it as it was; nothing in the pool ever writes it after
    creation. *)
Lemma get_session_keeps_task_count :
  let session :=
    {| workdir := "/pool/s0"; config := []; task_manager := None;
       created_at := 1%Q; last_accessed := 2%Q; task_count := 7%Z |} in
  let self :=
    {| self_workdir := "/pool"; max_sessions := 5%Z;
       session_timeout := 3600%Z; _sessions := [("s0", session)] |} in
  option_map task_count (fst (get_session self "s0" 50%Q)) = Some 7%Z
  /\ total_tasks (get_stats (snd (get_session self "s0" 50%Q)))
     = total_tasks (get_stats self).
Proof. vm_compute. split; reflexivity. Qed.

(** C8, amended: [get_session] with a present key sets [last_accessed]
    of that record to the current time and changes nothing else: its
    [task_count], [workdir], [config], [created_at] and [task_manager],
    the keys of the pool and every other record stay; the record is
    returned.  With a missing key it returns [None] and the pool is
    unchanged. *)
Theorem get_session_touches_last_accessed_only :
  forall (self : AipyappTaskManager) (session_id : string) (now : Q),
    let self' := snd (get_session self session_id now) in
    match Py.get (_sessions self) session_id with
    | Some session =>
        exists session',
          fst (get_session self session_id now) = Some session'
          /\ Py.get (_sessions self') session_id = Some session'
          /\ last_accessed session' = now
          /\ task_count session' = task_count session
          /\ workdir session' = workdir session
          /\ config session' = config session
          /\ created_at session' = created_at session
          /\ task_manager session' = task_manager session
          /\ Py.keys (_sessions self') = Py.keys (_sessions self)
          /\ (forall other, other <> session_id ->
                Py.get (_sessions self') other = Py.get (_sessions self) other)
          /\ total_tasks (get_stats self') = total_tasks (get_stats self)
    | None => get_session self session_id now = (None, self)
    end.
Proof.
  intros self session_id now. cbv zeta. unfold get_session.
  destruct (Py.get (_sessions self) session_id) as [session|] eqn:Hget;
    [|reflexivity].
  exists (touch session now). cbn [fst snd with_sessions _sessions].
  repeat split.
  - apply get_set_same.
  - apply keys_set_present. congruence.
  - intros other Hne. now apply get_set_other.
  - unfold get_stats. cbn [total_tasks _sessions]. f_equal.
    clear -Hget. unfold Py.values.
    induction (_sessions self) as [|[k0 s0] d IH]; simpl in *; [discriminate|].
    destruct (String.eqb_spec session_id k0) as [->|Hne]; simpl.
    + injection Hget as ->. reflexivity.
    + now rewrite IH.
Qed.

Lemma filter_filter {A : Type} (p q : A -> bool) (l : list A) :
  filter p (filter q l) = filter (fun x => q x && p x) l.
Proof.
  induction l as [|x l IH]; simpl; [reflexivity|].
  destruct (q x); simpl; [destruct (p x)|]; now rewrite IH.
Qed.

Lemma cleanup_session_sessions (self : AipyappTaskManager) (sid : string) :
  snd (cleanup_session self sid)
  = with_sessions self (Py.remove (_sessions self) sid).
Proof.
  unfold cleanup_session.
  destruct (Py.get (_sessions self) sid) eqn:E; [reflexivity|].
  rewrite remove_absent by assumption. simpl.
  symmetry. apply with_sessions_same.
Qed.

(** Cleaning up a list of keys, one after the other, filters them out of
    the pool. *)
Lemma cleanup_fold (ids : list string) :
  forall self : AipyappTaskManager,
    Py.wf (_sessions self) ->
    fold_left (fun m sid => snd (cleanup_session m sid)) ids self
    = with_sessions self
        (filter (fun kv => negb (existsb (String.eqb (fst kv)) ids))
                (_sessions self)).
Proof.
  induction ids as [|sid ids IH]; intros self Hwf; simpl.
  - rewrite filter_true. symmetry. apply with_sessions_same.
  - rewrite cleanup_session_sessions. rewrite IH.
    + unfold with_sessions. cbn [self_workdir max_sessions session_timeout
                                 _sessions].
      f_equal. rewrite remove_filter by assumption. rewrite filter_filter.
      apply filter_ext. intros [k s]. cbn [fst].
      rewrite (String.eqb_sym sid k). now rewrite negb_orb.
    + cbn [with_sessions _sessions]. now apply wf_remove.
Qed.

Lemma wf_functional {V : Type} (d : Py.Dict V) (k : string) (v v' : V) :
  Py.wf d -> In (k, v) d -> In (k, v') d -> v = v'.
Proof.
  intros Hwf H1 H2. apply (In_get _ _ _ Hwf) in H1, H2. congruence.
Qed.

(** In a well-formed dict, a key is one of the selected keys exactly
    when its own entry is selected. *)
Lemma selected_key {V : Type} (d : Py.Dict V) (p : string * V -> bool)
  (k : string) (v : V) :
  Py.wf d -> In (k, v) d ->
  existsb (String.eqb k) (map fst (filter p d)) = p (k, v).
Proof.
  intros Hwf Hin. destruct (p (k, v)) eqn:Hp.
  - apply existsb_exists. exists k. split; [|apply String.eqb_refl].
    change k with (fst (k, v)). apply in_map. now apply filter_In.
  - destruct (existsb _ _) eqn:E; [|reflexivity].
    apply existsb_exists in E as [k' [Hk' Heq]].
    apply String.eqb_eq in Heq. subst k'.
    apply in_map_iff in Hk' as [[k1 v1] [Hfst Hf]]. simpl in Hfst. subst k1.
    apply filter_In in Hf as [Hin1 Hp1].
    rewrite (wf_functional d k v v1 Hwf Hin Hin1) in Hp. congruence.
Qed.

Lemma cleanup_idle_sessions_filter (self : AipyappTaskManager) (now : Q) :
  Py.wf (_sessions self) ->
  _sessions (snd (cleanup_idle_sessions self now))
  = filter (fun kv => negb (is_idle self now (snd kv))) (_sessions self).
Proof.
  intros Hwf. unfold cleanup_idle_sessions, idle_sessions. cbn [snd].
  rewrite cleanup_fold by assumption. cbn [with_sessions _sessions].
  apply filter_ext_in. intros [k s] Hin. cbn [fst snd]. f_equal.
  now apply (selected_key (_sessions self)
               (fun kv => is_idle self now (snd kv))).
Qed.

(** C7: on a pool (a dict, so no key twice) [cleanup_idle_sessions]
    removes exactly the records with [now - last_accessed >
    session_timeout]: a record is in the pool afterwards if and only if
    it was there before and is not that old; the count returned is the
    number of records removed. *)
Theorem cleanup_idle_sessions_exact :
  forall (self : AipyappTaskManager) (now : Q),
    Py.wf (_sessions self) ->
    let count := fst (cleanup_idle_sessions self now) in
    let self' := snd (cleanup_idle_sessions self now) in
    (forall sid s,
        In (sid, s) (_sessions self')
        <-> In (sid, s) (_sessions self)
            /\ ~ (inject_Z (session_timeout self) < now - last_accessed s)%Q)
    /\ (count + length (_sessions self') = length (_sessions self))%nat.
Proof.
  intros self now Hwf. cbv zeta.
  rewrite cleanup_idle_sessions_filter by assumption. split.
  - intros sid s. rewrite filter_In. cbn [snd]. unfold is_idle.
    rewrite negb_true_iff. rewrite <- Qltb_lt.
    destruct (Py.Qltb _ _); intuition congruence.
  - unfold cleanup_idle_sessions, idle_sessions. cbn [fst].
    rewrite length_map. apply filter_length.
Qed.

Lemma cleanup_idle_sessions_exact_witness :
  let old :=
    {| workdir := "/pool/session_1"; config := []; task_manager := None;
       created_at := 100%Q; last_accessed := 80%Q; task_count := 0%Z |} in
  let fresh :=
    {| workdir := "/pool/session_2"; config := []; task_manager := None;
       created_at := 100%Q; last_accessed := 100%Q; task_count := 0%Z |} in
  let self :=
    {| self_workdir := "/pool"; max_sessions := 5%Z; session_timeout := 10%Z;
       _sessions := [("session_1", old); ("session_2", fresh)] |} in
  cleanup_idle_sessions self (201 # 2)
  = (1%nat, with_sessions self [("session_2", fresh)])
  /\ (In ("session_2", fresh)
         (_sessions (snd (cleanup_idle_sessions self (201 # 2))))
      <-> In ("session_2", fresh) (_sessions self)
          /\ ~ (inject_Z (session_timeout self)
                < (201 # 2) - last_accessed fresh)%Q).
Proof.
  cbv zeta. split; [reflexivity|].
  apply (cleanup_idle_sessions_exact
           {| self_workdir := "/pool"; max_sessions := 5%Z;
              session_timeout := 10%Z;
              _sessions :=
                [("session_1",
                  {| workdir := "/pool/session_1"; config := [];
                     task_manager := None; created_at := 100%Q;
                     last_accessed := 80%Q; task_count := 0%Z |});
                 ("session_2",
                  {| workdir := "/pool/session_2"; config := [];
                     task_manager := None; created_at := 100%Q;
                     last_accessed := 100%Q; task_count := 0%Z |})] |}
           (201 # 2)).
  unfold Py.wf. simpl. repeat constructor; simpl; intuition discriminate.
Defined.

(** [min] returns an element of the sequence that no element is below,
    and that every earlier element is strictly above. *)
Lemma min_by_In {A : Type} (f : A -> Q) (rest : list A) :
  forall best, In (Py.min_by f best rest) (best :: rest).
Proof.
  induction rest as [|x xs IH]; intros best; simpl; [now left|].
  destruct (Py.Qltb (f x) (f best)).
  - right. apply IH.
  - destruct (IH best) as [H|H]; [now left | right; now right].
Qed.

Lemma min_by_le {A : Type} (f : A -> Q) (rest : list A) :
  forall best x,
    In x (best :: rest) -> (f (Py.min_by f best rest) <= f x)%Q.
Proof.
  induction rest as [|y ys IH]; intros best x Hin; simpl.
  - destruct Hin as [->|[]]. apply Qle_refl.
  - destruct (Py.Qltb (f y) (f best)) eqn:E.
    + apply Qltb_lt in E. destruct Hin as [<-|Hin].
      * apply Qle_trans with (f y); [apply IH; now left|].
        now apply Qlt_le_weak.
      * now apply IH.
    + apply Qltb_ge in E. destruct Hin as [<-|[<-|Hin]].
      * apply IH. now left.
      * apply Qle_trans with (f best); [apply IH; now left | exact E].
      * apply IH. now right.
Qed.

Lemma oldest_id_minimal (d : Py.Dict Session) (sid : string) :
  oldest_id d = Some sid ->
  exists s,
    In (sid, s) d
    /\ forall k s', In (k, s') d -> (last_accessed s <= last_accessed s')%Q.
Proof.
  destruct d as [|first rest]; simpl; [discriminate|].
  intros H. injection H as <-.
  set (m := Py.min_by (fun kv => last_accessed (snd kv)) first rest).
  exists (snd m). split.
  - rewrite <- surjective_pairing. apply min_by_In.
  - intros k s' Hin.
    apply (min_by_le (fun kv => last_accessed (snd kv)) rest first (k, s')).
    exact Hin.
Qed.

Lemma get_remove_None {V : Type} (d : Py.Dict V) (k k' : string) :
  Py.get d k = None -> Py.get (Py.remove d k') k = None.
Proof.
  induction d as [|[k0 v0] d IH]; simpl; [reflexivity|].
  destruct (String.eqb_spec k k0) as [->|Hne]; [discriminate|]. intros H.
  destruct (String.eqb k' k0); simpl; [assumption|].
  destruct (String.eqb_spec k k0); [congruence | auto].
Qed.

(** The shape of the pool after [create_session] with a fresh key on a
    pool at capacity that holds a record. *)
Lemma create_session_at_capacity (self : AipyappTaskManager)
  (session_id : string) (config : option (Py.Dict Py.Value))
  (env : CreateEnv) :
  Py.get (_sessions self) session_id = None ->
  (max_sessions self <= Z.of_nat (length (_sessions self)))%Z ->
  _sessions self <> [] ->
  exists victim_id victim,
    In (victim_id, victim) (_sessions self)
    /\ (forall k s, In (k, s) (_sessions self) ->
          (last_accessed victim <= last_accessed s)%Q)
    /\ _sessions (snd (create_session self session_id config env))
       = Py.remove (_sessions self) victim_id
         ++ match mkdir_raises env with
            | Some _ => []
            | None =>
                [(session_id,
                  {| workdir := Py.path_join (self_workdir self) session_id;
                     config := get_or config [];
                     task_manager := None;
                     created_at := clock_created_at env;
                     last_accessed := clock_last_accessed env;
                     task_count := 0%Z |})]
            end.
Proof.
  intros Hfresh Hcap Hne. unfold create_session, Py.contains.
  rewrite Hfresh. apply Z.leb_le in Hcap. rewrite Hcap.
  unfold _cleanup_oldest_session.
  destruct (oldest_id (_sessions self)) as [victim_id|] eqn:Hold.
  2:{ destruct (_sessions self); [congruence | discriminate]. }
  destruct (oldest_id_minimal _ _ Hold) as [victim [Hin Hmin]].
  exists victim_id, victim. split; [exact Hin|]. split; [exact Hmin|].
  rewrite cleanup_session_sessions.
  destruct (mkdir_raises env); cbn [snd with_sessions _sessions self_workdir].
  - now rewrite app_nil_r.
  - apply set_fresh. now apply get_remove_None.
Qed.

Lemma create_session_bound (self : AipyappTaskManager) (session_id : string)
  (config : option (Py.Dict Py.Value)) (env : CreateEnv) :
  (1 <= max_sessions self)%Z ->
  (Z.of_nat (length (_sessions self)) <= max_sessions self)%Z ->
  let self' := snd (create_session self session_id config env) in
  max_sessions self' = max_sessions self
  /\ (Z.of_nat (length (_sessions self')) <= max_sessions self)%Z.
Proof.
  intros Hpos Hlen. cbv zeta.
  destruct (Py.get (_sessions self) session_id) as [s|] eqn:Hget.
  - unfold create_session, Py.contains. rewrite Hget. now split.
  - destruct (Z.leb_spec (max_sessions self)
                (Z.of_nat (length (_sessions self)))) as [Hcap|Hroom].
    + assert (_sessions self <> []) as Hne.
      { intros E. rewrite E in Hcap. simpl in Hcap. lia. }
      destruct (create_session_at_capacity self session_id config env
                  Hget Hcap Hne) as [victim_id [victim [Hin [_ Heq]]]].
      split.
      { unfold create_session, Py.contains. rewrite Hget.
        destruct (_ <=? _)%Z; destruct (mkdir_raises env); simpl;
          unfold _cleanup_oldest_session;
          try destruct (oldest_id _); try rewrite cleanup_session_sessions;
          reflexivity. }
      rewrite Heq. rewrite length_app.
      assert (S (length (Py.remove (_sessions self) victim_id))
              = length (_sessions self)) as Hrem.
      { apply length_remove_present.
        destruct (Py.get (_sessions self) victim_id) eqn:E; [congruence|].
        apply get_None_iff in E. exfalso. apply E.
        change victim_id with (fst (victim_id, victim)). now apply in_map. }
      destruct (mkdir_raises env); simpl; lia.
    + unfold create_session, Py.contains. rewrite Hget.
      apply Z.leb_gt in Hroom. rewrite Hroom.
      destruct (mkdir_raises env); cbn [snd with_sessions _sessions max_sessions].
      * split; [reflexivity | assumption].
      * split; [reflexivity|]. rewrite length_set_fresh by assumption.
        apply Z.leb_gt in Hroom. lia.
Qed.

Lemma create_sessions_bound (calls : list CreateCall) :
  forall self : AipyappTaskManager,
    (1 <= max_sessions self)%Z ->
    (Z.of_nat (length (_sessions self)) <= max_sessions self)%Z ->
    (Z.of_nat (length (_sessions (create_sessions self calls)))
     <= max_sessions self)%Z.
Proof.
  induction calls as [|c calls IH]; intros self Hpos Hlen; simpl;
    [assumption|].
  destruct (create_session_bound self (call_session_id c) (call_config c)
              (call_env c) Hpos Hlen) as [Hmax Hlen'].
  unfold create_sessions in IH. rewrite <- Hmax. apply IH; rewrite Hmax; auto.
Qed.

(** C4 as stated: the pool would never hold more than [max_sessions]
    records.  With [max_sessions = 0] the eviction finds an empty pool,
    removes nothing, and the insertion goes ahead. *)
Lemma pool_exceeds_capacity_zero :
  let call :=
    {| call_session_id := "s0"; call_config := None;
       call_env := {| mkdir_raises := None; clock_created_at := 0%Q;
                      clock_last_accessed := 0%Q |} |} in
  let self := create_sessions (init "/pool" 0%Z 3600%Z) [call] in
  (max_sessions self < Z.of_nat (length (_sessions self)))%Z.
Proof. vm_compute. reflexivity. Qed.

(** C4, amended: with [max_sessions = 5], creating [s0 .. s4] at
    increasing timestamps and then [s5] leaves exactly [s1 .. s5].
    Whenever [max_sessions >= 1]: a pool within capacity stays within
    capacity under every sequence of [create_session] calls; and a
    [create_session] with a fresh key on a pool at capacity removes
    exactly one record, one whose [last_accessed] no record of the pool
    is below, before it inserts (the insertion is skipped when creating
    the directory raises). *)
Theorem pool_capacity_and_eviction :
  Py.keys
    (_sessions
       (create_sessions (init "/pool" 5%Z 3600%Z)
          [create_at "s0" 0%Q; create_at "s1" 1%Q; create_at "s2" 2%Q;
           create_at "s3" 3%Q; create_at "s4" 4%Q; create_at "s5" 5%Q]))
  = ["s1"; "s2"; "s3"; "s4"; "s5"]
  /\ (forall (self : AipyappTaskManager) (calls : list CreateCall),
        (1 <= max_sessions self)%Z ->
        (Z.of_nat (length (_sessions self)) <= max_sessions self)%Z ->
        (Z.of_nat (length (_sessions (create_sessions self calls)))
         <= max_sessions self)%Z)
  /\ (forall (self : AipyappTaskManager) (session_id : string)
             (config : option (Py.Dict Py.Value)) (env : CreateEnv),
        (1 <= max_sessions self)%Z ->
        Py.wf (_sessions self) ->
        ~ In session_id (Py.keys (_sessions self)) ->
        (max_sessions self <= Z.of_nat (length (_sessions self)))%Z ->
        exists victim_id victim,
          In (victim_id, victim) (_sessions self)
          /\ (forall k s, In (k, s) (_sessions self) ->
                (last_accessed victim <= last_accessed s)%Q)
          /\ (forall k s,
                In (k, s) (Py.remove (_sessions self) victim_id)
                <-> In (k, s) (_sessions self) /\ k <> victim_id)
          /\ S (length (Py.remove (_sessions self) victim_id))
             = length (_sessions self)
          /\ _sessions (snd (create_session self session_id config env))
             = Py.remove (_sessions self) victim_id
               ++ match mkdir_raises env with
                  | Some _ => []
                  | None =>
                      [(session_id,
                        {| workdir :=
                             Py.path_join (self_workdir self) session_id;
                           config := get_or config [];
                           task_manager := None;
                           created_at := clock_created_at env;
                           last_accessed := clock_last_accessed env;
                           task_count := 0%Z |})]
                  end).
Proof.
  split; [vm_compute; reflexivity|]. split.
  - intros self calls Hpos Hlen. now apply create_sessions_bound.
  - intros self session_id config env Hpos Hwf Hfresh Hcap.
    apply get_None_iff in Hfresh.
    assert (_sessions self <> []) as Hne.
    { intros E. rewrite E in Hcap. simpl in Hcap. lia. }
    destruct (create_session_at_capacity self session_id config env
                Hfresh Hcap Hne) as [victim_id [victim [Hin [Hmin Heq]]]].
    exists victim_id, victim.
    split; [exact Hin|]. split; [exact Hmin|].
    split; [intros k s; now apply In_remove|].
    split; [|exact Heq].
    apply length_remove_present. now rewrite (In_get _ _ _ Hwf Hin).
Qed.

Lemma pool_capacity_and_eviction_witness :
  let full :=
    create_sessions (init "/pool" 2%Z 3600%Z)
      [create_at "s0" 0%Q; create_at "s1" 1%Q] in
  (Z.of_nat (length (_sessions
       (create_sessions (init "/pool" 2%Z 3600%Z)
          [create_at "s0" 0%Q; create_at "s1" 1%Q; create_at "s2" 2%Q])))
   <= 2)%Z
  /\ exists victim_id victim,
       In (victim_id, victim) (_sessions full)
       /\ (forall k s, In (k, s) (_sessions full) ->
             (last_accessed victim <= last_accessed s)%Q)
       /\ (forall k s,
             In (k, s) (Py.remove (_sessions full) victim_id)
             <-> In (k, s) (_sessions full) /\ k <> victim_id)
       /\ S (length (Py.remove (_sessions full) victim_id))
          = length (_sessions full)
       /\ _sessions (snd (create_session full "s2" None
                            (call_env (create_at "s2" 2%Q))))
          = Py.remove (_sessions full) victim_id
            ++ [("s2",
                 {| workdir := "/pool/s2"; config := [];
                    task_manager := None; created_at := 2%Q;
                    last_accessed := 2%Q; task_count := 0%Z |})].
Proof.
  cbv zeta. split.
  - apply (proj1 (proj2 pool_capacity_and_eviction)
             (init "/pool" 2%Z 3600%Z)
             [create_at "s0" 0%Q; create_at "s1" 1%Q; create_at "s2" 2%Q]).
    + simpl. lia.
    + simpl. lia.
  - apply (proj2 (proj2 pool_capacity_and_eviction)
             (create_sessions (init "/pool" 2%Z 3600%Z)
                [create_at "s0" 0%Q; create_at "s1" 1%Q])
             "s2" None (call_env (create_at "s2" 2%Q))).
    + simpl. lia.
    + unfold Py.wf. simpl. repeat constructor; simpl; intuition discriminate.
    + simpl. intuition discriminate.
    + simpl. lia.
Defined.

End SessionPool.

(** * The sandbox executor *)

Lemma execute_task_resolved (self : AipyappSandboxExecutor) (ctx : AgentCtx)
  (instruction : string) (context : option (Py.Dict Py.Value)) (w : World)
  (tm : Aipy.TaskManager) :
  fst (_get_task_manager self ctx w) = Py.Return tm ->
  fst (execute_task self ctx instruction context w)
  = match run w with
    | DeadlineElapsed =>
        Raised {| err_message := timeout_message self; err_cause := None |}
    | RunRaises e =>
        Returned {| success := false; output := "";
                    error := Some (Py.exc_str e); artifacts := [];
                    execution_time := (end_time w - start_time w)%Q;
                    variables := [] |}
    | RunReturns task =>
        Returned {| success := true;
                    output := match output_lines task with
                              | [] => "Task completed successfully"
                              | _ => Py.join newline (output_lines task)
                              end;
                    error := None;
                    artifacts := collect_artifacts task;
                    execution_time := (end_time w - start_time w)%Q;
                    variables := collect_variables task |}
    end.
Proof.
  unfold execute_task. destruct (_get_task_manager self ctx w) as [[tm'|e] s1].
  - intros _. unfold _execute_in_aipyapp. now destruct (run w).
  - discriminate.
Qed.

Lemma execute_task_unresolved (self : AipyappSandboxExecutor) (ctx : AgentCtx)
  (instruction : string) (context : option (Py.Dict Py.Value)) (w : World)
  (e : Py.Exception) :
  fst (_get_task_manager self ctx w) = Py.Raise e ->
  fst (execute_task self ctx instruction context w)
  = Raised (on_exception self e).
Proof.
  unfold execute_task. destruct (_get_task_manager self ctx w) as [[tm'|e'] s1].
  - discriminate.
  - simpl. now intros [= ->].
Qed.

(** C1: when the run raises, [execute_task] is to raise
    [AipyappExecutionError] and return no [TaskResult]; its docstring
    says so too ("Raises: AipyappExecutionError: If execution fails").
    The code does not: a [SyntaxError] out of [task.run] is caught by
    the [except Exception] inside [_execute_in_aipyapp] and comes back
    from [execute_task] as a result with [success = false], so the
    handler of [execute_task] that maps and raises is never reached by
    an error of the run. *)
Lemma run_exception_is_returned :
  let ctx := {| chat_key := "test_chat"; user_id := "test_user";
                platform_type := "test"; bot_id := "test_bot" |} in
  let self := {| workdir := "/data"; timeout := 30%Z;
                 max_memory_mb := 512%Z; _task_managers := [] |} in
  let w := {| construct_raises := None; config := [];
              run := RunRaises
                       {| Py.exc_type_name := "SyntaxError";
                          Py.exc_str := "invalid syntax on line 5";
                          Py.exc_is_asyncio_timeout := false |};
              start_time := 10%Q; end_time := 12%Q |} in
  fst (execute_task self ctx "Invalid Python code" None w)
  = Returned {| success := false; output := "";
                error := Some "invalid syntax on line 5"; artifacts := [];
                execution_time := (12 - 10)%Q; variables := [] |}.
Proof. reflexivity. Qed.

(** The same at every input: whichever instance [e] of [Exception] the
    run raises ([Py.Exception] holds those only; a [SystemExit] or
    [KeyboardInterrupt] passes both handlers), [execute_task] returns a
    [TaskResult] with [success = false], [error = str(e)], empty
    output, artifacts and variables, and does not raise.  A returned
    [TaskResult] has [success = false] only in that case.
    [execute_task] raises [AipyappExecutionError] for an exception met
    while resolving the session's [TaskManager]: with the message of
    [map_error(e)] (its type name and suggestion are not carried) and
    [e] as cause. *)
Theorem run_exception_becomes_failed_result :
  forall (self : AipyappSandboxExecutor) (ctx : AgentCtx)
         (instruction : string) (context : option (Py.Dict Py.Value))
         (w : World),
    (forall tm e,
        fst (_get_task_manager self ctx w) = Py.Return tm ->
        run w = RunRaises e ->
        fst (execute_task self ctx instruction context w)
        = Returned {| success := false; output := "";
                      error := Some (Py.exc_str e); artifacts := [];
                      execution_time := (end_time w - start_time w)%Q;
                      variables := [] |})
    /\ (forall r,
          fst (execute_task self ctx instruction context w) = Returned r ->
          success r = false ->
          exists e, run w = RunRaises e)
    /\ (forall e,
          fst (_get_task_manager self ctx w) = Py.Raise e ->
          Py.exc_is_asyncio_timeout e = false ->
          fst (execute_task self ctx instruction context w)
          = Raised {| err_message := error_message (map_error e);
                      err_cause := Some e |}).
Proof.
  intros self ctx instruction context w. split; [|split].
  - intros tm e Htm Hrun.
    rewrite (execute_task_resolved _ _ _ _ _ tm Htm). now rewrite Hrun.
  - intros r Hret Hfail.
    destruct (fst (_get_task_manager self ctx w)) as [tm|e] eqn:Htm.
    + rewrite (execute_task_resolved _ _ _ _ _ tm Htm) in Hret.
      destruct (run w) as [task|e|]; [|now exists e|discriminate].
      injection Hret as <-. discriminate.
    + rewrite (execute_task_unresolved _ _ _ _ _ e Htm) in Hret.
      discriminate.
  - intros e Htm Hflag.
    rewrite (execute_task_unresolved _ _ _ _ _ e Htm).
    unfold on_exception. now rewrite Hflag.
Qed.

Lemma run_exception_becomes_failed_result_witness :
  let ctx := {| chat_key := "test_chat"; user_id := "test_user";
                platform_type := "test"; bot_id := "test_bot" |} in
  let self := {| workdir := "/data"; timeout := 30%Z;
                 max_memory_mb := 512%Z; _task_managers := [] |} in
  let oom := {| Py.exc_type_name := "MemoryError";
                Py.exc_str := "Out of memory";
                Py.exc_is_asyncio_timeout := false |} in
  let denied := {| Py.exc_type_name := "PermissionError";
                   Py.exc_str := "Permission denied: /data";
                   Py.exc_is_asyncio_timeout := false |} in
  fst (execute_task self ctx "x" None
         {| construct_raises := None; config := []; run := RunRaises oom;
            start_time := 1%Q; end_time := 3%Q |})
  = Returned {| success := false; output := "";
                error := Some "Out of memory"; artifacts := [];
                execution_time := (3 - 1)%Q; variables := [] |}
  /\ fst (execute_task self ctx "x" None
            {| construct_raises := Some denied; config := [];
               run := DeadlineElapsed;
               start_time := 1%Q; end_time := 3%Q |})
     = Raised {| err_message := "Permission denied: /data";
                 err_cause := Some denied |}.
Proof.
  cbv zeta. split.
  - refine (proj1 (run_exception_becomes_failed_result _ _ _ _ _)
              {| Aipy.cwd := "/data/test_chat_test_user";
                 Aipy.settings := [] |}
              {| Py.exc_type_name := "MemoryError";
                 Py.exc_str := "Out of memory";
                 Py.exc_is_asyncio_timeout := false |} _ _); reflexivity.
  - refine (proj2 (proj2 (run_exception_becomes_failed_result _ _ _ _ _))
              {| Py.exc_type_name := "PermissionError";
                 Py.exc_str := "Permission denied: /data";
                 Py.exc_is_asyncio_timeout := false |} _ _); reflexivity.
Defined.

(** C2: when the deadline of [asyncio.wait_for] elapses before the run
    of a resolved session completes, [execute_task] raises
    [AipyappExecutionError] with the message ["Task execution exceeded
    <timeout>s timeout"], [<timeout>] being the configured duration; it
    returns no [TaskResult]. *)
Theorem deadline_raises_timeout_error :
  forall (self : AipyappSandboxExecutor) (ctx : AgentCtx)
         (instruction : string) (context : option (Py.Dict Py.Value))
         (w : World) (tm : Aipy.TaskManager),
    fst (_get_task_manager self ctx w) = Py.Return tm ->
    run w = DeadlineElapsed ->
    fst (execute_task self ctx instruction context w)
    = Raised {| err_message :=
                  "Task execution exceeded " +:+ Py.str_of_int (timeout self)
                  +:+ "s timeout";
                err_cause := None |}
    /\ forall r,
         fst (execute_task self ctx instruction context w) <> Returned r.
Proof.
  intros self ctx instruction context w tm Htm Hrun.
  rewrite (execute_task_resolved _ _ _ _ _ tm Htm). rewrite Hrun.
  split; [reflexivity | discriminate].
Qed.

Lemma deadline_raises_timeout_error_witness :
  let ctx := {| chat_key := "test_chat"; user_id := "test_user";
                platform_type := "test"; bot_id := "test_bot" |} in
  let self := {| workdir := "/data"; timeout := 300%Z;
                 max_memory_mb := 512%Z; _task_managers := [] |} in
  let w := {| construct_raises := None; config := [];
              run := DeadlineElapsed;
              start_time := 0%Q; end_time := 300%Q |} in
  fst (execute_task self ctx "Slow task" None w)
  = Raised {| err_message := "Task execution exceeded 300s timeout";
              err_cause := None |}
  /\ forall r, fst (execute_task self ctx "Slow task" None w) <> Returned r.
Proof.
  cbv zeta.
  refine (deadline_raises_timeout_error _ _ _ _ _
            {| Aipy.cwd := "/data/test_chat_test_user";
               Aipy.settings := [] |} _ _); reflexivity.
Defined.

Lemma In_set {V : Type} (d : Py.Dict V) (k k' : string) (v v' : V) :
  In (k, v) (Py.set d k' v') -> In (k, v) d \/ (k, v) = (k', v').
Proof.
  induction d as [|[k0 v0] d IH]; simpl.
  - intros [E|[]]. now right.
  - destruct (String.eqb_spec k' k0) as [->|Hne]; simpl.
    + intros [E|H]; [right; congruence | left; now right].
    + intros [E|H]; [left; now left|].
      destruct (IH H) as [H'|H']; [left; now right | now right].
Qed.

Lemma isinstance_serializable (v : Py.Value) :
  Py.isinstance v serializable_classes = true
  <-> In (Py.type v) serializable_classes.
Proof.
  unfold serializable_classes.
  destruct v; simpl; intuition (try discriminate; auto).
Qed.

(** The loop over [globals.items()] only ever adds entries it keeps. *)
Lemma collect_sound (globals : Py.Dict Py.Value) :
  forall acc k v,
    In (k, v) (fold_left keep_step globals acc) ->
    In (k, v) acc \/ (In (k, v) globals /\ keeps k v = true).
Proof.
  induction globals as [|[k0 v0] g IH]; intros acc k v; simpl; [now left|].
  intros H. apply IH in H as [H|[H1 H2]].
  - unfold keep_step in H. cbn [fst snd] in H.
    destruct (keeps k0 v0) eqn:Hk; [|now left].
    apply In_set in H as [H|H]; [now left|].
    right. split; [left; congruence|]. congruence.
  - right. split; [now right | assumption].
Qed.

Lemma collect_get_other (globals : Py.Dict Py.Value) :
  forall acc k,
    ~ In k (Py.keys globals) ->
    Py.get (fold_left keep_step globals acc) k = Py.get acc k.
Proof.
  induction globals as [|[k0 v0] g IH]; intros acc k Hnot; simpl;
    [reflexivity|].
  simpl in Hnot. rewrite IH by tauto. unfold keep_step. cbn [fst snd].
  destruct (keeps k0 v0); [|reflexivity].
  apply get_set_other. intros ->. tauto.
Qed.

(** On a dict, every entry the test keeps is collected. *)
Lemma collect_complete (globals : Py.Dict Py.Value) :
  forall acc k v,
    Py.wf globals -> In (k, v) globals -> keeps k v = true ->
    Py.get (fold_left keep_step globals acc) k = Some v.
Proof.
  unfold Py.wf.
  induction globals as [|[k0 v0] g IH]; intros acc k v Hwf Hin Hkeep;
    simpl in *; [contradiction|].
  inversion Hwf as [|? ? Hnotin Hwf']; subst.
  destruct Hin as [E|Hin].
  - injection E as -> ->. rewrite collect_get_other by assumption.
    unfold keep_step. cbn [fst snd]. rewrite Hkeep. apply get_set_same.
  - now apply IH.
Qed.

(** C9: in the [TaskResult] of an execution that completes normally,
    every entry of [variables] has a key that does not start with an
    underscore and a value whose class is one of [int], [float], [str],
    [bool], [list], [dict], and is an entry of the runtime's globals;
    every entry of the globals that violates either condition is
    absent, and every entry that meets both is present. *)
Theorem variables_are_filtered_globals :
  forall (self : AipyappSandboxExecutor) (ctx : AgentCtx)
         (instruction : string) (context : option (Py.Dict Py.Value))
         (w : World) (task : Aipy.Task) (r : TaskResult),
    run w = RunReturns task ->
    fst (execute_task self ctx instruction context w) = Returned r ->
    (forall k v,
        In (k, v) (variables r) ->
        String.prefix "_" k = false
        /\ In (Py.type v)
              [Py.TInt; Py.TFloat; Py.TStr; Py.TBool; Py.TList; Py.TDict]
        /\ exists globals,
             Aipy.runtime_globals task = Some globals /\ In (k, v) globals)
    /\ (forall globals k v,
          Aipy.runtime_globals task = Some globals ->
          Py.wf globals ->
          In (k, v) globals ->
          String.prefix "_" k = true
          \/ ~ In (Py.type v)
                  [Py.TInt; Py.TFloat; Py.TStr; Py.TBool; Py.TList; Py.TDict] ->
          ~ In k (Py.keys (variables r)))
    /\ (forall globals k v,
          Aipy.runtime_globals task = Some globals ->
          Py.wf globals ->
          In (k, v) globals ->
          String.prefix "_" k = false ->
          In (Py.type v)
             [Py.TInt; Py.TFloat; Py.TStr; Py.TBool; Py.TList; Py.TDict] ->
          In (k, v) (variables r)).
Proof.
  intros self ctx instruction context w task r Hrun Hret.
  assert (variables r = collect_variables task) as ->.
  { destruct (fst (_get_task_manager self ctx w)) as [tm|e] eqn:Htm.
    - rewrite (execute_task_resolved _ _ _ _ _ tm Htm), Hrun in Hret.
      now injection Hret as <-.
    - now rewrite (execute_task_unresolved _ _ _ _ _ e Htm) in Hret. }
  unfold collect_variables.
  assert (forall k v, keeps k v = true
                      <-> String.prefix "_" k = false
                          /\ In (Py.type v) serializable_classes) as Hkeeps.
  { intros k v. unfold keeps. rewrite andb_true_iff, negb_true_iff.
    now rewrite isinstance_serializable. }
  fold serializable_classes. split; [|split].
  - intros k v Hin. destruct (Aipy.runtime_globals task) as [g|];
      [|contradiction].
    apply collect_sound in Hin as [[]|[Hin Hk]].
    apply Hkeeps in Hk as [Hk1 Hk2]. split; [assumption|].
    split; [assumption|]. now exists g.
  - intros g k v -> Hwf Hin Hbad Hkey.
    apply in_map_iff in Hkey as [[k' v'] [Hfst Hin']]. simpl in Hfst.
    subst k'. apply collect_sound in Hin' as [[]|[Hin' Hk]].
    apply Hkeeps in Hk as [Hk1 Hk2].
    rewrite (wf_functional g k v v' Hwf Hin Hin') in Hbad.
    destruct Hbad as [Hbad|Hbad]; [congruence | contradiction].
  - intros g k v -> Hwf Hin Hk1 Hk2. apply get_In.
    apply collect_complete; try assumption. apply Hkeeps. now split.
Qed.

Lemma variables_are_filtered_globals_witness :
  let ctx := {| chat_key := "test_chat"; user_id := "test_user";
                platform_type := "test"; bot_id := "test_bot" |} in
  let self := {| workdir := "/data"; timeout := 30%Z;
                 max_memory_mb := 512%Z; _task_managers := [] |} in
  let globals :=
    [("__name__", Py.VStr "__main__"); ("result", Py.VInt 4);
     ("np", Py.VObject "module"); ("rows", Py.VList [Py.VInt 1])] in
  let w := {| construct_raises := None; config := [];
              run := RunReturns {| Aipy.steps := [];
                                   Aipy.cwd_listing := None;
                                   Aipy.runtime_globals := Some globals |};
              start_time := 0%Q; end_time := 1%Q |} in
  option_map variables
    (match fst (execute_task self ctx "Calculate 2 + 2" None w) with
     | Returned r => Some r
     | Raised _ => None
     end)
  = Some [("result", Py.VInt 4); ("rows", Py.VList [Py.VInt 1])]
  /\ ~ In "np" (Py.keys [("result", Py.VInt 4); ("rows", Py.VList [Py.VInt 1])]).
Proof.
  cbv zeta. split; [reflexivity|].
  refine (proj1 (proj2
            (variables_are_filtered_globals
               {| workdir := "/data"; timeout := 30%Z;
                  max_memory_mb := 512%Z; _task_managers := [] |}
               {| chat_key := "test_chat"; user_id := "test_user";
                  platform_type := "test"; bot_id := "test_bot" |}
               "Calculate 2 + 2" None
               {| construct_raises := None; config := [];
                  run := RunReturns
                           {| Aipy.steps := []; Aipy.cwd_listing := None;
                              Aipy.runtime_globals :=
                                Some [("__name__", Py.VStr "__main__");
                                      ("result", Py.VInt 4);
                                      ("np", Py.VObject "module");
                                      ("rows", Py.VList [Py.VInt 1])] |};
                  start_time := 0%Q; end_time := 1%Q |}
               _
               {| success := true; output := "Task completed successfully";
                  error := None; artifacts := [];
                  execution_time := (1 - 0)%Q;
                  variables := [("result", Py.VInt 4);
                                ("rows", Py.VList [Py.VInt 1])] |}
               eq_refl eq_refl))
            _ "np" (Py.VObject "module") eq_refl _ _ _).
  - unfold Py.wf. simpl. repeat constructor; simpl; intuition discriminate.
  - simpl. tauto.
  - right. simpl. intuition discriminate.
Defined.

(** * The workflow tool *)

Section Workflow.

Import Orchestrator.

Variable ctx : AgentCtx.
Variable worlds : nat -> World.
Variable dumps_raises : list StepRecord -> option Py.Exception.

(** The elapsed time the loop has accumulated after the given steps. *)
Let elapsed (total : Q) (steps : list StepRecord) : Q :=
  fold_left (fun acc s => (acc + execution_time (result s))%Q) steps total.

Let succeeded (s : StepRecord) : Prop := success (result s) = true.

(** Whether [json.dumps] accepts a reply is a matter of its steps; when
    it raises inside the [try], it raises in the handler as well, and
    that exception leaves the tool. *)
Lemma outer_handler_cases (error : string) (steps : list StepRecord) :
  outer_handler dumps_raises error steps
  = match steps, dumps_raises steps with
    | _ :: _, Some e => ToolRaises e
    | _, _ => ToolReturns (failure error steps)
    end.
Proof.
  unfold outer_handler, dumps_or_raise, json_dumps. cbn [failure wf_steps].
  destruct steps; [reflexivity|]. now destruct (dumps_raises _).
Qed.

Lemma return_dumps_cases (reply : WorkflowResult) :
  return_dumps dumps_raises reply
  = match wf_steps reply, dumps_raises (wf_steps reply) with
    | _ :: _, Some e => ToolRaises e
    | _, _ => ToolReturns reply
    end.
Proof.
  unfold return_dumps, json_dumps.
  destruct (wf_steps reply) as [|s l] eqn:Hs; [reflexivity|].
  destruct (dumps_raises (s :: l)) as [e|] eqn:Hd; [|reflexivity].
  rewrite outer_handler_cases. now rewrite Hd.
Qed.

Lemma completed_cases (steps : list StepRecord) (total : Q) :
  completed dumps_raises steps total
  = match rev steps with
    | [] => ToolReturns (failure "list index out of range" steps)
    | last_step :: _ =>
        match dumps_raises steps with
        | Some e => ToolRaises e
        | None =>
            ToolReturns
              {| wf_success := true;
                 wf_steps := steps;
                 wf_error := None;
                 wf_final_output := Some (output (result last_step));
                 wf_artifacts := Some (all_artifacts steps);
                 wf_total_time := Some total |}
        end
    end.
Proof.
  unfold completed. destruct (rev steps) as [|last_step earlier] eqn:Hrev.
  - rewrite outer_handler_cases.
    assert (steps = []) as -> by (rewrite <- (rev_involutive steps), Hrev;
                                  reflexivity).
    reflexivity.
  - rewrite return_dumps_cases. cbn [wf_steps].
    destruct steps as [|s l]; [discriminate|].
    now destruct (dumps_raises (s :: l)).
Qed.

(** The shape of every run of the loop: the steps and calls it adds,
    the instructions it leaves, and how it ends. *)
Lemma run_steps_shape (instruction_list : list string) :
  forall executor i steps_results context_dict total_time calls0,
    let R := run_steps dumps_raises executor ctx worlds i instruction_list
               steps_results context_dict total_time calls0 in
    exists new_steps new_calls rest,
      recorded R = steps_results ++ new_steps
      /\ calls R = calls0 ++ new_calls
      /\ instruction_list = map call_instruction new_calls ++ rest
      /\ Forall (fun c => call_ctx c = ctx) new_calls
      /\ map instruction new_steps
         = firstn (length new_steps) instruction_list
      /\ map step new_steps = seq (i + 1) (length new_steps)
      /\ (forall c, nth_error new_calls 0 = Some c ->
            call_context c = context_dict)
      /\ (forall j c s,
            nth_error new_calls (S j) = Some c ->
            nth_error new_steps j = Some s ->
            Py.get (call_context c) "variables"
            = Some (Py.dict_value (variables (result s))))
      /\ ((rest = []
           /\ length new_steps = length new_calls
           /\ Forall succeeded new_steps
           /\ response R
              = completed dumps_raises (steps_results ++ new_steps)
                  (elapsed total_time new_steps))
          \/ (exists prior failed,
                new_steps = prior ++ [failed]
                /\ length new_steps = length new_calls
                /\ Forall succeeded prior
                /\ success (result failed) = false
                /\ response R
                   = return_dumps dumps_raises
                       (step_failed (i + length prior) (result failed)
                          (steps_results ++ new_steps)
                          (elapsed total_time prior)))
          \/ (exists message,
                S (length new_steps) = length new_calls
                /\ Forall succeeded new_steps
                /\ response R
                   = outer_handler dumps_raises message
                       (steps_results ++ new_steps))).
Proof.
  induction instruction_list as [|instr rest IH];
    intros executor i steps_results context_dict total_time calls0; cbv zeta.
  - exists [], [], []. simpl. rewrite !app_nil_r.
    do 6 (split; [auto|]).
    split; [discriminate|]. split; [intros j c s; discriminate|].
    left. repeat split; auto.
  - simpl.
    destruct (execute_task executor ctx instr (Some context_dict) (worlds i))
      as [[r|e] executor'] eqn:Hcall.
    + destruct (success r) eqn:Hok; simpl.
      * specialize (IH executor' (S i)
                      (steps_results
                       ++ [{| step := i + 1; instruction := instr;
                              result := r |}])
                      (Py.set context_dict "variables"
                         (Py.dict_value (variables r)))
                      (total_time + execution_time r)%Q
                      (calls0
                       ++ [{| call_ctx := ctx; call_instruction := instr;
                              call_context := context_dict |}])).
        cbv zeta in IH.
        destruct IH as (ns & nc & rest' & Hs & Hc & Hi & Hctx & Hin & Hst
                        & Hfirst & Hnext & Hend).
        exists ({| step := i + 1; instruction := instr; result := r |} :: ns),
               ({| call_ctx := ctx; call_instruction := instr;
                   call_context := context_dict |} :: nc), rest'.
        rewrite <- app_assoc in Hs, Hc. simpl in Hs, Hc.
        split; [exact Hs|]. split; [exact Hc|].
        split; [simpl; now rewrite Hi|].
        split; [constructor; [reflexivity | exact Hctx]|].
        split; [simpl; now rewrite Hin|].
        split; [simpl; rewrite Hst; now replace (S i + 1) with (S (i + 1)) by lia|].
        split; [simpl; now intros c [= <-]|].
        split.
        { intros [|j] c s; simpl; intros Hc' Hs'.
          - injection Hs' as <-. simpl. rewrite (Hfirst c Hc').
            apply get_set_same.
          - now apply (Hnext j). }
        destruct Hend as [(Hr & Hlen & Hall & Hresp)
                         |[(prior & failed & Hns & Hlen & Hall & Hf & Hresp)
                          |(msg & Hlen & Hall & Hresp)]].
        -- left. split; [exact Hr|]. split; [simpl; now rewrite Hlen|].
           split; [constructor; [exact Hok | exact Hall]|].
           rewrite Hresp. rewrite <- app_assoc. reflexivity.
        -- right. left.
           exists ({| step := i + 1; instruction := instr; result := r |}
                   :: prior), failed.
           split; [simpl; now rewrite Hns|].
           split; [simpl; now rewrite Hlen|].
           split; [constructor; [exact Hok | exact Hall]|].
           split; [exact Hf|].
           rewrite Hresp. rewrite <- app_assoc. simpl.
           do 2 f_equal. lia.
        -- right. right. exists msg.
           split; [simpl; now rewrite Hlen|].
           split; [constructor; [exact Hok | exact Hall]|].
           rewrite Hresp. rewrite <- app_assoc. reflexivity.
      * exists [{| step := i + 1; instruction := instr; result := r |}],
               [{| call_ctx := ctx; call_instruction := instr;
                   call_context := context_dict |}], rest.
        simpl. do 3 (split; [reflexivity|]).
        split; [repeat constructor|]. do 2 (split; [reflexivity|]).
        split; [now intros c [= <-]|].
        split; [intros [|j] c s; simpl; discriminate|].
        right. left.
        exists [], {| step := i + 1; instruction := instr; result := r |}.
        simpl. do 2 (split; [reflexivity|]). split; [constructor|].
        split; [exact Hok|]. now replace (i + 0) with i by lia.
    + exists [],
             [{| call_ctx := ctx; call_instruction := instr;
                 call_context := context_dict |}], rest.
      simpl. rewrite !app_nil_r. do 3 (split; [reflexivity|]).
      split; [repeat constructor|]. do 2 (split; [reflexivity|]).
      split; [now intros c [= <-]|].
      split; [intros [|j] c s; simpl; discriminate|].
      right. right. exists (err_message e).
      split; [reflexivity|]. split; [constructor | reflexivity].
Qed.

(** What a run that ends in one of the three ways returns, when it
    returns. *)
Lemma completed_returns (steps : list StepRecord) (total : Q)
  (reply : WorkflowResult) :
  completed dumps_raises steps total = ToolReturns reply ->
  wf_steps reply = steps
  /\ (wf_success reply = true ->
      steps <> []
      /\ wf_artifacts reply
         = Some (flat_map (fun s => artifacts (result s)) steps)
      /\ wf_total_time reply = Some total
      /\ wf_error reply = None
      /\ exists earlier last,
           steps = earlier ++ [last]
           /\ wf_final_output reply = Some (output (result last))).
Proof.
  unfold completed. destruct (rev steps) as [|last earlier] eqn:Hrev.
  - rewrite outer_handler_cases.
    assert (steps = []) as -> by (rewrite <- (rev_involutive steps), Hrev;
                                  reflexivity).
    intros [= <-]. split; [reflexivity | discriminate].
  - rewrite return_dumps_cases. cbn [wf_steps].
    assert (steps = rev earlier ++ [last]) as Hsteps.
    { rewrite <- (rev_involutive steps), Hrev. reflexivity. }
    intros H.
    assert (reply
            = {| wf_success := true; wf_steps := steps; wf_error := None;
                 wf_final_output := Some (output (result last));
                 wf_artifacts := Some (all_artifacts steps);
                 wf_total_time := Some total |}) as ->.
    { destruct steps; [|destruct (dumps_raises _)]; congruence. }
    cbn. split; [reflexivity|]. intros _.
    split; [rewrite Hsteps; now destruct (rev earlier)|].
    repeat split. now exists (rev earlier), last.
Qed.

Lemma return_dumps_returns (reply reply' : WorkflowResult) :
  return_dumps dumps_raises reply = ToolReturns reply' -> reply' = reply.
Proof.
  rewrite return_dumps_cases.
  destruct (wf_steps reply); [|destruct (dumps_raises _)]; congruence.
Qed.

Lemma outer_handler_returns (error : string) (steps : list StepRecord)
  (reply : WorkflowResult) :
  outer_handler dumps_raises error steps = ToolReturns reply ->
  reply = failure error steps.
Proof.
  rewrite outer_handler_cases.
  destruct steps; [|destruct (dumps_raises _)]; congruence.
Qed.

(** A run returns a dict exactly when [json.dumps] accepts the steps it
    recorded; otherwise the exception of [json.dumps] leaves the tool. *)
Lemma run_steps_returns_iff (instruction_list : list string) :
  forall executor,
    let R := run_steps dumps_raises executor ctx worlds 0 instruction_list
               [] [] 0%Q [] in
    match recorded R, dumps_raises (recorded R) with
    | _ :: _, Some e => response R = ToolRaises e
    | _, _ => exists reply, response R = ToolReturns reply
    end.
Proof.
  intros executor. cbv zeta.
  destruct (run_steps_shape instruction_list executor 0 [] [] 0%Q [])
    as (ns & nc & rest & Hs & _ & _ & _ & _ & _ & _ & _ & Hend).
  cbv zeta in *. simpl in Hs. rewrite Hs.
  destruct Hend as [(_ & _ & _ & Hresp)
                   |[(prior & failed & _ & _ & _ & _ & Hresp)
                    |(msg & _ & _ & Hresp)]];
    simpl in Hresp; rewrite Hresp.
  - unfold completed. destruct (rev ns) as [|last earlier] eqn:Hrev.
    + rewrite outer_handler_cases.
      destruct ns; [|destruct (dumps_raises _)]; eauto.
    + rewrite return_dumps_cases. cbn [wf_steps].
      destruct ns; [|destruct (dumps_raises _)]; eauto.
  - rewrite return_dumps_cases. cbn [step_failed wf_steps].
    destruct ns; [|destruct (dumps_raises _)]; eauto.
  - rewrite outer_handler_cases.
    destruct ns; [|destruct (dumps_raises _)]; eauto.
Qed.

End Workflow.

Import Orchestrator.

Lemma firstn_length_app {A : Type} (l r : list A) :
  firstn (length l) (l ++ r) = l.
Proof.
  induction l as [|x l IH]; simpl; [reflexivity | now rewrite IH].
Qed.

(** A failing element of a list whose elements but the last all pass is
    the last one. *)
Lemma failing_is_last {A : Type} (P : A -> Prop) (l1 : list A) :
  forall (l1' l2 : list A) (x y : A),
    l1 ++ x :: l2 = l1' ++ [y] -> Forall P l1' -> ~ P x ->
    l2 = [] /\ l1 = l1' /\ x = y.
Proof.
  induction l1 as [|a l1 IH]; intros l1' l2 x y Heq Hall Hx; simpl in Heq.
  - destruct l1' as [|b l1']; simpl in Heq.
    + injection Heq as -> ->. auto.
    + injection Heq as <- _. inversion Hall. contradiction.
  - destruct l1' as [|b l1']; simpl in Heq.
    + injection Heq as _ Heq. destruct l1; discriminate.
    + injection Heq as <- Heq. inversion Hall as [|? ? Hb Hall']; subst.
      destruct (IH l1' l2 x y Heq Hall' Hx) as (E1 & E2 & E3).
      subst. auto.
Qed.

(** C5 as stated: on stopping at a failed step the tool would report
    the artifacts of the prior steps.  The dict it returns there has the
    steps, an error and [total_time], and no [artifacts]: the plot of
    step "a" is listed in its step record only. *)
Lemma failed_workflow_has_no_artifacts :
  let ctx := {| chat_key := "test_chat"; user_id := "test_user";
                platform_type := "test"; bot_id := "test_bot" |} in
  let self :=
    {| executor := Some {| workdir := "/data"; timeout := 300%Z;
                           max_memory_mb := 512%Z; _task_managers := [] |} |} in
  let plot := {| Aipy.relative_path := "plot.png"; Aipy.is_file := true;
                 Aipy.suffix := ".png" |} in
  let worlds (i : nat) :=
    {| construct_raises := None; config := [];
       run := match i with
              | O => RunReturns {| Aipy.steps := [];
                                   Aipy.cwd_listing := Some [plot];
                                   Aipy.runtime_globals := None |}
              | S _ => RunRaises {| Py.exc_type_name := "ValueError";
                                    Py.exc_str := "bad input";
                                    Py.exc_is_asyncio_timeout := false |}
              end;
       start_time := 0%Q; end_time := 2%Q |} in
  let R := execute_python_workflow (fun _ => None) self ctx
             (Array ["a"; "b"]) worlds in
  exists reply,
    response R = ToolReturns reply
    /\ map (fun s => artifacts (result s)) (wf_steps reply)
       = [["plot.png"]; []]
    /\ wf_artifacts reply = None
    /\ wf_total_time reply = Some (0 + (2 - 0))%Q
    /\ wf_success reply = false.
Proof. cbv zeta. eexists. vm_compute. repeat split. Qed.

(** C5, amended: the tool calls [execute_task] for its instructions in
    order, each time with the same [ctx]; the first call gets an empty
    context and each later one the variables of the step before under
    the key ["variables"].  It stops at the first step whose result has
    [success = false]: that step is the last one recorded and no later
    instruction is invoked.  Whenever [json.dumps] accepts the recorded
    steps the tool returns a dict with them: after a failed step one
    with [success = false] and the elapsed time summed over the prior
    steps, but no aggregated artifacts; one with [success = true] only
    if every instruction ran and every step succeeded, which then
    aggregates the artifacts and the elapsed time of all steps.  For
    ["a", "b", "c"] where step "b" fails: "c" is never invoked, two
    steps are recorded, and the dict returned has [success = false]. *)
Theorem workflow_stops_at_first_failure :
  forall (self : AipyappSandboxExecutor) (ctx : AgentCtx)
         (worlds : nat -> World)
         (dumps_raises : list StepRecord -> option Py.Exception),
    (forall instruction_list : list string,
        let R := execute_python_workflow dumps_raises
                   {| executor := Some self |} ctx
                   (Array instruction_list) worlds in
        let steps := recorded R in
        (exists rest, instruction_list = map call_instruction (calls R) ++ rest)
        /\ Forall (fun c => call_ctx c = ctx) (calls R)
        /\ map instruction steps = firstn (length steps) instruction_list
        /\ map step steps = seq 1 (length steps)
        /\ (forall c, nth_error (calls R) 0 = Some c -> call_context c = [])
        /\ (forall j c s,
              nth_error (calls R) (S j) = Some c ->
              nth_error steps j = Some s ->
              Py.get (call_context c) "variables"
              = Some (Py.dict_value (variables (result s))))
        /\ (steps = [] \/ dumps_raises steps = None ->
            exists reply, response R = ToolReturns reply)
        /\ (forall prior failed later,
              steps = prior ++ failed :: later ->
              success (result failed) = false ->
              later = []
              /\ Forall (fun s => success (result s) = true) prior
              /\ map call_instruction (calls R) = map instruction steps
              /\ forall reply,
                   response R = ToolReturns reply ->
                   wf_steps reply = steps
                   /\ wf_success reply = false
                   /\ wf_total_time reply
                      = Some (fold_left
                                (fun acc s =>
                                   (acc + execution_time (result s))%Q)
                                prior 0%Q)
                   /\ wf_artifacts reply = None)
        /\ (forall reply,
              response R = ToolReturns reply ->
              wf_steps reply = steps
              /\ (wf_success reply = true ->
                  map instruction steps = instruction_list
                  /\ map call_instruction (calls R) = instruction_list
                  /\ Forall (fun s => success (result s) = true) steps
                  /\ wf_artifacts reply
                     = Some (flat_map (fun s => artifacts (result s)) steps)
                  /\ wf_total_time reply
                     = Some (fold_left
                               (fun acc s =>
                                  (acc + execution_time (result s))%Q)
                               steps 0%Q))))
    /\ (forall ra rb : TaskResult,
          let first := execute_task self ctx "a" (Some []) (worlds 0) in
          let second :=
            execute_task (snd first) ctx "b"
              (Some [("variables", Py.dict_value (variables ra))])
              (worlds 1) in
          let two_steps :=
            [{| step := 1; instruction := "a"; result := ra |};
             {| step := 2; instruction := "b"; result := rb |}] in
          fst first = Returned ra -> success ra = true ->
          fst second = Returned rb -> success rb = false ->
          dumps_raises two_steps = None ->
          let R := execute_python_workflow dumps_raises
                     {| executor := Some self |} ctx
                     (Array ["a"; "b"; "c"]) worlds in
          map call_instruction (calls R) = ["a"; "b"]
          /\ recorded R = two_steps
          /\ exists reply,
               response R = ToolReturns reply
               /\ wf_success reply = false
               /\ wf_steps reply = two_steps).
Proof.
  intros self ctx worlds dumps_raises. split.
  - intros instruction_list. cbv zeta.
    pose proof (run_steps_returns_iff ctx worlds dumps_raises
                  instruction_list self) as Hret.
    unfold execute_python_workflow. cbn [executor].
    destruct (run_steps_shape ctx worlds dumps_raises instruction_list self
                0 [] [] 0%Q [])
      as (ns & nc & rest & Hs & Hc & Hi & Hctx & Hin & Hst & Hfirst & Hnext
          & Hend).
    cbv zeta in *. simpl in Hs, Hc, Hst. rewrite Hs in *. rewrite Hc.
    split; [now exists rest|]. split; [exact Hctx|].
    split; [exact Hin|]. split; [exact Hst|]. split; [exact Hfirst|].
    split; [exact Hnext|].
    split.
    { intros [->|Hd]; [exact Hret|]. rewrite Hd in Hret.
      now destruct ns. }
    assert (length ns = length nc ->
            map call_instruction nc = map instruction ns) as Hsame.
    { intros Hlen. rewrite Hin, Hi, Hlen.
      rewrite <- (length_map call_instruction nc).
      symmetry. apply firstn_length_app. }
    destruct Hend as [(Hr & Hlen & Hall & Hresp)
                     |[(prior' & failed' & Hns & Hlen & Hall & Hf & Hresp)
                      |(msg & Hlen & Hall & Hresp)]];
      simpl in Hresp; rewrite Hresp.
    + split.
      * intros prior failed later Heq Hfail. exfalso.
        rewrite Forall_forall in Hall.
        assert (success (result failed) = true) as Hok.
        { apply Hall. rewrite Heq. apply in_or_app. right. now left. }
        congruence.
      * intros reply Hreply.
        apply completed_returns in Hreply as [Hsteps Hsucc].
        split; [exact Hsteps|]. intros Htrue.
        destruct (Hsucc Htrue) as (_ & Ha & Ht & _).
        rewrite <- (Hsame Hlen). subst rest. rewrite app_nil_r in Hi.
        split; [now rewrite Hi|]. split; [now rewrite Hi|].
        split; [exact Hall|]. split; [exact Ha | exact Ht].
    + split.
      * intros prior failed later Heq Hfail. rewrite Hns in Heq.
        destruct (failing_is_last
                    (fun s => success (result s) = true)
                    prior prior' later failed failed' (eq_sym Heq) Hall)
          as (E1 & E2 & E3); [congruence|]. subst.
        split; [reflexivity|]. split; [exact Hall|].
        split; [now apply Hsame|].
        intros reply Hreply. apply return_dumps_returns in Hreply.
        subst reply. repeat split.
      * intros reply Hreply. apply return_dumps_returns in Hreply.
        subst reply. split; [reflexivity | discriminate].
    + split.
      * intros prior failed later Heq Hfail. exfalso.
        rewrite Forall_forall in Hall.
        assert (success (result failed) = true) as Hok.
        { apply Hall. rewrite Heq. apply in_or_app. right. now left. }
        congruence.
      * intros reply Hreply. apply outer_handler_returns in Hreply.
        subst reply. split; [reflexivity | discriminate].
  - intros ra rb. cbv zeta. intros Ha Hoka Hb Hfailb Hdumps.
    unfold execute_python_workflow. cbn [executor run_steps app].
    match goal with
    | |- context [let (_, _) := ?call in _] =>
        change (fst call = Returned ra) in Ha;
        change (fst (execute_task (snd call) ctx "b"
                       (Some [("variables", Py.dict_value (variables ra))])
                       (worlds 1)) = Returned rb) in Hb;
        destruct call as [out1 self1]
    end.
    cbn [fst snd] in Ha, Hb. subst out1.
    cbn iota. rewrite Hoka. cbn [negb run_steps app Py.set].
    match goal with
    | |- context [let (_, _) := ?call in _] =>
        change (fst call = Returned rb) in Hb;
        destruct call as [out2 self2]
    end.
    cbn [fst] in Hb. subst out2. cbn iota. rewrite Hfailb.
    cbn [negb calls recorded response map call_instruction Nat.add].
    split; [reflexivity|]. split; [reflexivity|].
    rewrite return_dumps_cases. cbn [step_failed wf_steps].
    rewrite Hdumps. eexists. split; [reflexivity|]. split; reflexivity.
Qed.

Lemma workflow_stops_at_first_failure_witness :
  let ctx := {| chat_key := "test_chat"; user_id := "test_user";
                platform_type := "test"; bot_id := "test_bot" |} in
  let self := {| workdir := "/data"; timeout := 300%Z;
                 max_memory_mb := 512%Z; _task_managers := [] |} in
  let worlds (i : nat) :=
    {| construct_raises := None; config := [];
       run := match i with
              | O => RunReturns
                       {| Aipy.steps := []; Aipy.cwd_listing := None;
                          Aipy.runtime_globals := Some [("n", Py.VInt 3)] |}
              | S _ => RunRaises {| Py.exc_type_name := "ValueError";
                                    Py.exc_str := "bad input";
                                    Py.exc_is_asyncio_timeout := false |}
              end;
       start_time := 0%Q; end_time := 2%Q |} in
  let ra := {| success := true; output := "Task completed successfully";
               error := None; artifacts := [];
               execution_time := (2 - 0)%Q;
               variables := [("n", Py.VInt 3)] |} in
  let rb := {| success := false; output := ""; error := Some "bad input";
               artifacts := []; execution_time := (2 - 0)%Q;
               variables := [] |} in
  let two_steps :=
    [{| step := 1; instruction := "a"; result := ra |};
     {| step := 2; instruction := "b"; result := rb |}] in
  let R := execute_python_workflow (fun _ => None)
             {| executor := Some self |} ctx
             (Array ["a"; "b"; "c"]) worlds in
  map call_instruction (calls R) = ["a"; "b"]
  /\ recorded R = two_steps
  /\ exists reply,
       response R = ToolReturns reply
       /\ wf_success reply = false
       /\ wf_steps reply = two_steps.
Proof.
  cbv zeta.
  refine (proj2 (workflow_stops_at_first_failure _ _ _ (fun _ => None))
            _ _ _ _ _ _ _); reflexivity.
Defined.

(** Where the serialisation matters: step "a" leaves a list that holds
    a set among its variables, which passes the filter of
    [_execute_in_aipyapp]; both steps succeed, [json.dumps] rejects the
    recorded steps in the [try] and again in the handler, and the
    [TypeError] leaves the tool instead of a dict with
    [success = true]. *)
Lemma unserialisable_steps_raise :
  let ctx := {| chat_key := "test_chat"; user_id := "test_user";
                platform_type := "test"; bot_id := "test_bot" |} in
  let self :=
    {| executor := Some {| workdir := "/data"; timeout := 300%Z;
                           max_memory_mb := 512%Z; _task_managers := [] |} |} in
  let seen := ("seen", Py.VList [Py.VObject "set"]) in
  let worlds (i : nat) :=
    {| construct_raises := None; config := [];
       run := RunReturns
                {| Aipy.steps := []; Aipy.cwd_listing := None;
                   Aipy.runtime_globals :=
                     match i with
                     | O => Some [seen]
                     | S _ => None
                     end |};
       start_time := 0%Q; end_time := 2%Q |} in
  let e := {| Py.exc_type_name := "TypeError";
              Py.exc_str := "Object of type set is not JSON serializable";
              Py.exc_is_asyncio_timeout := false |} in
  let R := execute_python_workflow (fun _ => Some e) self ctx
             (Array ["a"; "b"]) worlds in
  response R = ToolRaises e
  /\ map call_instruction (calls R) = ["a"; "b"]
  /\ map (fun s => success (result s)) (recorded R) = [true; true]
  /\ map (fun s => variables (result s)) (recorded R) = [[seen]; []].
Proof. cbv zeta. vm_compute. repeat split. Qed.

(** * More on the session pool *)

Section SessionPoolMore.

Import TaskManager.

Lemma get_remove_other {V : Type} (d : Py.Dict V) (k k' : string) :
  k' <> k -> Py.get (Py.remove d k) k' = Py.get d k'.
Proof.
  intros Hne. induction d as [|[k0 v0] d IH]; simpl; [reflexivity|].
  destruct (String.eqb_spec k k0) as [->|Hk]; simpl.
  - destruct (String.eqb_spec k' k0); congruence.
  - now rewrite IH.
Qed.

Lemma get_remove_same {V : Type} (d : Py.Dict V) (k : string) :
  Py.wf d -> Py.get (Py.remove d k) k = None.
Proof.
  intros Hwf. apply get_None_iff. intros Hin.
  apply in_map_iff in Hin as [[k' v] [Hfst Hin]]. simpl in Hfst. subst k'.
  apply (In_remove _ _ _ _ Hwf) in Hin. tauto.
Qed.

Lemma remove_app_fresh {V : Type} (d : Py.Dict V) (k : string) (v : V) :
  Py.get d k = None -> Py.remove (d ++ [(k, v)]) k = d.
Proof.
  induction d as [|[k0 v0] d IH]; simpl.
  - now rewrite String.eqb_refl.
  - destruct (String.eqb k k0); [discriminate|]. intros H. now rewrite IH.
Qed.

Lemma In_keys {V : Type} (d : Py.Dict V) (k : string) (v : V) :
  In (k, v) d -> In k (Py.keys d).
Proof. intros H. change k with (fst (k, v)). now apply in_map. Qed.

Lemma create_session_fresh (self : AipyappTaskManager) (session_id : string)
  (config : option (Py.Dict Py.Value)) (env : CreateEnv) :
  Py.get (_sessions self) session_id = None ->
  let self1 :=
    if (max_sessions self <=? Z.of_nat (length (_sessions self)))%Z
    then _cleanup_oldest_session self else self in
  create_session self session_id config env
  = match mkdir_raises env with
    | Some e => (Py.Raise e, self1)
    | None =>
        (Py.Return tt,
         with_sessions self1
           (_sessions self1
            ++ [(session_id, new_session self session_id config env)]))
    end
  /\ Py.get (_sessions self1) session_id = None.
Proof.
  intros Hfresh. cbv zeta. unfold create_session, Py.contains.
  rewrite Hfresh.
  assert (Py.get
            (_sessions
               (if (max_sessions self <=? Z.of_nat (length (_sessions self)))%Z
                then _cleanup_oldest_session self else self)) session_id
          = None) as Hfresh1.
  { destruct (_ <=? _)%Z; [|assumption]. unfold _cleanup_oldest_session.
    destruct (oldest_id (_sessions self)); [|assumption].
    rewrite cleanup_session_sessions. cbn [with_sessions _sessions].
    now apply get_remove_None. }
  split; [|exact Hfresh1].
  destruct (mkdir_raises env); [reflexivity|].
  unfold new_session. now rewrite set_fresh by assumption.
Qed.

(** X1: a [create_session] with a fresh key whose directory is created
    returns normally and files the session, last in the pool's order,
    with the config given (or an empty one), no task manager, the two
    clock readings and a task count of 0; [get_session] then finds it. *)
Theorem create_session_registers :
  forall (self : AipyappTaskManager) (session_id : string)
         (config : option (Py.Dict Py.Value)) (env : CreateEnv) (now : Q),
    ~ In session_id (Py.keys (_sessions self)) ->
    mkdir_raises env = None ->
    let self' := snd (create_session self session_id config env) in
    let session :=
      {| workdir := Py.path_join (self_workdir self) session_id;
         config := match config with Some c => c | None => [] end;
         task_manager := None;
         created_at := clock_created_at env;
         last_accessed := clock_last_accessed env;
         task_count := 0%Z |} in
    fst (create_session self session_id config env) = Py.Return tt
    /\ Py.get (_sessions self') session_id = Some session
    /\ (exists older, _sessions self' = older ++ [(session_id, session)])
    /\ fst (get_session self' session_id now) = Some (touch session now).
Proof.
  intros self session_id config env now Hfresh Hmk. cbv zeta.
  apply get_None_iff in Hfresh.
  destruct (create_session_fresh self session_id config env Hfresh)
    as [Heq Hfresh1].
  rewrite Heq, Hmk. cbn [fst snd with_sessions _sessions].
  set (d1 := _sessions (if (_ <=? _)%Z then _ else _)) in *.
  assert (Py.get (d1 ++ [(session_id, new_session self session_id config env)])
            session_id
          = Some (new_session self session_id config env)) as Hget.
  { rewrite <- set_fresh by assumption. apply get_set_same. }
  unfold new_session, get_or in *.
  split; [reflexivity|]. split; [exact Hget|].
  split; [now exists d1|].
  unfold get_session. cbn [_sessions with_sessions]. now rewrite Hget.
Qed.

Lemma create_session_registers_witness :
  let self := create_sessions (init "/pool" 1%Z 3600%Z) [create_at "s0" 0%Q] in
  let env := {| mkdir_raises := None; clock_created_at := 5%Q;
                clock_last_accessed := 6%Q |} in
  let session :=
    {| workdir := "/pool/s1"; config := [("timeout", Py.VInt 600)];
       task_manager := None; created_at := 5%Q; last_accessed := 6%Q;
       task_count := 0%Z |} in
  let self' :=
    snd (create_session self "s1" (Some [("timeout", Py.VInt 600)]) env) in
  fst (create_session self "s1" (Some [("timeout", Py.VInt 600)]) env)
  = Py.Return tt
  /\ Py.get (_sessions self') "s1" = Some session
  /\ (exists older, _sessions self' = older ++ [("s1", session)])
  /\ fst (get_session self' "s1" 9%Q) = Some (touch session 9%Q).
Proof.
  cbv zeta.
  apply (create_session_registers
           (create_sessions (init "/pool" 1%Z 3600%Z) [create_at "s0" 0%Q])
           "s1" (Some [("timeout", Py.VInt 600)])
           {| mkdir_raises := None; clock_created_at := 5%Q;
              clock_last_accessed := 6%Q |} 9%Q).
  - simpl. intuition discriminate.
  - reflexivity.
Defined.

(** X2: when creating the directory raises, [create_session] raises
    that exception and does not file the session; an eviction made for
    it is not undone: on a non-empty pool at capacity the pool has lost
    one record, below capacity it is unchanged. *)
Theorem create_session_mkdir_failure :
  forall (self : AipyappTaskManager) (session_id : string)
         (config : option (Py.Dict Py.Value)) (env : CreateEnv)
         (e : Py.Exception),
    ~ In session_id (Py.keys (_sessions self)) ->
    mkdir_raises env = Some e ->
    let self' := snd (create_session self session_id config env) in
    fst (create_session self session_id config env) = Py.Raise e
    /\ ~ In session_id (Py.keys (_sessions self'))
    /\ ((max_sessions self <= Z.of_nat (length (_sessions self)))%Z ->
        _sessions self <> [] ->
        S (length (_sessions self')) = length (_sessions self))
    /\ ((Z.of_nat (length (_sessions self)) < max_sessions self)%Z ->
        self' = self).
Proof.
  intros self session_id config env e Hfresh Hmk. cbv zeta.
  apply get_None_iff in Hfresh.
  destruct (create_session_fresh self session_id config env Hfresh)
    as [Heq Hfresh1].
  rewrite Heq, Hmk. cbn [fst snd].
  split; [reflexivity|]. split; [now apply get_None_iff|]. split.
  - intros Hcap Hne. apply Z.leb_le in Hcap. rewrite Hcap.
    unfold _cleanup_oldest_session.
    destruct (oldest_id (_sessions self)) as [victim_id|] eqn:Hold.
    2:{ destruct (_sessions self); [congruence | discriminate]. }
    destruct (oldest_id_minimal _ _ Hold) as [victim [Hin _]].
    rewrite cleanup_session_sessions. cbn [with_sessions _sessions].
    apply length_remove_present. intros Hnone.
    apply get_None_iff in Hnone. apply Hnone. now apply In_keys with victim.
  - intros Hroom. apply Z.leb_gt in Hroom. now rewrite Hroom.
Qed.

Lemma create_session_mkdir_failure_witness :
  let self :=
    create_sessions (init "/pool" 2%Z 3600%Z)
      [create_at "s0" 0%Q; create_at "s1" 1%Q] in
  let denied := {| Py.exc_type_name := "PermissionError";
                   Py.exc_str := "Permission denied";
                   Py.exc_is_asyncio_timeout := false |} in
  let env := {| mkdir_raises := Some denied; clock_created_at := 2%Q;
                clock_last_accessed := 2%Q |} in
  fst (create_session self "s2" None env) = Py.Raise denied
  /\ Py.keys (_sessions (snd (create_session self "s2" None env))) = ["s1"].
Proof.
  cbv zeta. split; [|reflexivity].
  apply (create_session_mkdir_failure
           (create_sessions (init "/pool" 2%Z 3600%Z)
              [create_at "s0" 0%Q; create_at "s1" 1%Q])
           "s2" None
           {| mkdir_raises :=
                Some {| Py.exc_type_name := "PermissionError";
                        Py.exc_str := "Permission denied";
                        Py.exc_is_asyncio_timeout := false |};
              clock_created_at := 2%Q; clock_last_accessed := 2%Q |}).
  - simpl. intuition discriminate.
  - reflexivity.
Defined.

(** X3: [cleanup_session] returns whether the key was in the pool;
    afterwards the key is absent, every other key is bound as before,
    and the pool has one record less exactly when [True] is returned. *)
Theorem cleanup_session_removes_one :
  forall (self : AipyappTaskManager) (session_id : string),
    Py.wf (_sessions self) ->
    let self' := snd (cleanup_session self session_id) in
    fst (cleanup_session self session_id)
    = Py.contains (_sessions self) session_id
    /\ Py.get (_sessions self') session_id = None
    /\ (forall other, other <> session_id ->
          Py.get (_sessions self') other = Py.get (_sessions self) other)
    /\ length (_sessions self)
       = (length (_sessions self')
          + if fst (cleanup_session self session_id) then 1 else 0)%nat
    /\ max_sessions self' = max_sessions self
    /\ session_timeout self' = session_timeout self.
Proof.
  intros self session_id Hwf. cbv zeta.
  rewrite cleanup_session_sessions. cbn [with_sessions _sessions
    max_sessions session_timeout].
  split.
  { unfold cleanup_session, Py.contains.
    now destruct (Py.get (_sessions self) session_id). }
  split; [now apply get_remove_same|].
  split; [intros other Hne; now apply get_remove_other|].
  split; [|split; reflexivity].
  unfold cleanup_session.
  destruct (Py.get (_sessions self) session_id) eqn:Hget; cbn [fst].
  - rewrite <- (length_remove_present (_sessions self) session_id) by congruence.
    lia.
  - rewrite remove_absent by assumption. lia.
Qed.

Lemma cleanup_session_removes_one_witness :
  let self :=
    create_sessions (init "/pool" 5%Z 3600%Z)
      [create_at "s0" 0%Q; create_at "s1" 1%Q] in
  fst (cleanup_session self "s0") = true
  /\ Py.get (_sessions (snd (cleanup_session self "s0"))) "s0" = None
  /\ fst (cleanup_session self "nonexistent") = false.
Proof.
  cbv zeta.
  destruct (cleanup_session_removes_one
              (create_sessions (init "/pool" 5%Z 3600%Z)
                 [create_at "s0" 0%Q; create_at "s1" 1%Q]) "s0")
    as (H1 & H2 & _).
  - unfold Py.wf. simpl. repeat constructor; simpl; intuition discriminate.
  - split; [exact H1|]. split; [exact H2 | reflexivity].
Defined.

(** X4: below capacity, creating a fresh session and cleaning it up
    again gives back the pool as it was: [cleanup_session] returns
    [True] and nothing else has changed. *)
Theorem create_then_cleanup_restores :
  forall (self : AipyappTaskManager) (session_id : string)
         (config : option (Py.Dict Py.Value)) (env : CreateEnv),
    ~ In session_id (Py.keys (_sessions self)) ->
    (Z.of_nat (length (_sessions self)) < max_sessions self)%Z ->
    mkdir_raises env = None ->
    cleanup_session (snd (create_session self session_id config env))
      session_id
    = (true, self).
Proof.
  intros self session_id config env Hfresh Hroom Hmk.
  apply get_None_iff in Hfresh.
  destruct (create_session_fresh self session_id config env Hfresh)
    as [Heq _].
  rewrite Heq, Hmk. apply Z.leb_gt in Hroom. rewrite Hroom. cbn [snd].
  unfold cleanup_session. cbn [with_sessions _sessions].
  rewrite <- set_fresh by assumption. rewrite get_set_same.
  rewrite set_fresh by assumption. rewrite remove_app_fresh by assumption.
  now destruct self.
Qed.

Lemma create_then_cleanup_restores_witness :
  let self := create_sessions (init "/pool" 5%Z 3600%Z) [create_at "s0" 0%Q] in
  cleanup_session (snd (create_session self "s1" None
                          (call_env (create_at "s1" 1%Q)))) "s1"
  = (true, self).
Proof.
  cbv zeta.
  apply (create_then_cleanup_restores
           (create_sessions (init "/pool" 5%Z 3600%Z) [create_at "s0" 0%Q])
           "s1" None (call_env (create_at "s1" 1%Q))).
  - simpl. intuition discriminate.
  - simpl. lia.
  - reflexivity.
Defined.

(** Every operation keeps the configuration, and a pool that is a dict
    stays one. *)
Lemma apply_op_config (self : AipyappTaskManager) (op : Op) :
  max_sessions (apply_op self op) = max_sessions self
  /\ session_timeout (apply_op self op) = session_timeout self
  /\ self_workdir (apply_op self op) = self_workdir self.
Proof.
  destruct op as [c|sid now|sid|now]; cbn [apply_op].
  - unfold create_session.
    destruct (Py.contains _ _); [now repeat split|].
    assert (forall m, max_sessions (_cleanup_oldest_session m) = max_sessions m
                      /\ session_timeout (_cleanup_oldest_session m)
                         = session_timeout m
                      /\ self_workdir (_cleanup_oldest_session m)
                         = self_workdir m) as Hold.
    { intros m. unfold _cleanup_oldest_session.
      destruct (oldest_id (_sessions m)); [|now repeat split].
      rewrite cleanup_session_sessions. now repeat split. }
    destruct (_ <=? _)%Z; destruct (mkdir_raises (call_env c)); cbn;
      try apply Hold; now repeat split.
  - unfold get_session. destruct (Py.get _ _); now repeat split.
  - rewrite cleanup_session_sessions. now repeat split.
  - unfold cleanup_idle_sessions. cbn [snd].
    generalize (idle_sessions self now). intros ids. revert self.
    induction ids as [|i ids IH]; intros self; simpl; [now repeat split|].
    destruct (IH (snd (cleanup_session self i))) as (H1 & H2 & H3).
    rewrite H1, H2, H3. rewrite cleanup_session_sessions. now repeat split.
Qed.

Lemma apply_op_wf (self : AipyappTaskManager) (op : Op) :
  Py.wf (_sessions self) -> Py.wf (_sessions (apply_op self op)).
Proof.
  intros Hwf. destruct op as [c|sid now|sid|now]; cbn [apply_op].
  - unfold create_session. destruct (Py.contains _ _); [assumption|].
    assert (Py.wf (_sessions
                     (if (max_sessions self
                          <=? Z.of_nat (length (_sessions self)))%Z
                      then _cleanup_oldest_session self else self))) as Hwf1.
    { destruct (_ <=? _)%Z; [|assumption]. unfold _cleanup_oldest_session.
      destruct (oldest_id (_sessions self)); [|assumption].
      rewrite cleanup_session_sessions. now apply wf_remove. }
    destruct (mkdir_raises (call_env c)); cbn [snd]; [assumption|].
    cbn [with_sessions _sessions]. now apply wf_set.
  - unfold get_session. destruct (Py.get _ _); [|assumption].
    cbn [snd with_sessions _sessions]. now apply wf_set.
  - rewrite cleanup_session_sessions. now apply wf_remove.
  - rewrite cleanup_idle_sessions_filter by assumption. now apply wf_filter.
Qed.

Lemma apply_op_bound (self : AipyappTaskManager) (op : Op) :
  Py.wf (_sessions self) ->
  (1 <= max_sessions self)%Z ->
  (Z.of_nat (length (_sessions self)) <= max_sessions self)%Z ->
  (Z.of_nat (length (_sessions (apply_op self op))) <= max_sessions self)%Z.
Proof.
  intros Hwf Hpos Hlen. destruct op as [c|sid now|sid|now]; cbn [apply_op].
  - now apply create_session_bound.
  - unfold get_session. destruct (Py.get _ _) eqn:Hget; [|assumption].
    cbn [snd with_sessions _sessions].
    assert (length (Py.set (_sessions self) sid (touch s now))
            = length (_sessions self)) as ->; [|assumption].
    rewrite <- (length_map fst (Py.set _ _ _)).
    rewrite <- (length_map fst (_sessions self)).
    f_equal. apply keys_set_present. congruence.
  - rewrite cleanup_session_sessions. cbn [with_sessions _sessions].
    rewrite remove_filter by assumption.
    pose proof (filter_length_le
                  (fun kv : string * Session =>
                     negb (String.eqb sid (fst kv))) (_sessions self)).
    lia.
  - rewrite cleanup_idle_sessions_filter by assumption.
    pose proof (filter_length_le
                  (fun kv : string * Session =>
                     negb (is_idle self now (snd kv))) (_sessions self)).
    lia.
Qed.

(** X5: with [max_sessions >= 1], a pool within capacity stays within
    capacity under every sequence of [create_session], [get_session],
    [cleanup_session] and [cleanup_idle_sessions] calls, whatever the
    clock and the file system do; [get_stats] never reports more active
    sessions than [max_sessions], and the configuration is never
    changed. *)
Theorem pool_operations_keep_capacity :
  forall (ops : list Op) (self : AipyappTaskManager),
    Py.wf (_sessions self) ->
    (1 <= max_sessions self)%Z ->
    (Z.of_nat (length (_sessions self)) <= max_sessions self)%Z ->
    let self' := apply_ops self ops in
    (Z.of_nat (active_sessions (get_stats self'))
     <= stats_max_sessions (get_stats self'))%Z
    /\ max_sessions self' = max_sessions self
    /\ session_timeout self' = session_timeout self
    /\ self_workdir self' = self_workdir self.
Proof.
  induction ops as [|op ops IH]; intros self Hwf Hpos Hlen; cbv zeta.
  - simpl. now repeat split.
  - cbn [apply_ops fold_left]. fold (apply_ops (apply_op self op) ops).
    destruct (apply_op_config self op) as (C1 & C2 & C3).
    destruct (IH (apply_op self op)) as (H1 & H2 & H3 & H4).
    + now apply apply_op_wf.
    + now rewrite C1.
    + rewrite C1. now apply apply_op_bound.
    + split; [exact H1|]. split; [congruence|]. split; congruence.
Qed.

Lemma pool_operations_keep_capacity_witness :
  let ops :=
    [OpCreate (create_at "s0" 0%Q); OpCreate (create_at "s1" 1%Q);
     OpGet "s0" 2%Q; OpCreate (create_at "s2" 3%Q);
     OpCleanupIdle 4000%Q; OpCleanup "s2"] in
  let self' := apply_ops (init "/pool" 2%Z 3600%Z) ops in
  (Z.of_nat (active_sessions (get_stats self'))
   <= stats_max_sessions (get_stats self'))%Z
  /\ max_sessions self' = 2%Z
  /\ session_timeout self' = 3600%Z
  /\ self_workdir self' = "/pool".
Proof.
  cbv zeta.
  apply (pool_operations_keep_capacity
           [OpCreate (create_at "s0" 0%Q); OpCreate (create_at "s1" 1%Q);
            OpGet "s0" 2%Q; OpCreate (create_at "s2" 3%Q);
            OpCleanupIdle 4000%Q; OpCleanup "s2"]
           (init "/pool" 2%Z 3600%Z)).
  - unfold Py.wf. simpl. constructor.
  - simpl. lia.
  - simpl. lia.
Defined.

Lemma Forall_set {V : Type} (P : string * V -> Prop) (d : Py.Dict V)
  (k : string) (v : V) :
  (forall k', P (k', v)) -> Forall P d -> Forall P (Py.set d k v).
Proof.
  intros Hv. induction d as [|[k0 v0] d IH]; simpl; intros H.
  - constructor; [apply Hv | constructor].
  - inversion H; subst. destruct (String.eqb k k0); constructor; auto.
Qed.

Lemma Forall_remove {V : Type} (P : string * V -> Prop) (d : Py.Dict V)
  (k : string) : Forall P d -> Forall P (Py.remove d k).
Proof.
  induction d as [|[k0 v0] d IH]; simpl; intros H; [constructor|].
  inversion H; subst. destruct (String.eqb k k0); [assumption|].
  constructor; auto.
Qed.

Lemma apply_op_task_counts (self : AipyappTaskManager) (op : Op) :
  Forall (fun kv => task_count (snd kv) = 0%Z) (_sessions self) ->
  Forall (fun kv => task_count (snd kv) = 0%Z) (_sessions (apply_op self op)).
Proof.
  intros Hall. destruct op as [c|sid now|sid|now]; cbn [apply_op].
  - unfold create_session. destruct (Py.contains _ _); [assumption|].
    assert (Forall (fun kv => task_count (snd kv) = 0%Z)
              (_sessions
                 (if (max_sessions self
                      <=? Z.of_nat (length (_sessions self)))%Z
                  then _cleanup_oldest_session self else self))) as Hall1.
    { destruct (_ <=? _)%Z; [|assumption]. unfold _cleanup_oldest_session.
      destruct (oldest_id (_sessions self)); [|assumption].
      rewrite cleanup_session_sessions. now apply Forall_remove. }
    destruct (mkdir_raises (call_env c)); cbn [snd]; [assumption|].
    cbn [with_sessions _sessions]. now apply Forall_set.
  - unfold get_session. destruct (Py.get _ _) as [s|] eqn:Hget; [|assumption].
    cbn [snd with_sessions _sessions]. apply Forall_set; [|assumption].
    intros k'. cbn [snd touch task_count]. apply get_In in Hget.
    rewrite Forall_forall in Hall. exact (Hall _ Hget).
  - rewrite cleanup_session_sessions. now apply Forall_remove.
  - unfold cleanup_idle_sessions. cbn [snd].
    generalize (idle_sessions self now). intros ids. revert self Hall.
    induction ids as [|i ids IH]; intros self Hall; simpl; [assumption|].
    apply IH. rewrite cleanup_session_sessions. now apply Forall_remove.
Qed.

Lemma sum_of_zero_counts (d : Py.Dict Session) :
  Forall (fun kv => task_count (snd kv) = 0%Z) d ->
  forall acc, fold_left Z.add (map task_count (Py.values d)) acc = acc.
Proof.
  induction 1 as [|[k s] d Hs Hd IH]; intros acc; simpl; [reflexivity|].
  simpl in Hs. rewrite Hs, IH. lia.
Qed.

Lemma apply_ops_task_counts (ops : list Op) :
  forall self : AipyappTaskManager,
    Forall (fun kv => task_count (snd kv) = 0%Z) (_sessions self) ->
    Forall (fun kv => task_count (snd kv) = 0%Z)
      (_sessions (apply_ops self ops)).
Proof.
  induction ops as [|op ops IH]; intros self H; [assumption|].
  cbn [apply_ops fold_left]. apply IH. now apply apply_op_task_counts.
Qed.

(** X6: no operation of the pool ever counts a task: after any
    sequence of calls on a new manager every record still has
    [task_count = 0], and [get_stats] reports [total_tasks = 0] and the
    number of records as [active_sessions]. *)
Theorem total_tasks_stays_zero :
  forall (workdir : string) (max_sessions session_timeout : Z)
         (ops : list Op),
    let self := apply_ops (init workdir max_sessions session_timeout) ops in
    total_tasks (get_stats self) = 0%Z
    /\ active_sessions (get_stats self) = length (Py.keys (_sessions self))
    /\ forall sid s, Py.get (_sessions self) sid = Some s ->
                     task_count s = 0%Z.
Proof.
  intros workdir max_sessions session_timeout ops. cbv zeta.
  pose proof (apply_ops_task_counts ops
                (init workdir max_sessions session_timeout)
                (Forall_nil _)) as Hall.
  split; [|split].
  - unfold get_stats. cbn [total_tasks]. now apply sum_of_zero_counts.
  - unfold get_stats, Py.keys. cbn [active_sessions].
    now rewrite length_map.
  - intros sid s Hget. apply get_In in Hget.
    rewrite Forall_forall in Hall. exact (Hall _ Hget).
Qed.

(** [min] returns the first of the minimal elements: everything before
    it in the sequence is strictly above it. *)
Lemma min_by_first {A : Type} (f : A -> Q) (rest : list A) :
  forall best,
    exists l1 l2,
      best :: rest = l1 ++ Py.min_by f best rest :: l2
      /\ forall y, In y l1 -> (f (Py.min_by f best rest) < f y)%Q.
Proof.
  induction rest as [|x xs IH]; intros best.
  - exists [], []. split; [reflexivity | intros y []].
  - simpl. destruct (Py.Qltb (f x) (f best)) eqn:E.
    + apply Qltb_lt in E. destruct (IH x) as (l1 & l2 & Heq & Hlt).
      exists (best :: l1), l2. split; [simpl; f_equal; exact Heq|].
      intros y [<-|Hy]; [|now apply Hlt].
      apply Qle_lt_trans with (f x); [|exact E].
      apply min_by_le. now left.
    + apply Qltb_ge in E. destruct (IH best) as (l1 & l2 & Heq & Hlt).
      destruct l1 as [|b l1]; simpl in Heq.
      * injection Heq as Hb Hl2. exists [], (x :: l2).
        split; [simpl; now rewrite <- Hb, <- Hl2 | intros y []].
      * injection Heq as Hb Hxs. subst b.
        exists (best :: x :: l1), l2.
        split; [simpl; do 2 f_equal; exact Hxs|].
        intros y [<-|[<-|Hy]].
        -- apply Hlt. now left.
        -- apply Qlt_le_trans with (f best); [apply Hlt; now left | exact E].
        -- apply Hlt. now right.
Qed.

Lemma remove_middle {V : Type} (l1 l2 : Py.Dict V) (k : string) (v : V) :
  ~ In k (Py.keys l1) -> Py.remove (l1 ++ (k, v) :: l2) k = l1 ++ l2.
Proof.
  induction l1 as [|[k0 v0] l1 IH]; simpl; intros Hnot.
  - now rewrite String.eqb_refl.
  - destruct (String.eqb_spec k k0) as [->|Hne]; [tauto|].
    rewrite IH; tauto.
Qed.

(** X7: the record evicted for a new session is the first, in the
    pool's insertion order, of those with the least [last_accessed]:
    every record before it was accessed strictly later, every record
    after it no earlier; the others keep their order and the new session
    comes last. *)
Theorem eviction_takes_first_oldest :
  forall (self : AipyappTaskManager) (session_id : string)
         (config : option (Py.Dict Py.Value)) (env : CreateEnv),
    Py.wf (_sessions self) ->
    (1 <= max_sessions self)%Z ->
    (max_sessions self <= Z.of_nat (length (_sessions self)))%Z ->
    ~ In session_id (Py.keys (_sessions self)) ->
    mkdir_raises env = None ->
    exists before victim_id victim after,
      _sessions self = before ++ (victim_id, victim) :: after
      /\ (forall k s, In (k, s) before ->
            (last_accessed victim < last_accessed s)%Q)
      /\ (forall k s, In (k, s) after ->
            (last_accessed victim <= last_accessed s)%Q)
      /\ Py.keys (_sessions (snd (create_session self session_id config env)))
         = Py.keys before ++ Py.keys after ++ [session_id].
Proof.
  intros self session_id config env Hwf Hpos Hcap Hfresh Hmk.
  apply get_None_iff in Hfresh.
  destruct (create_session_fresh self session_id config env Hfresh)
    as [Heq _].
  rewrite Heq, Hmk. apply Z.leb_le in Hcap. rewrite Hcap.
  unfold _cleanup_oldest_session, oldest_id.
  destruct (_sessions self) as [|first rest] eqn:Hd.
  { apply Z.leb_le in Hcap. simpl in Hcap. lia. }
  destruct (min_by_first (fun kv => last_accessed (snd kv)) rest first)
    as (l1 & l2 & Hsplit & Hlt).
  set (m := Py.min_by (fun kv => last_accessed (snd kv)) first rest) in *.
  exists l1, (fst m), (snd m), l2. rewrite <- surjective_pairing.
  split; [exact Hsplit|]. split.
  { intros k s Hin. exact (Hlt (k, s) Hin). }
  split.
  { intros k s Hin.
    apply (min_by_le (fun kv => last_accessed (snd kv)) rest first (k, s)).
    rewrite Hsplit. apply in_or_app. right. now right. }
  rewrite cleanup_session_sessions. cbn [snd with_sessions _sessions].
  rewrite Hd, Hsplit. rewrite (surjective_pairing m) at 1.
  rewrite remove_middle.
  - unfold Py.keys. rewrite !map_app. simpl. now rewrite <- app_assoc.
  - unfold Py.wf, Py.keys in Hwf. rewrite Hsplit, map_app in Hwf. simpl in Hwf.
    apply NoDup_remove_2 in Hwf. intros Hin. apply Hwf.
    apply in_or_app. now left.
Qed.

Lemma eviction_takes_first_oldest_witness :
  let self :=
    create_sessions (init "/pool" 3%Z 3600%Z)
      [create_at "s0" 5%Q; create_at "s1" 2%Q; create_at "s2" 2%Q] in
  Py.keys (_sessions (snd (create_session self "s3" None
                             (call_env (create_at "s3" 9%Q)))))
  = ["s0"; "s2"; "s3"]
  /\ exists before victim_id victim after,
       _sessions self = before ++ (victim_id, victim) :: after
       /\ (forall k s, In (k, s) before ->
             (last_accessed victim < last_accessed s)%Q)
       /\ (forall k s, In (k, s) after ->
             (last_accessed victim <= last_accessed s)%Q)
       /\ Py.keys (_sessions (snd (create_session self "s3" None
                                     (call_env (create_at "s3" 9%Q)))))
          = Py.keys before ++ Py.keys after ++ ["s3"].
Proof.
  cbv zeta. split; [reflexivity|].
  apply (eviction_takes_first_oldest
           (create_sessions (init "/pool" 3%Z 3600%Z)
              [create_at "s0" 5%Q; create_at "s1" 2%Q; create_at "s2" 2%Q])
           "s3" None (call_env (create_at "s3" 9%Q))).
  - unfold Py.wf. simpl. repeat constructor; simpl; intuition discriminate.
  - simpl. lia.
  - simpl. lia.
  - simpl. intuition discriminate.
  - reflexivity.
Defined.

(** X8: least recently used: a session read with [get_session] at a
    time later than every other record's [last_accessed] is not the one
    evicted by the next [create_session], as long as the pool holds
    another record. *)
Theorem accessed_session_survives_eviction :
  forall (self : AipyappTaskManager) (session_id fresh other : string)
         (now : Q) (config : option (Py.Dict Py.Value)) (env : CreateEnv),
    Py.wf (_sessions self) ->
    In session_id (Py.keys (_sessions self)) ->
    In other (Py.keys (_sessions self)) ->
    other <> session_id ->
    ~ In fresh (Py.keys (_sessions self)) ->
    (forall k s, In (k, s) (_sessions self) -> k <> session_id ->
                 (last_accessed s < now)%Q) ->
    let touched := snd (get_session self session_id now) in
    In session_id
       (Py.keys (_sessions (snd (create_session touched fresh config env)))).
Proof.
  intros self session_id fresh other now config env Hwf Hin Hother Hne
         Hfresh Hlater. cbv zeta.
  unfold get_session.
  destruct (Py.get (_sessions self) session_id) as [s|] eqn:Hget.
  2:{ apply get_None_iff in Hget. contradiction. }
  cbn [snd].
  set (touched := with_sessions self
                    (Py.set (_sessions self) session_id (touch s now))).
  assert (Py.wf (_sessions touched)) as Hwf1 by now apply wf_set.
  assert (Py.get (_sessions touched) session_id = Some (touch s now)) as Hget1
      by apply get_set_same.
  assert (Py.get (_sessions touched) fresh = None) as Hfresh1.
  { subst touched. cbn [with_sessions _sessions].
    rewrite get_set_other; [now apply get_None_iff|].
    intros ->. contradiction. }
  destruct (create_session_fresh touched fresh config env Hfresh1)
    as [Heq _].
  assert (In session_id
            (Py.keys
               (_sessions
                  (if (max_sessions touched
                       <=? Z.of_nat (length (_sessions touched)))%Z
                   then _cleanup_oldest_session touched else touched))))
    as Hkept.
  { destruct (_ <=? _)%Z; [|now apply In_keys with (touch s now), get_In].
    unfold _cleanup_oldest_session.
    destruct (oldest_id (_sessions touched)) as [victim_id|] eqn:Hold;
      [|now apply In_keys with (touch s now), get_In].
    destruct (oldest_id_minimal _ _ Hold) as [victim [Hv Hmin]].
    rewrite cleanup_session_sessions. cbn [with_sessions _sessions].
    apply In_keys with (touch s now). apply In_remove; [assumption|].
    split; [now apply get_In|]. intros <-.
    assert (victim = touch s now) as ->.
    { apply (In_get _ _ _ Hwf1) in Hv. congruence. }
    apply in_map_iff in Hother as [[k so] [Hk Hso]]. simpl in Hk. subst k.
    assert (In (other, so) (_sessions touched)) as Hso1.
    { apply get_In. subst touched. cbn [with_sessions _sessions].
      rewrite get_set_other by assumption. now apply In_get. }
    specialize (Hmin _ _ Hso1). cbn [touch last_accessed] in Hmin.
    specialize (Hlater _ _ Hso Hne).
    now apply Qlt_not_le in Hlater. }
  rewrite Heq. destruct (mkdir_raises env); cbn [snd]; [exact Hkept|].
  cbn [with_sessions _sessions]. unfold Py.keys in *. rewrite map_app.
  apply in_or_app. now left.
Qed.

Lemma accessed_session_survives_eviction_witness :
  let self :=
    create_sessions (init "/pool" 2%Z 3600%Z)
      [create_at "s0" 0%Q; create_at "s1" 1%Q] in
  Py.keys
    (_sessions
       (snd (create_session (snd (get_session self "s0" 2%Q)) "s2" None
               (call_env (create_at "s2" 3%Q)))))
  = ["s0"; "s2"]
  /\ In "s0"
        (Py.keys
           (_sessions
              (snd (create_session (snd (get_session self "s0" 2%Q)) "s2"
                      None (call_env (create_at "s2" 3%Q)))))).
Proof.
  cbv zeta. split; [reflexivity|].
  apply (accessed_session_survives_eviction
           (create_sessions (init "/pool" 2%Z 3600%Z)
              [create_at "s0" 0%Q; create_at "s1" 1%Q])
           "s0" "s2" "s1" 2%Q None (call_env (create_at "s2" 3%Q))).
  - unfold Py.wf. simpl. repeat constructor; simpl; intuition discriminate.
  - simpl. now left.
  - simpl. right. now left.
  - discriminate.
  - simpl. intuition discriminate.
  - simpl. intros k s [H|[H|[]]] Hk; injection H as <- <-;
      [congruence | reflexivity].
Defined.

Lemma cleanup_idle_sessions_state (self : AipyappTaskManager) (now : Q) :
  Py.wf (_sessions self) ->
  snd (cleanup_idle_sessions self now)
  = with_sessions self
      (filter (fun kv => negb (is_idle self now (snd kv))) (_sessions self)).
Proof.
  intros Hwf. unfold cleanup_idle_sessions, idle_sessions. cbn [snd].
  rewrite cleanup_fold by assumption. f_equal.
  apply filter_ext_in. intros [k s] Hin. cbn [fst snd]. f_equal.
  now apply (selected_key (_sessions self)
               (fun kv => is_idle self now (snd kv))).
Qed.

(** X9: a second [cleanup_idle_sessions] at the same clock reading finds
    nothing to remove: it returns 0 and leaves the pool as the first
    sweep left it. *)
Theorem cleanup_idle_sessions_idempotent :
  forall (self : AipyappTaskManager) (now : Q),
    Py.wf (_sessions self) ->
    cleanup_idle_sessions (snd (cleanup_idle_sessions self now)) now
    = (0%nat, snd (cleanup_idle_sessions self now)).
Proof.
  intros self now Hwf. rewrite cleanup_idle_sessions_state by assumption.
  set (kept := filter _ _).
  unfold cleanup_idle_sessions, idle_sessions. cbn [with_sessions _sessions].
  assert (filter
            (fun kv => is_idle (with_sessions self kept) now (snd kv)) kept
          = []) as ->; [|reflexivity].
  subst kept. rewrite filter_filter.
  transitivity (filter (fun _ : string * Session => false) (_sessions self));
    [|apply filter_false].
  apply filter_ext.
  intros [k s]. cbn [snd]. unfold is_idle. cbn [with_sessions session_timeout].
  apply andb_negb_l.
Qed.

Lemma cleanup_idle_sessions_idempotent_witness :
  let self :=
    create_sessions (init "/pool" 5%Z 10%Z)
      [create_at "s0" 0%Q; create_at "s1" 95%Q] in
  fst (cleanup_idle_sessions self 100%Q) = 1%nat
  /\ cleanup_idle_sessions (snd (cleanup_idle_sessions self 100%Q)) 100%Q
     = (0%nat, snd (cleanup_idle_sessions self 100%Q)).
Proof.
  cbv zeta. split; [reflexivity|].
  apply (cleanup_idle_sessions_idempotent
           (create_sessions (init "/pool" 5%Z 10%Z)
              [create_at "s0" 0%Q; create_at "s1" 95%Q]) 100%Q).
  unfold Py.wf. simpl. repeat constructor; simpl; intuition discriminate.
Defined.

(** X10: a session read with [get_session] at time [now] outlives
    every idle sweep made no more than [session_timeout] later. *)
Theorem accessed_session_survives_sweep :
  forall (self : AipyappTaskManager) (session_id : string) (now later : Q),
    Py.wf (_sessions self) ->
    In session_id (Py.keys (_sessions self)) ->
    (later - now <= inject_Z (session_timeout self))%Q ->
    let touched := snd (get_session self session_id now) in
    exists s,
      Py.get (_sessions (snd (cleanup_idle_sessions touched later))) session_id
      = Some s
      /\ last_accessed s = now.
Proof.
  intros self session_id now later Hwf Hin Hsoon. cbv zeta.
  unfold get_session.
  destruct (Py.get (_sessions self) session_id) as [s|] eqn:Hget.
  2:{ apply get_None_iff in Hget. contradiction. }
  cbn [snd]. exists (touch s now). split; [|reflexivity].
  set (touched := with_sessions self
                    (Py.set (_sessions self) session_id (touch s now))).
  assert (Py.wf (_sessions touched)) as Hwf1 by now apply wf_set.
  rewrite cleanup_idle_sessions_filter by assumption.
  apply In_get; [now apply wf_filter|]. apply filter_In. split.
  - apply get_In. apply get_set_same.
  - cbn [snd]. apply negb_true_iff. unfold is_idle.
    cbn [touch last_accessed]. apply Qltb_ge. exact Hsoon.
Qed.

Lemma accessed_session_survives_sweep_witness :
  let self :=
    create_sessions (init "/pool" 5%Z 10%Z)
      [create_at "s0" 0%Q; create_at "s1" 1%Q] in
  Py.keys
    (_sessions
       (snd (cleanup_idle_sessions (snd (get_session self "s0" 50%Q)) 60%Q)))
  = ["s0"]
  /\ exists s,
       Py.get
         (_sessions
            (snd (cleanup_idle_sessions (snd (get_session self "s0" 50%Q))
                    60%Q))) "s0"
       = Some s
       /\ last_accessed s = 50%Q.
Proof.
  cbv zeta. split; [reflexivity|].
  apply (accessed_session_survives_sweep
           (create_sessions (init "/pool" 5%Z 10%Z)
              [create_at "s0" 0%Q; create_at "s1" 1%Q]) "s0" 50%Q 60%Q).
  - unfold Py.wf. simpl. repeat constructor; simpl; intuition discriminate.
  - simpl. now left.
  - vm_compute. discriminate.
Defined.

End SessionPoolMore.

(** * More on the sandbox executor *)

Section SandboxExecutorMore.

Import SandboxExecutor.

Lemma execute_task_state (self : AipyappSandboxExecutor) (ctx : AgentCtx)
  (instruction : string) (context : option (Py.Dict Py.Value)) (w : World) :
  snd (execute_task self ctx instruction context w)
  = snd (_get_task_manager self ctx w).
Proof.
  unfold execute_task.
  destruct (_get_task_manager self ctx w) as [[tm|e] self1]; [|reflexivity].
  now destruct (_execute_in_aipyapp _ _ _ _).
Qed.

Lemma with_task_managers_same (self : AipyappSandboxExecutor) :
  with_task_managers self (_task_managers self) = self.
Proof. now destruct self. Qed.

(** X11: the [TaskManager] of a session is built at most once: after a
    call of [execute_task] that resolved it, every later call for the
    same context finds the same object, whatever building one would do
    then, and leaves the executor as it is; no call removes or replaces
    the [TaskManager] of any session. *)
Theorem task_manager_is_built_once :
  forall (self : AipyappSandboxExecutor) (ctx : AgentCtx)
         (instruction1 instruction2 : string)
         (context1 context2 : option (Py.Dict Py.Value)) (w1 w2 : World)
         (tm : Aipy.TaskManager),
    fst (_get_task_manager self ctx w1) = Py.Return tm ->
    let self1 := snd (execute_task self ctx instruction1 context1 w1) in
    fst (_get_task_manager self1 ctx w2) = Py.Return tm
    /\ snd (execute_task self1 ctx instruction2 context2 w2) = self1
    /\ (forall key tm',
          Py.get (_task_managers self) key = Some tm' ->
          Py.get (_task_managers self1) key = Some tm').
Proof.
  intros self ctx instruction1 instruction2 context1 context2 w1 w2 tm Htm.
  cbv zeta. rewrite !execute_task_state.
  unfold _get_task_manager in Htm |- *.
  destruct (Py.get (_task_managers self) (session_id ctx)) as [tm0|] eqn:Hget.
  - cbn [fst snd] in *. injection Htm as ->. rewrite Hget. cbn [fst snd].
    repeat split; auto.
  - destruct (construct_raises w1) as [e|]; [discriminate|].
    cbn [fst snd] in *. injection Htm as <-.
    cbn [with_task_managers _task_managers]. rewrite get_set_same.
    cbn [fst snd]. repeat split.
    intros key tm' Hkey. rewrite get_set_other; [assumption|].
    intros ->. congruence.
Qed.

Lemma task_manager_is_built_once_witness :
  let ctx := {| chat_key := "chat1"; user_id := "user1";
                platform_type := "test"; bot_id := "bot1" |} in
  let self := {| workdir := "/data"; timeout := 300%Z;
                 max_memory_mb := 512%Z; _task_managers := [] |} in
  let ok := {| construct_raises := None; config := [];
               run := RunReturns {| Aipy.steps := [];
                                    Aipy.cwd_listing := None;
                                    Aipy.runtime_globals := None |};
               start_time := 0%Q; end_time := 1%Q |} in
  let broken :=
    {| construct_raises :=
         Some {| Py.exc_type_name := "OSError"; Py.exc_str := "disk full";
                 Py.exc_is_asyncio_timeout := false |};
       config := []; run := DeadlineElapsed;
       start_time := 0%Q; end_time := 1%Q |} in
  let self1 := snd (execute_task self ctx "Task 1" None ok) in
  let tm := {| Aipy.cwd := "/data/chat1_user1"; Aipy.settings := [] |} in
  fst (_get_task_manager self1 ctx broken) = Py.Return tm
  /\ snd (execute_task self1 ctx "Task 2" None broken) = self1
  /\ (forall key tm',
        Py.get (_task_managers self) key = Some tm' ->
        Py.get (_task_managers self1) key = Some tm').
Proof.
  cbv zeta.
  refine (task_manager_is_built_once _ _ _ _ _ _ _ _ _ _); reflexivity.
Defined.

(** X12: for a session the executor does not hold, [execute_task]
    followed by [cleanup_session] gives back the executor as it was,
    whether the [TaskManager] could be built or not. *)
Theorem execute_then_cleanup_restores :
  forall (self : AipyappSandboxExecutor) (ctx : AgentCtx)
         (instruction : string) (context : option (Py.Dict Py.Value))
         (w : World),
    ~ In (session_id ctx) (Py.keys (_task_managers self)) ->
    cleanup_session (snd (execute_task self ctx instruction context w)) ctx
    = self.
Proof.
  intros self ctx instruction context w Hfresh.
  apply get_None_iff in Hfresh. rewrite execute_task_state.
  unfold _get_task_manager. rewrite Hfresh.
  destruct (construct_raises w); cbn [snd]; unfold cleanup_session,
    Py.contains.
  - now rewrite Hfresh.
  - cbn [with_task_managers _task_managers]. rewrite get_set_same.
    rewrite set_fresh by assumption.
    rewrite remove_app_fresh by assumption. now destruct self.
Qed.

Lemma execute_then_cleanup_restores_witness :
  let ctx := {| chat_key := "test_chat"; user_id := "test_user";
                platform_type := "test"; bot_id := "test_bot" |} in
  let self := {| workdir := "/data"; timeout := 300%Z;
                 max_memory_mb := 512%Z; _task_managers := [] |} in
  let w := {| construct_raises := None; config := [];
              run := RunReturns {| Aipy.steps := [];
                                   Aipy.cwd_listing := None;
                                   Aipy.runtime_globals := None |};
              start_time := 0%Q; end_time := 1%Q |} in
  Py.keys (_task_managers (snd (execute_task self ctx "Test task" None w)))
  = ["test_chat_test_user"]
  /\ cleanup_session (snd (execute_task self ctx "Test task" None w)) ctx
     = self.
Proof.
  cbv zeta. split; [reflexivity|].
  refine (execute_then_cleanup_restores _ _ _ _ _ _). simpl. tauto.
Defined.

(** X13: every [TaskResult] [execute_task] returns is of one of two
    shapes: [success] with no error, or failure with an error message
    and with empty output, artifacts and variables; its
    [execution_time] is the difference of the two clock readings. *)
Theorem returned_result_shape :
  forall (self : AipyappSandboxExecutor) (ctx : AgentCtx)
         (instruction : string) (context : option (Py.Dict Py.Value))
         (w : World) (r : TaskResult),
    fst (execute_task self ctx instruction context w) = Returned r ->
    (success r = true <-> error r = None)
    /\ (success r = false ->
        output r = "" /\ artifacts r = [] /\ variables r = []
        /\ exists e, run w = RunRaises e /\ error r = Some (Py.exc_str e))
    /\ execution_time r = (end_time w - start_time w)%Q.
Proof.
  intros self ctx instruction context w r Hret.
  destruct (fst (_get_task_manager self ctx w)) as [tm|e] eqn:Htm.
  - rewrite (execute_task_resolved _ _ _ _ _ tm Htm) in Hret.
    destruct (run w) as [task|e|]; [| |discriminate];
      injection Hret as <-; cbn [success error output artifacts variables
                                  execution_time].
    + split; [split; reflexivity|]. split; [discriminate | reflexivity].
    + split; [split; discriminate|]. split; [|reflexivity].
      intros _. do 3 (split; [reflexivity|]). now exists e.
  - now rewrite (execute_task_unresolved _ _ _ _ _ e Htm) in Hret.
Qed.

Lemma returned_result_shape_witness :
  let ctx := {| chat_key := "test_chat"; user_id := "test_user";
                platform_type := "test"; bot_id := "test_bot" |} in
  let self := {| workdir := "/data"; timeout := 300%Z;
                 max_memory_mb := 512%Z; _task_managers := [] |} in
  let w := {| construct_raises := None; config := [];
              run := RunRaises {| Py.exc_type_name := "ValueError";
                                  Py.exc_str := "bad input";
                                  Py.exc_is_asyncio_timeout := false |};
              start_time := 1%Q; end_time := 3%Q |} in
  let r := {| success := false; output := ""; error := Some "bad input";
              artifacts := []; execution_time := (3 - 1)%Q;
              variables := [] |} in
  (success r = true <-> error r = None)
  /\ (success r = false ->
      output r = "" /\ artifacts r = [] /\ variables r = []
      /\ exists e, run w = RunRaises e /\ error r = Some (Py.exc_str e))
  /\ execution_time r = (end_time w - start_time w)%Q.
Proof.
  cbv zeta.
  refine (returned_result_shape
            {| workdir := "/data"; timeout := 300%Z;
               max_memory_mb := 512%Z; _task_managers := [] |}
            {| chat_key := "test_chat"; user_id := "test_user";
               platform_type := "test"; bot_id := "test_bot" |}
            "x" None _ _ _).
  reflexivity.
Defined.

(** X14: the artifacts of a run that completes are exactly the relative
    paths of the entries under the task's directory that are files with
    one of the suffixes .png, .jpg, .csv, .json, .txt, in the order of
    the listing; there are none when the directory does not exist. *)
Theorem artifacts_are_allowed_files :
  forall (self : AipyappSandboxExecutor) (ctx : AgentCtx)
         (instruction : string) (context : option (Py.Dict Py.Value))
         (w : World) (task : Aipy.Task) (r : TaskResult),
    run w = RunReturns task ->
    fst (execute_task self ctx instruction context w) = Returned r ->
    (forall path,
        In path (artifacts r)
        <-> exists listing entry,
              Aipy.cwd_listing task = Some listing
              /\ In entry listing
              /\ Aipy.is_file entry = true
              /\ In (Aipy.suffix entry)
                    [".png"; ".jpg"; ".csv"; ".json"; ".txt"]
              /\ Aipy.relative_path entry = path)
    /\ (Aipy.cwd_listing task = None -> artifacts r = [])
    /\ (length (artifacts r)
        <= match Aipy.cwd_listing task with
           | Some listing => length listing
           | None => 0
           end)%nat.
Proof.
  intros self ctx instruction context w task r Hrun Hret.
  assert (artifacts r = collect_artifacts task) as ->.
  { destruct (fst (_get_task_manager self ctx w)) as [tm|e] eqn:Htm.
    - rewrite (execute_task_resolved _ _ _ _ _ tm Htm), Hrun in Hret.
      now injection Hret as <-.
    - now rewrite (execute_task_unresolved _ _ _ _ _ e Htm) in Hret. }
  unfold collect_artifacts.
  assert (forall entry,
             is_artifact entry = true
             <-> Aipy.is_file entry = true
                 /\ In (Aipy.suffix entry)
                       [".png"; ".jpg"; ".csv"; ".json"; ".txt"]) as Hart.
  { intros entry. unfold is_artifact. rewrite andb_true_iff.
    rewrite existsb_exists. unfold artifact_suffixes. split.
    - intros [Hf [x [Hin Heq]]]. apply String.eqb_eq in Heq. now subst.
    - intros [Hf Hin]. split; [assumption|].
      exists (Aipy.suffix entry). split; [assumption | apply String.eqb_refl]. }
  destruct (Aipy.cwd_listing task) as [listing|]; split; [|split| |split].
  - intros path. rewrite in_map_iff. split.
    + intros [entry [Hp Hin]]. apply filter_In in Hin as [Hin Hok].
      apply Hart in Hok as [Hf Hs]. now exists listing, entry.
    + intros (l & entry & [= <-] & Hin & Hf & Hs & Hp).
      exists entry. split; [assumption|]. apply filter_In.
      split; [assumption|]. now apply Hart.
  - discriminate.
  - rewrite length_map. apply filter_length_le.
  - intros path. split; [intros [] | intros (l & entry & H & _); discriminate].
  - reflexivity.
  - simpl. lia.
Qed.

Lemma artifacts_are_allowed_files_witness :
  let ctx := {| chat_key := "test_chat"; user_id := "test_user";
                platform_type := "test"; bot_id := "test_bot" |} in
  let self := {| workdir := "/data"; timeout := 300%Z;
                 max_memory_mb := 512%Z; _task_managers := [] |} in
  let listing :=
    [{| Aipy.relative_path := "out"; Aipy.is_file := false;
        Aipy.suffix := "" |};
     {| Aipy.relative_path := "out/plot.png"; Aipy.is_file := true;
        Aipy.suffix := ".png" |};
     {| Aipy.relative_path := "run.py"; Aipy.is_file := true;
        Aipy.suffix := ".py" |};
     {| Aipy.relative_path := "data.csv"; Aipy.is_file := true;
        Aipy.suffix := ".csv" |}] in
  let task := {| Aipy.steps := []; Aipy.cwd_listing := Some listing;
                 Aipy.runtime_globals := None |} in
  let w := {| construct_raises := None; config := [];
              run := RunReturns task; start_time := 0%Q; end_time := 1%Q |} in
  let r := {| success := true; output := "Task completed successfully";
              error := None; artifacts := ["out/plot.png"; "data.csv"];
              execution_time := (1 - 0)%Q; variables := [] |} in
  fst (execute_task self ctx "plot" None w) = Returned r
  /\ (Aipy.cwd_listing task = None -> artifacts r = []).
Proof.
  cbv zeta. split; [reflexivity|].
  refine (proj1 (proj2
            (artifacts_are_allowed_files
               {| workdir := "/data"; timeout := 300%Z;
                  max_memory_mb := 512%Z; _task_managers := [] |}
               {| chat_key := "test_chat"; user_id := "test_user";
                  platform_type := "test"; bot_id := "test_bot" |}
               "plot" None
               {| construct_raises := None; config := [];
                  run := RunReturns _; start_time := 0%Q;
                  end_time := 1%Q |}
               _ _ eq_refl eq_refl))).
Defined.

(** X15: [execute_task] reads nothing of a context that
    [aipyapp_ctx.update] accepts, and nothing of the memory limit: the
    merged context is built and dropped, and [max_memory_mb] is only
    stored.  Calls that differ in the entries of such a context or in
    the limit alone return the same outcome and register the same task
    managers.  A truthy context that [update] rejects is not without
    effect: the call then never returns a result, it raises
    [AipyappExecutionError], also where the same call without a context
    returns one; the executor is left as by any other call, and the
    memory limit has no effect there either. *)
Theorem context_and_memory_limit_are_unused :
  forall (self : AipyappSandboxExecutor) (ctx : AgentCtx)
         (instruction : string) (context1 context2 : option (Py.Dict Py.Value))
         (w : World) (limit : Z) (e : Py.Exception),
    let other :=
      {| workdir := workdir self; timeout := timeout self;
         max_memory_mb := limit; _task_managers := _task_managers self |} in
    execute_task self ctx instruction context1 w
    = execute_task self ctx instruction context2 w
    /\ fst (execute_task other ctx instruction context1 w)
       = fst (execute_task self ctx instruction context1 w)
    /\ _task_managers (snd (execute_task other ctx instruction context1 w))
       = _task_managers (snd (execute_task self ctx instruction context1 w))
    /\ (forall r, fst (execute_task_unmergeable self ctx e w) <> Returned r)
    /\ (exists error, fst (execute_task_unmergeable self ctx e w) = Raised error)
    /\ snd (execute_task_unmergeable self ctx e w)
       = snd (execute_task self ctx instruction context1 w)
    /\ fst (execute_task_unmergeable other ctx e w)
       = fst (execute_task_unmergeable self ctx e w)
    /\ _task_managers (snd (execute_task_unmergeable other ctx e w))
       = _task_managers (snd (execute_task_unmergeable self ctx e w)).
Proof.
  intros self ctx instruction context1 context2 w limit e. cbv zeta.
  unfold execute_task_unmergeable, execute_task, _get_task_manager,
    on_exception, timeout_message.
  cbn [_task_managers workdir timeout].
  destruct (Py.get (_task_managers self) (session_id ctx)) as [tm|].
  - unfold _execute_in_aipyapp.
    do 3 (split; [destruct (run w); reflexivity|]).
    split; [discriminate|]. split; [now eexists|].
    split; [destruct (run w); reflexivity|]. split; reflexivity.
  - destruct (construct_raises w) as [e'|].
    + do 3 (split; [reflexivity|]).
      split; [discriminate|]. split; [now eexists|].
      split; [reflexivity|]. split; reflexivity.
    + unfold _execute_in_aipyapp.
      do 3 (split; [destruct (run w); reflexivity|]).
      split; [discriminate|]. split; [now eexists|].
      split; [destruct (run w); reflexivity|]. split; reflexivity.
Qed.

(** Where the context matters: on a fresh executor whose run completes,
    the call without a context returns a result and the call with a
    context that [update] rejects raises. *)
Lemma unmergeable_context_raises :
  let ctx := {| chat_key := "test_chat"; user_id := "test_user";
                platform_type := "test"; bot_id := "test_bot" |} in
  let self := {| workdir := "/data"; timeout := 300%Z;
                 max_memory_mb := 512%Z; _task_managers := [] |} in
  let w := {| construct_raises := None; config := [];
              run := RunReturns {| Aipy.steps := []; Aipy.cwd_listing := None;
                                   Aipy.runtime_globals := None |};
              start_time := 0%Q; end_time := 2%Q |} in
  let e := {| Py.exc_type_name := "TypeError";
              Py.exc_str := "'int' object is not iterable";
              Py.exc_is_asyncio_timeout := false |} in
  fst (execute_task self ctx "x" None w)
  = Returned {| success := true; output := "Task completed successfully";
                error := None; artifacts := [];
                execution_time := (2 - 0)%Q; variables := [] |}
  /\ fst (execute_task_unmergeable self ctx e w)
     = Raised {| err_message := "'int' object is not iterable";
                 err_cause := Some e |}.
Proof. cbv zeta. split; reflexivity. Qed.

Lemma string_append_assoc (a b c : string) :
  ((a +:+ b) +:+ c = a +:+ b +:+ c)%string.
Proof. induction a as [|x a IH]; simpl; [reflexivity | now rewrite IH]. Qed.

Lemma string_length_append (a b : string) :
  String.length (a +:+ b) = String.length a + String.length b.
Proof. induction a as [|x a IH]; simpl; [reflexivity | now rewrite IH]. Qed.

(** A string with no underscore before its first separator is split at
    that separator in one way only. *)
Lemma split_at_underscore (a : string) :
  forall a' b b' : string,
    ~ In "_"%char (list_ascii_of_string a) ->
    ~ In "_"%char (list_ascii_of_string a') ->
    (a +:+ "_" +:+ b = a' +:+ "_" +:+ b')%string ->
    a = a' /\ b = b'.
Proof.
  induction a as [|x a IH]; intros [|x' a'] b b' Ha Ha' Heq; simpl in *.
  - injection Heq as ->. auto.
  - injection Heq as <- _. tauto.
  - injection Heq as -> _. tauto.
  - injection Heq as <- Heq. destruct (IH a' b b') as [-> ->]; tauto.
Qed.

(** X16: two contexts whose chat keys hold no underscore get the same
    key in the executor (and the same [session_id] from the bridge)
    only if they agree on chat key and user id. *)
Theorem session_id_separates_plain_chat_keys :
  forall ctx1 ctx2 : AgentCtx,
    ~ In "_"%char (list_ascii_of_string (chat_key ctx1)) ->
    ~ In "_"%char (list_ascii_of_string (chat_key ctx2)) ->
    session_id ctx1 = session_id ctx2
    \/ Py.get (create_aipyapp_context ctx1) "session_id"
       = Py.get (create_aipyapp_context ctx2) "session_id" ->
    chat_key ctx1 = chat_key ctx2 /\ user_id ctx1 = user_id ctx2.
Proof.
  intros ctx1 ctx2 H1 H2 [Heq|Heq].
  - now apply split_at_underscore.
  - simpl in Heq. injection Heq as Heq. now apply split_at_underscore.
Qed.

Lemma session_id_separates_plain_chat_keys_witness :
  let ctx1 := {| chat_key := "chat1"; user_id := "user_1";
                 platform_type := "qq"; bot_id := "bot1" |} in
  let ctx2 := {| chat_key := "chat1"; user_id := "user_1";
                 platform_type := "discord"; bot_id := "bot2" |} in
  chat_key ctx1 = chat_key ctx2 /\ user_id ctx1 = user_id ctx2.
Proof.
  cbv zeta.
  apply (session_id_separates_plain_chat_keys
           {| chat_key := "chat1"; user_id := "user_1";
              platform_type := "qq"; bot_id := "bot1" |}
           {| chat_key := "chat1"; user_id := "user_1";
              platform_type := "discord"; bot_id := "bot2" |}).
  - simpl. intuition discriminate.
  - simpl. intuition discriminate.
  - left. reflexivity.
Defined.

(** X17: chat keys with an underscore can collide: the conversation
    with chat key [a_b] and user [c] and the conversation with chat key
    [a] and user [b_c] are different, get the same key, and the second
    is served by the [TaskManager], and so the working directory, that
    was built for the first. *)
Theorem session_ids_collide_on_underscores :
  forall (a b c platform1 platform2 bot1 bot2 : string)
         (self : AipyappSandboxExecutor) (instruction : string)
         (context : option (Py.Dict Py.Value)) (w1 w2 : World)
         (tm : Aipy.TaskManager),
    let ctx1 := {| chat_key := a +:+ "_" +:+ b; user_id := c;
                   platform_type := platform1; bot_id := bot1 |} in
    let ctx2 := {| chat_key := a; user_id := b +:+ "_" +:+ c;
                   platform_type := platform2; bot_id := bot2 |} in
    fst (_get_task_manager self ctx1 w1) = Py.Return tm ->
    chat_key ctx1 <> chat_key ctx2
    /\ session_id ctx1 = session_id ctx2
    /\ fst (_get_task_manager
              (snd (execute_task self ctx1 instruction context w1)) ctx2 w2)
       = Py.Return tm.
Proof.
  intros a b c platform1 platform2 bot1 bot2 self instruction context w1 w2
         tm. cbv zeta. intros Htm.
  assert (session_id
            {| chat_key := a +:+ "_" +:+ b; user_id := c;
               platform_type := platform1; bot_id := bot1 |}
          = session_id
              {| chat_key := a; user_id := b +:+ "_" +:+ c;
                 platform_type := platform2; bot_id := bot2 |}) as Hsame.
  { unfold session_id. cbn [chat_key user_id].
    now rewrite string_append_assoc. }
  split; [|split; [exact Hsame|]].
  - cbn [chat_key]. intros Heq.
    apply (f_equal String.length) in Heq.
    rewrite string_length_append in Heq. simpl in Heq. lia.
  - rewrite execute_task_state. unfold _get_task_manager in Htm |- *.
    rewrite <- Hsame.
    destruct (Py.get (_task_managers self) _) as [tm0|] eqn:Hget.
    + cbn [fst snd] in *. now rewrite Hget.
    + destruct (construct_raises w1); [discriminate|].
      cbn [fst snd with_task_managers _task_managers] in *.
      injection Htm as <-. now rewrite get_set_same.
Qed.

Lemma session_ids_collide_on_underscores_witness :
  let ctx1 := {| chat_key := "group_42"; user_id := "7";
                 platform_type := "qq"; bot_id := "bot" |} in
  let ctx2 := {| chat_key := "group"; user_id := "42_7";
                 platform_type := "qq"; bot_id := "bot" |} in
  let self := {| workdir := "/data"; timeout := 300%Z;
                 max_memory_mb := 512%Z; _task_managers := [] |} in
  let w := {| construct_raises := None; config := [];
              run := RunReturns {| Aipy.steps := [];
                                   Aipy.cwd_listing := None;
                                   Aipy.runtime_globals := None |};
              start_time := 0%Q; end_time := 1%Q |} in
  chat_key ctx1 <> chat_key ctx2
  /\ session_id ctx1 = session_id ctx2
  /\ fst (_get_task_manager (snd (execute_task self ctx1 "x" None w)) ctx2 w)
     = Py.Return {| Aipy.cwd := "/data/group_42_7"; Aipy.settings := [] |}.
Proof.
  cbv zeta.
  refine (session_ids_collide_on_underscores
            "group" "42" "7" "qq" "qq" "bot" "bot" _ "x" None _ _ _ _).
  reflexivity.
Defined.

End SandboxExecutorMore.

(** * More on the orchestrator tools *)

Section OrchestratorMore.

Import SandboxExecutor.
Import Orchestrator.

(** X18: the workflow tool returns a dict with [success = true] exactly
    when the list of instructions is not empty, every instruction was run,
    every step succeeded and [json.dumps] accepts the recorded steps;
    [final_output] is then the output of the last step.  Every dict it
    returns holds the recorded steps.  When [json.dumps] rejects the
    steps recorded it rejects them in the handler too, and its exception
    leaves the tool.  An empty list gives [success = false]. *)
Theorem workflow_success_iff :
  forall (self : AipyappSandboxExecutor) (ctx : AgentCtx)
         (worlds : nat -> World)
         (dumps_raises : list StepRecord -> option Py.Exception)
         (instruction_list : list string),
    let R := execute_python_workflow dumps_raises
               {| executor := Some self |} ctx
               (Array instruction_list) worlds in
    let steps := recorded R in
    ((exists reply, response R = ToolReturns reply /\ wf_success reply = true)
     <-> instruction_list <> []
         /\ length steps = length instruction_list
         /\ Forall (fun s => success (result s) = true) steps
         /\ dumps_raises steps = None)
    /\ (forall reply,
          response R = ToolReturns reply ->
          wf_steps reply = steps
          /\ (wf_success reply = true ->
              exists earlier last,
                steps = earlier ++ [last]
                /\ wf_final_output reply = Some (output (result last))
                /\ wf_error reply = None))
    /\ (forall e,
          steps <> [] -> dumps_raises steps = Some e ->
          response R = ToolRaises e)
    /\ (instruction_list = [] ->
        exists reply, response R = ToolReturns reply
                      /\ wf_success reply = false).
Proof.
  intros self ctx worlds dumps_raises instruction_list. cbv zeta.
  pose proof (run_steps_returns_iff ctx worlds dumps_raises
                instruction_list self) as Hret.
  unfold execute_python_workflow. cbn [executor].
  assert (instruction_list = [] ->
          exists reply,
            response (run_steps dumps_raises self ctx worlds 0
                        instruction_list [] [] 0%Q []) = ToolReturns reply
            /\ wf_success reply = false) as Hempty.
  { intros ->. eexists. split; reflexivity. }
  destruct (run_steps_shape ctx worlds dumps_raises instruction_list self
              0 [] [] 0%Q [])
    as (ns & nc & rest & Hs & Hc & Hi & _ & _ & _ & _ & _ & Hend).
  cbv zeta in *. simpl in Hs, Hc. rewrite Hs in *.
  assert (length instruction_list = length nc + length rest)%nat as Hlen_i.
  { rewrite Hi at 1. now rewrite length_app, length_map. }
  assert (forall e,
             ns <> [] -> dumps_raises ns = Some e ->
             response (run_steps dumps_raises self ctx worlds 0
                         instruction_list [] [] 0%Q []) = ToolRaises e)
    as Hraise.
  { intros e Hne Hd. rewrite Hd in Hret. destruct ns; [congruence | exact Hret]. }
  clear Hret.
  destruct Hend as [(Hr & Hlen & Hall & Hresp)
                   |[(prior & failed & Hns & Hlen & Hall & Hf & Hresp)
                    |(msg & Hlen & Hall & Hresp)]];
    simpl in Hresp;
    (split; [|split; [|split; [exact Hraise | exact Hempty]]]);
    rewrite Hresp; clear Hraise Hempty Hresp.
  - subst rest. simpl in Hlen_i. rewrite completed_cases.
    destruct (rev ns) as [|last earlier] eqn:Hrev.
    + assert (ns = []) as -> by (rewrite <- (rev_involutive ns), Hrev;
                                 reflexivity).
      split.
      * intros (reply & [= <-] & H). discriminate.
      * intros (Hne & Hl & _). simpl in Hl.
        destruct instruction_list; [congruence | discriminate].
    + assert (ns = rev earlier ++ [last]) as Hns.
      { rewrite <- (rev_involutive ns), Hrev. reflexivity. }
      destruct (dumps_raises ns) as [e|] eqn:Hd.
      * split.
        -- intros (reply & H & _). discriminate.
        -- intros (_ & _ & _ & H). discriminate.
      * split.
        -- intros _. split; [|split; [lia | split; [exact Hall | reflexivity]]].
           intros ->. simpl in Hlen_i. rewrite Hns in Hlen.
           rewrite length_app in Hlen. simpl in Hlen. lia.
        -- intros _. eexists. split; reflexivity.
  - rewrite completed_cases.
    destruct (rev ns) as [|last earlier] eqn:Hrev.
    + intros reply [= <-]. split; [reflexivity | discriminate].
    + assert (ns = rev earlier ++ [last]) as Hns.
      { rewrite <- (rev_involutive ns), Hrev. reflexivity. }
      destruct (dumps_raises ns) as [e|]; [discriminate|].
      intros reply [= <-]. cbn [wf_steps wf_success wf_final_output wf_error].
      split; [reflexivity|]. intros _. exists (rev earlier), last.
      split; [exact Hns | split; reflexivity].
  - split.
    + intros (reply & H & Ht). apply return_dumps_returns in H.
      subst reply. discriminate.
    + intros (_ & _ & Hok & _). exfalso.
      rewrite Forall_forall in Hok.
      assert (success (result failed) = true) as Hs'.
      { apply Hok. rewrite Hns. apply in_or_app. right. now left. }
      congruence.
  - intros reply H. apply return_dumps_returns in H. subst reply.
    split; [reflexivity | discriminate].
  - split.
    + intros (reply & H & Ht). apply outer_handler_returns in H.
      subst reply. discriminate.
    + intros (_ & Hl & _). lia.
  - intros reply H. apply outer_handler_returns in H. subst reply.
    split; [reflexivity | discriminate].
Qed.

Lemma execute_task_by_world (self : AipyappSandboxExecutor) (ctx : AgentCtx)
  (instruction : string) (context : option (Py.Dict Py.Value)) (w : World) :
  construct_raises w = None ->
  exists tm, fst (_get_task_manager self ctx w) = Py.Return tm.
Proof.
  intros Hc. unfold _get_task_manager.
  destruct (Py.get (_task_managers self) (session_id ctx)) as [tm|];
    [now exists tm|].
  rewrite Hc. eexists. reflexivity.
Qed.

Lemma execute_task_timeout_kept (self : AipyappSandboxExecutor)
  (ctx : AgentCtx) (instruction : string)
  (context : option (Py.Dict Py.Value)) (w : World) :
  timeout (snd (execute_task self ctx instruction context w)) = timeout self.
Proof.
  rewrite execute_task_state. unfold _get_task_manager.
  destruct (Py.get _ _); [reflexivity|].
  now destruct (construct_raises w).
Qed.

Lemma run_steps_deadline (ctx : AgentCtx) (worlds : nat -> World)
  (dumps_raises : list StepRecord -> option Py.Exception) (k : nat) :
  forall instruction_list executor i steps_results context_dict total_time
         calls0,
    k < length instruction_list ->
    (forall j, j <= k -> construct_raises (worlds (i + j)) = None) ->
    (forall j, j < k -> exists task, run (worlds (i + j)) = RunReturns task) ->
    run (worlds (i + k)) = DeadlineElapsed ->
    let R := run_steps dumps_raises executor ctx worlds i instruction_list
               steps_results context_dict total_time calls0 in
    exists new_steps new_calls,
      response R
      = outer_handler dumps_raises (timeout_message executor)
          (steps_results ++ new_steps)
      /\ recorded R = steps_results ++ new_steps
      /\ length new_steps = k
      /\ calls R = calls0 ++ new_calls
      /\ map call_instruction new_calls = firstn (S k) instruction_list.
Proof.
  induction k as [|k IH];
    intros instruction_list executor i steps_results context_dict total_time
           calls0 Hk Hbuild Hruns Hdead; cbv zeta;
    (destruct instruction_list as [|instr rest]; [simpl in Hk; lia|]);
    cbn [run_steps].
  - destruct (execute_task_by_world executor ctx instr (Some context_dict)
                (worlds i)) as [tm Htm].
    { rewrite <- (Nat.add_0_r i). apply Hbuild. lia. }
    pose proof (execute_task_resolved executor ctx instr (Some context_dict)
                  (worlds i) tm Htm) as Hout.
    rewrite Nat.add_0_r in Hdead. rewrite Hdead in Hout.
    destruct (execute_task executor ctx instr (Some context_dict) (worlds i))
      as [out executor']. cbn [fst] in Hout. subst out.
    exists [], [{| call_ctx := ctx; call_instruction := instr;
                   call_context := context_dict |}].
    cbn [response calls recorded err_message]. rewrite app_nil_r.
    repeat split.
  - destruct (execute_task_by_world executor ctx instr (Some context_dict)
                (worlds i)) as [tm Htm].
    { rewrite <- (Nat.add_0_r i). apply Hbuild. lia. }
    pose proof (execute_task_resolved executor ctx instr (Some context_dict)
                  (worlds i) tm Htm) as Hout.
    destruct (Hruns 0) as [task Htask]; [lia|].
    rewrite Nat.add_0_r in Htask. rewrite Htask in Hout.
    pose proof (execute_task_timeout_kept executor ctx instr
                  (Some context_dict) (worlds i)) as Htime.
    destruct (execute_task executor ctx instr (Some context_dict) (worlds i))
      as [out executor']. cbn [fst snd] in Hout, Htime. subst out.
    cbn [success negb].
    match goal with
    | |- context [run_steps dumps_raises executor' ctx worlds (S i) rest
                    ?s ?c ?t ?l] =>
        destruct (IH rest executor' (S i) s c t l)
          as (ns & nc & H1 & Hrec & H2 & H3 & H4)
    end.
    + simpl in Hk. lia.
    + intros j Hj. replace (S i + j) with (i + S j) by lia. apply Hbuild. lia.
    + intros j Hj. replace (S i + j) with (i + S j) by lia. apply Hruns. lia.
    + replace (S i + k) with (i + S k) by lia. exact Hdead.
    + cbv zeta in *. rewrite H1, Hrec, H3. rewrite <- !app_assoc.
      eexists (_ :: ns), (_ :: nc). simpl.
      split; [unfold timeout_message; now rewrite Htime|].
      split; [reflexivity|].
      split; [now rewrite H2|]. split; [reflexivity|].
      now rewrite H4.
Qed.

(** X19: when the [k]-th call of a workflow runs into the deadline after
    [k] steps that completed, the tool has recorded the [k] completed
    steps and not the one that timed out, and invokes none of the later
    instructions.  If [json.dumps] accepts the recorded steps (as it
    does when there are none) the tool returns a dict with
    [success = false], the executor's timeout message as error, those
    steps and no [total_time]; if it rejects them its exception leaves
    the tool. *)
Theorem workflow_reports_step_timeout :
  forall (self : AipyappSandboxExecutor) (ctx : AgentCtx)
         (worlds : nat -> World)
         (dumps_raises : list StepRecord -> option Py.Exception)
         (instruction_list : list string) (k : nat),
    k < length instruction_list ->
    (forall j, j <= k -> construct_raises (worlds j) = None) ->
    (forall j, j < k -> exists task, run (worlds j) = RunReturns task) ->
    run (worlds k) = DeadlineElapsed ->
    let R := execute_python_workflow dumps_raises
               {| executor := Some self |} ctx
               (Array instruction_list) worlds in
    length (recorded R) = k
    /\ map call_instruction (calls R) = firstn (S k) instruction_list
    /\ (k = 0 \/ dumps_raises (recorded R) = None ->
        exists reply,
          response R = ToolReturns reply
          /\ wf_success reply = false
          /\ wf_error reply
             = Some ("Task execution exceeded "
                     +:+ Py.str_of_int (timeout self) +:+ "s timeout")
          /\ wf_steps reply = recorded R
          /\ wf_total_time reply = None)
    /\ (forall e,
          0 < k -> dumps_raises (recorded R) = Some e ->
          response R = ToolRaises e).
Proof.
  intros self ctx worlds dumps_raises instruction_list k Hk Hbuild Hruns
         Hdead. cbv zeta.
  unfold execute_python_workflow. cbn [executor].
  destruct (run_steps_deadline ctx worlds dumps_raises k instruction_list
              self 0 [] [] 0%Q [] Hk Hbuild Hruns Hdead)
    as (ns & nc & H1 & Hrec & H2 & H3 & H4).
  cbv zeta in *. simpl in H1, Hrec, H3. rewrite H1, Hrec, H3.
  rewrite outer_handler_cases.
  split; [exact H2|]. split; [exact H4|]. split.
  - intros Hor.
    assert (ns = [] \/ dumps_raises ns = None) as [-> | Hd].
    { destruct Hor as [-> | Hd]; [left | now right].
      now destruct ns. }
    + eexists. split; [reflexivity|]. repeat split.
    + destruct ns as [|s l]; [|rewrite Hd];
        (eexists; split; [reflexivity|]; repeat split).
  - intros e Hpos Hd.
    destruct ns as [|s l]; [simpl in H2; lia|]. now rewrite Hd.
Qed.

Lemma workflow_reports_step_timeout_witness :
  let ctx := {| chat_key := "test_chat"; user_id := "test_user";
                platform_type := "test"; bot_id := "test_bot" |} in
  let self := {| workdir := "/data"; timeout := 30%Z;
                 max_memory_mb := 512%Z; _task_managers := [] |} in
  let worlds (i : nat) :=
    {| construct_raises := None; config := [];
       run := match i with
              | O => RunReturns {| Aipy.steps := []; Aipy.cwd_listing := None;
                                   Aipy.runtime_globals := None |}
              | S _ => DeadlineElapsed
              end;
       start_time := 0%Q; end_time := 2%Q |} in
  let R := execute_python_workflow (fun _ => None)
             {| executor := Some self |} ctx
             (Array ["load"; "train"; "plot"]) worlds in
  length (recorded R) = 1
  /\ map call_instruction (calls R) = ["load"; "train"]
  /\ exists reply,
       response R = ToolReturns reply
       /\ wf_success reply = false
       /\ wf_error reply = Some "Task execution exceeded 30s timeout"
       /\ wf_steps reply = recorded R
       /\ wf_total_time reply = None.
Proof.
  cbv zeta.
  refine (let H := workflow_reports_step_timeout _ _ _ (fun _ => None)
                     ["load"; "train"; "plot"] 1 _ _ _ _ in
          conj (proj1 H)
            (conj (proj1 (proj2 H))
               (proj1 (proj2 (proj2 H)) (or_intror eq_refl)))).
  - simpl. lia.
  - reflexivity.
  - intros [|j] Hj; [now eexists | lia].
  - reflexivity.
Defined.

(** X20: the single task tool replies with [success = true] exactly
    when the plugin is initialised, the context is absent or decodes to
    something mergeable, the session's [TaskManager] is resolved, the
    run completes and the result can be serialised.  Every other reply
    has [success = false] and an error message; a run that hits the
    deadline is reported that way too, with the timeout message, and is
    not raised to the agent. *)
Theorem task_tool_success_iff :
  forall (self : AipyappOrchestratorPlugin) (ctx : AgentCtx)
         (instruction : string) (context : ContextArg) (w : World)
         (dumps_raises : option Py.Exception),
    let reply :=
      fst (execute_python_task self ctx instruction context w dumps_raises) in
    (reply_success reply = true
     <-> exists ex tm task,
           executor self = Some ex
           /\ (context = NoContext \/ exists d, context = Decoded d)
           /\ fst (_get_task_manager ex ctx w) = Py.Return tm
           /\ run w = RunReturns task
           /\ dumps_raises = None)
    /\ (reply_success reply = false ->
        exists message, reply_error reply = Some message)
    /\ (forall ex tm,
          executor self = Some ex ->
          context = NoContext \/ (exists d, context = Decoded d) ->
          fst (_get_task_manager ex ctx w) = Py.Return tm ->
          run w = DeadlineElapsed ->
          reply = ReplyFailure ("Task execution exceeded "
                                +:+ Py.str_of_int (timeout ex)
                                +:+ "s timeout")).
Proof.
  intros [[ex|]] ctx instruction context w dumps_raises; cbv zeta;
    unfold execute_python_task; cbn [executor].
  2:{ cbn [fst reply_success reply_error]. split; [|split].
      - split; [discriminate|]. intros (ex & tm & task & H & _). discriminate.
      - intros _. now eexists.
      - intros ex tm H. discriminate. }
  assert (forall c : option (Py.Dict Py.Value),
             let reply :=
               fst (match fst (execute_task ex ctx instruction c w) with
                    | Raised e =>
                        (ReplyFailure (err_message e),
                         Some (snd (execute_task ex ctx instruction c w)))
                    | Returned result =>
                        match dumps_raises with
                        | Some e =>
                            (ReplyFailure (Py.exc_str e),
                             Some (snd (execute_task ex ctx instruction c w)))
                        | None =>
                            (ReplyResult result,
                             Some (snd (execute_task ex ctx instruction c w)))
                        end
                    end) in
             (reply_success reply = true
              <-> exists tm task,
                    fst (_get_task_manager ex ctx w) = Py.Return tm
                    /\ run w = RunReturns task /\ dumps_raises = None)
             /\ (reply_success reply = false ->
                 exists message, reply_error reply = Some message)
             /\ (forall tm,
                    fst (_get_task_manager ex ctx w) = Py.Return tm ->
                    run w = DeadlineElapsed ->
                    reply = ReplyFailure (timeout_message ex))) as Hcall.
  { intros c. cbv zeta.
    destruct (fst (_get_task_manager ex ctx w)) as [tm|e] eqn:Htm.
    - rewrite (execute_task_resolved ex ctx instruction c w tm Htm).
      destruct (run w) as [task|e|] eqn:Hrun.
      + destruct dumps_raises as [e|]; cbn [fst reply_success reply_error
                                              success error].
        * split; [|split].
          -- split; [discriminate|]. intros (? & ? & _ & _ & H). discriminate.
          -- intros _. now eexists.
          -- intros ? _ H. discriminate.
        * split; [|split].
          -- split; [|reflexivity]. intros _. now exists tm, task.
          -- discriminate.
          -- intros ? _ H. discriminate.
      + destruct dumps_raises as [e'|]; cbn [fst reply_success reply_error
                                               success error].
        * split; [|split].
          -- split; [discriminate|]. intros (? & ? & _ & H & _). discriminate.
          -- intros _. now eexists.
          -- intros ? _ H. discriminate.
        * split; [|split].
          -- split; [discriminate|]. intros (? & ? & _ & H & _). discriminate.
          -- intros _. now eexists.
          -- intros ? _ H. discriminate.
      + cbn [fst reply_success reply_error err_message]. split; [|split].
        * split; [discriminate|]. intros (? & ? & _ & H & _). discriminate.
        * intros _. now eexists.
        * reflexivity.
    - rewrite (execute_task_unresolved ex ctx instruction c w e Htm).
      cbn [fst reply_success reply_error]. split; [|split].
      + split; [discriminate|]. intros (? & ? & H & _). discriminate.
      + intros _. now eexists.
      + intros ? H. discriminate. }
  destruct context as [| |d|e].
  - destruct (Hcall None) as (H1 & H2 & H3). split; [|split].
    + rewrite H1. split.
      * intros (tm & task & Ha & Hb & Hc). exists ex, tm, task. auto.
      * intros (ex' & tm & task & [= <-] & _ & Ha & Hb & Hc).
        now exists tm, task.
    + exact H2.
    + intros ex' tm [= <-] _. apply H3.
  - cbn [fst reply_success reply_error]. split; [|split].
    + split; [discriminate|].
      intros (? & ? & ? & _ & [H|[d H]] & _); discriminate.
    + intros _. now eexists.
    + intros ? ? _ [H|[d H]]; discriminate.
  - destruct (Hcall (Some d)) as (H1 & H2 & H3). split; [|split].
    + rewrite H1. split.
      * intros (tm & task & Ha & Hb & Hc). exists ex, tm, task.
        split; [reflexivity|]. split; [right; now exists d | auto].
      * intros (ex' & tm & task & [= <-] & _ & Ha & Hb & Hc).
        now exists tm, task.
    + exact H2.
    + intros ex' tm [= <-] _. apply H3.
  - unfold execute_task_unmergeable.
    destruct (_get_task_manager ex ctx w) as [[tm|e'] ex1];
      cbn [fst snd reply_success reply_error]; (split; [|split]);
      try (split; [discriminate|];
           intros (? & ? & ? & _ & [H|[d H]] & _); discriminate);
      try (intros _; now eexists);
      intros ? ? _ [H|[d H]]; discriminate.
Qed.

(** X21: the workflow tool calls the executor unless the plugin is not
    initialised or the instructions are not a non-empty JSON array; in
    those cases it returns a dict with [success = false], an error
    message and no steps, whatever [json.dumps] does with step records,
    and leaves the executor as it is. *)
Theorem workflow_calls_nothing_iff :
  forall (dumps_raises : list StepRecord -> option Py.Exception)
         (self : AipyappOrchestratorPlugin) (ctx : AgentCtx)
         (instructions : Instructions) (worlds : nat -> World),
    let R := execute_python_workflow dumps_raises self ctx instructions
               worlds in
    (calls R = []
     <-> executor self = None
         \/ forall instruction rest, instructions <> Array (instruction :: rest))
    /\ (calls R = [] ->
        (exists reply,
            response R = ToolReturns reply
            /\ wf_success reply = false
            /\ wf_steps reply = []
            /\ exists message, wf_error reply = Some message)
        /\ recorded R = []
        /\ executor_after R = executor self).
Proof.
  intros dumps_raises [[ex|]] ctx instructions worlds; cbv zeta;
    unfold execute_python_workflow; cbn [executor].
  2:{ cbn [calls response executor_after recorded].
      split; [split; auto|]. intros _.
      split; [|split; reflexivity].
      eexists. split; [reflexivity|]. repeat split. now eexists. }
  destruct instructions as [msg| |[|instruction rest]].
  - cbn [calls response executor_after recorded].
    split; [split; [intros _; right; discriminate | reflexivity]|].
    intros _. split; [|split; reflexivity].
    eexists. split; [reflexivity|]. repeat split. now eexists.
  - cbn [calls response executor_after recorded].
    split; [split; [intros _; right; discriminate | reflexivity]|].
    intros _. split; [|split; reflexivity].
    eexists. split; [reflexivity|]. repeat split. now eexists.
  - cbn [run_steps calls response executor_after recorded].
    split; [split; [intros _; right; discriminate | reflexivity]|].
    intros _. split; [|split; reflexivity].
    eexists. split; [reflexivity|]. repeat split. now eexists.
  - assert (calls (run_steps dumps_raises ex ctx worlds 0
                     (instruction :: rest) [] [] 0%Q []) <> []) as Hcalls.
    { destruct (run_steps_shape ctx worlds dumps_raises (instruction :: rest)
                  ex 0 [] [] 0%Q [])
        as (ns & nc & rest' & _ & Hc & Hi & _ & _ & _ & _ & _ & Hend).
      cbv zeta in *. rewrite Hc. simpl. intros ->. simpl in Hi.
      destruct Hend as [(Hr & _)|[(p & f & Hns & Hlen & _)|(m & Hlen & _)]].
      - subst rest'. discriminate.
      - rewrite Hns, length_app in Hlen. simpl in Hlen. lia.
      - simpl in Hlen. lia. }
    split; [|intros H; contradiction]. split; [intros H; contradiction|].
    intros [H|H]; [discriminate|]. exfalso. now apply (H instruction rest).
Qed.

End OrchestratorMore.
